(** * Layout Synthesis Engine and Envelope Builder: a shallow embedding

    The definitions below follow [layout3_working.py] and
    [envelope_builder_mark2.py] function by function.

    Modelling conventions.
    - Python numbers are modelled by exact rationals [Q]; every literal of
      the source (0.5, 2.5, 0.2, 0.01, ...) is the rational it denotes.
      Statements compare rationals with [==], [<], [<=] or with the
      boolean tests [<?], [<=?].
    - Objects that the source mutates in place (the rooms) live in a
      [list Room.t]; a reference to a room is its index in that list, a
      field assignment is an [alter] at that index, and [a is b] is
      equality of indices.
    - Wall segments are values: [merge_walls] is given segments that are
      distinct objects, and its result is the list of their final states.
    - Strings are [string]; [str.lower] acts on the ASCII letters.
    - Dictionaries read by key are records; a key that may be missing is
      an [option] field, and reading it with [d[key]] may raise. *)

From Stdlib Require Import QArith Qminmax Qabs Qround ZArith List String Ascii Bool Lia Lqa.
From stdpp Require Import base list.

Local Open Scope Q_scope.

(** ** Numbers *)

Definition Qltb (a b : Q) : bool := negb (Qle_bool b a).

Infix "<=?" := Qle_bool (at level 70, no associativity) : Q_scope.
Infix "<?" := Qltb (at level 70, no associativity) : Q_scope.
Infix "=?" := Qeq_bool (at level 70, no associativity) : Q_scope.

Definition Qmin4 (a b c d : Q) : Q := Qmin (Qmin (Qmin a b) c) d.

(** Python's [round(v)] on one argument: nearest integer, ties to even. *)
Definition py_round (v : Q) : Z :=
  let f := Qfloor v in
  let d := v - inject_Z f in
  if d <? 1 # 2 then f
  else if (1 # 2) <? d then (f + 1)%Z
  else if Z.even f then f else (f + 1)%Z.

(** ** Strings *)

Definition lower_ascii (c : ascii) : ascii :=
  let n := nat_of_ascii c in
  if ((65 <=? n)%nat && (n <=? 90)%nat)%bool then ascii_of_nat (n + 32) else c.

Fixpoint lower (s : string) : string :=
  match s with
  | EmptyString => EmptyString
  | String c s' => String (lower_ascii c) (lower s')
  end.

(** [sub in s] on Python strings. *)
Fixpoint contains (sub s : string) : bool :=
  (String.prefix sub s ||
   match s with
   | EmptyString => false
   | String _ s' => contains sub s'
   end)%bool.

(** ** The room graph model *)

(** An entry of [adjacency_edges]: [{to, type, edge_preference}]. *)
Module Edge.
Record t := mk {
  to : string;
  type : string;
  edge_preference : option string
}.
End Edge.

Module Room.
Record t := mk {
  room_id : string;
  name : string;
  purpose : string;
  width : Q;
  height : Q;
  zone : string;
  adjacency : list Edge.t;
  x : Q;
  y : Q;
  locked : bool;
  priority : Z
}.

Definition set_x (v : Q) (r : t) : t :=
  mk (room_id r) (name r) (purpose r) (width r) (height r) (zone r)
     (adjacency r) v (y r) (locked r) (priority r).
Definition set_y (v : Q) (r : t) : t :=
  mk (room_id r) (name r) (purpose r) (width r) (height r) (zone r)
     (adjacency r) (x r) v (locked r) (priority r).
Definition set_width (v : Q) (r : t) : t :=
  mk (room_id r) (name r) (purpose r) v (height r) (zone r)
     (adjacency r) (x r) (y r) (locked r) (priority r).
Definition set_height (v : Q) (r : t) : t :=
  mk (room_id r) (name r) (purpose r) (width r) v (zone r)
     (adjacency r) (x r) (y r) (locked r) (priority r).
Definition set_locked (v : bool) (r : t) : t :=
  mk (room_id r) (name r) (purpose r) (width r) (height r) (zone r)
     (adjacency r) (x r) (y r) v (priority r).
Definition set_priority (v : Z) (r : t) : t :=
  mk (room_id r) (name r) (purpose r) (width r) (height r) (zone r)
     (adjacency r) (x r) (y r) (locked r) v.

Definition bounds (r : t) : Q * Q * Q * Q :=
  (x r, y r, x r + width r, y r + height r).

Definition center (r : t) : Q * Q :=
  (x r + width r / 2, y r + height r / 2).

Definition area (r : t) : Q := width r * height r.

Definition MAX_CORRIDOR_LEN : Q := 12.

Definition make_corridor (room_a room_b : t) (width : Q) : t :=
  let '(ax, ay) := center room_a in
  let '(bx, by_) := center room_b in
  if Qabs (ay - by_) <? Qabs (ax - bx) then
    let length := Qmin (Qabs (ax - bx)) MAX_CORRIDOR_LEN in
    mk ("corridor_" ++ room_id room_a ++ "_" ++ room_id room_b)
       "Corridor" "circulation" length width "circulation" []
       (Qmin ax bx) ((ay + by_) / 2 - width / 2) false 0
  else
    let length := Qmin (Qabs (ay - by_)) MAX_CORRIDOR_LEN in
    mk ("corridor_" ++ room_id room_a ++ "_" ++ room_id room_b)
       "Corridor" "circulation" width length "circulation" []
       ((ax + bx) / 2 - width / 2) (Qmin ay by_) false 0.
End Room.

(** The room a reference denotes; references held by the pipeline are
    always valid indices, the default is never reached. *)
Definition dummy_room : Room.t :=
  Room.mk "" "" "" 0 0 "" [] 0 0 false 0.

Definition get (rs : list Room.t) (i : nat) : Room.t :=
  default dummy_room (rs !! i).

Definition is_master_bed (r : Room.t) : bool :=
  (String.eqb (Room.purpose r) "bedroom" &&
   contains "master" (lower (Room.name r)))%bool.

Definition is_master_bath (r : Room.t) : bool :=
  (String.eqb (Room.purpose r) "bathroom" &&
   contains "master" (lower (Room.name r)))%bool.

Definition has_purpose (p : string) (r : Room.t) : bool :=
  String.eqb (Room.purpose r) p.

Definition is_foyer (r : Room.t) : bool :=
  contains "foyer" (lower (Room.name r)).

(** [next((r for r in rooms if p(r)), None)], as a reference. *)
Fixpoint find_index (p : Room.t -> bool) (rs : list Room.t) : option nat :=
  match rs with
  | [] => None
  | r :: rs' => if p r then Some 0%nat else S <$> find_index p rs'
  end.

(** ** Zone Placer *)

Module ImprovedZonePlacer.
Record t := mk { x0 : Q; y0 : Q; w : Q; h : Q }.

Definition init (plot_w plot_h front rear left right : Q) : t :=
  mk left front (plot_w - left - right) (plot_h - front - rear).

Definition bounds (p : t) : Q * Q * Q * Q :=
  (x0 p, y0 p, x0 p + w p, y0 p + h p).

Definition assign_priority (r : Room.t) : Room.t :=
  let master := contains "master" (lower (Room.name r)) in
  let p := Room.purpose r in
  if String.eqb p "living" then Room.set_priority 100 r
  else if (String.eqb p "bedroom" && master)%bool then Room.set_priority 90 r
  else if (String.eqb p "bathroom" && master)%bool then Room.set_priority 85 r
  else if String.eqb p "kitchen" then Room.set_priority 80 r
  else if String.eqb p "bedroom" then Room.set_priority 70 r
  else if String.eqb p "bathroom" then Room.set_priority 65 r
  else if is_foyer r then Room.set_priority 95 r
  else Room.set_priority 50 r.

Definition is_common_bath (r : Room.t) : bool :=
  (String.eqb (Room.purpose r) "bathroom" &&
   contains "common" (lower (Room.name r)))%bool.

Definition is_kid_room (r : Room.t) : bool :=
  (String.eqb (Room.purpose r) "bedroom" &&
   negb (contains "master" (lower (Room.name r))))%bool.

(** References to the rooms satisfying [p], in list order. *)
Definition indices_where (p : Room.t -> bool) (rs : list Room.t) : list nat :=
  List.filter (fun i => p (get rs i)) (seq 0 (length rs)).

(** The body of [for i, kid_room in enumerate(kids_rooms)]. *)
Fixpoint place_kids (mb : nat) (i : nat) (kids : list nat)
    (rs : list Room.t) : list Room.t :=
  match kids with
  | [] => rs
  | k :: kids' =>
      let rs := alter (Room.set_x
                  (Room.x (get rs mb) + Room.width (get rs mb) + (3 # 2))) k rs in
      let rs := alter (Room.set_y
                  (Room.y (get rs mb) +
                   inject_Z (Z.of_nat i) * (Room.height (get rs k) + 1))) k rs in
      place_kids mb (S i) kids' rs
  end.

Definition place (p : t) (rooms : list Room.t) : list Room.t :=
  let rs := map assign_priority rooms in
  let living_room := find_index (has_purpose "living") rs in
  let foyer := find_index is_foyer rs in
  let kitchen := find_index (has_purpose "kitchen") rs in
  let master_bed := find_index is_master_bed rs in
  let master_bath := find_index is_master_bath rs in
  let common_bath := find_index is_common_bath rs in
  let kids_rooms := indices_where is_kid_room rs in
  (* living room *)
  let rs :=
    match living_room with
    | Some l => alter (Room.set_y (y0 p + 1)) l (alter (Room.set_x (x0 p + 1)) l rs)
    | None => rs
    end in
  (* foyer takes the corner, living shifts right *)
  let rs :=
    match foyer, living_room with
    | Some f, Some l =>
        let rs := alter (Room.set_x (x0 p + 1)) f rs in
        let rs := alter (Room.set_y (y0 p + 1)) f rs in
        alter (Room.set_x (Room.x (get rs f) + Room.width (get rs f) + 1)) l rs
    | _, _ => rs
    end in
  (* kitchen *)
  let rs :=
    match kitchen with
    | Some k =>
        match foyer with
        | Some f =>
            let rs := alter (Room.set_x (Room.x (get rs f))) k rs in
            alter (Room.set_y (Room.y (get rs f) + Room.height (get rs f) + 1)) k rs
        | None =>
            match living_room with
            | Some l =>
                let rs := alter (Room.set_x (Room.x (get rs l))) k rs in
                alter (Room.set_y
                         (Room.y (get rs l) + Room.height (get rs l) + 1)) k rs
            | None =>
                alter (Room.set_y (y0 p + 1)) k (alter (Room.set_x (x0 p + 1)) k rs)
            end
        end
    | None => rs
    end in
  (* common bathroom *)
  let rs :=
    match common_bath, living_room with
    | Some c, Some l =>
        let rs := alter (Room.set_x
                    (Room.x (get rs l) + Room.width (get rs l) + (1 # 2))) c rs in
        alter (Room.set_y (Room.y (get rs l) + 2)) c rs
    | _, _ => rs
    end in
  (* master bedroom *)
  let rs :=
    match master_bed with
    | Some m =>
        match kitchen with
        | Some k =>
            let rs := alter (Room.set_x (x0 p + 1)) m rs in
            alter (Room.set_y
                     (Room.y (get rs k) + Room.height (get rs k) + 2)) m rs
        | None =>
            let rs := alter (Room.set_x (x0 p + 1)) m rs in
            alter (Room.set_y (y0 p + h p * (1 # 2))) m rs
        end
    | None => rs
    end in
  (* master bathroom *)
  let rs :=
    match master_bath, master_bed with
    | Some mb, Some m =>
        let rs := alter (Room.set_x (Room.x (get rs m))) mb rs in
        let rs := alter (Room.set_y
                    (Room.y (get rs m) + Room.height (get rs m) + (1 # 2))) mb rs in
        alter (Room.set_locked true) mb rs
    | _, _ => rs
    end in
  (* other bedrooms *)
  match kids_rooms, master_bed with
  | _ :: _, Some m => place_kids m 0 kids_rooms rs
  | _, _ => rs
  end.
End ImprovedZonePlacer.

(** ** Sorting as the source uses it *)

(** [l.sort(key=..., reverse=True)] and [sorted(l, key=..., reverse=True)]:
    descending by key, elements with equal keys keep their order. *)
Fixpoint insert_desc {A} (key : A -> Z) (v : A) (l : list A) : list A :=
  match l with
  | [] => [v]
  | u :: l' => if (key u <? key v)%Z then v :: l else u :: insert_desc key v l'
  end.

Definition sort_desc {A} (key : A -> Z) (l : list A) : list A :=
  fold_left (fun acc v => insert_desc key v acc) l [].

(** [room_map = {r.room_id: r for r in rooms}] followed by
    [room_map.get(k)]: the last room carrying that identifier. *)
Fixpoint room_map_get_from (i : nat) (rs : list Room.t) (k : string) : option nat :=
  match rs with
  | [] => None
  | r :: rs' =>
      match room_map_get_from (S i) rs' k with
      | Some j => Some j
      | None => if String.eqb (Room.room_id r) k then Some i else None
      end
  end.

Definition room_map_get (rs : list Room.t) (k : string) : option nat :=
  room_map_get_from 0 rs k.

(** ** Adjacency Refiner *)

Inductive Side := Right | Left | Top | Bottom.

Definition Side_eqb (a b : Side) : bool :=
  match a, b with
  | Right, Right | Left, Left | Top, Top | Bottom, Bottom => true
  | _, _ => false
  end.

Module StrictAdjacencyRefiner.
Definition GRID : Q := 1 # 2.
Definition MIN_SHARED_WALL : Q := 5 # 2.

Definition _snap_to_grid (v : Q) : Q := inject_Z (py_round (v / GRID)) * GRID.

Definition _snap_room_to_grid (r : Room.t) : Room.t :=
  let r := Room.set_x (_snap_to_grid (Room.x r)) r in
  Room.set_y (_snap_to_grid (Room.y r)) r.

Definition _manhattan (a b : Room.t) : Q :=
  let '(ax, ay) := Room.center a in
  let '(bx, by_) := Room.center b in
  Qabs (ax - bx) + Qabs (ay - by_).

Definition _inside_bounds (room : Room.t) (bounds : Q * Q * Q * Q) : bool :=
  let '(x1, y1, x2, y2) := Room.bounds room in
  let '(bx1, by1, bx2, by2) := bounds in
  ((bx1 <=? x1) && (by1 <=? y1) && (x2 <=? bx2) && (y2 <=? by2))%bool.

Definition _overlap (a b : Room.t) : bool :=
  let '(ax1, ay1, ax2, ay2) := Room.bounds a in
  let '(bx1, by1, bx2, by2) := Room.bounds b in
  negb ((ax2 <=? bx1) || (bx2 <=? ax1) || (ay2 <=? by1) || (by2 <=? ay1))%bool.

Definition _overlaps_any (room : nat) (rs : list Room.t) (ignore : nat) : bool :=
  existsb (fun i => (negb (Nat.eqb i room) && negb (Nat.eqb i ignore) &&
                     _overlap (get rs room) (get rs i))%bool)
          (seq 0 (length rs)).

Definition _wall_overlap (a b : Room.t) (side : Side) : Q :=
  let '(ax1, ay1, ax2, ay2) := Room.bounds a in
  let '(bx1, by1, bx2, by2) := Room.bounds b in
  match side with
  | Left | Right => Qmin ay2 by2 - Qmax ay1 by1
  | Top | Bottom => Qmin ax2 bx2 - Qmax ax1 bx1
  end.

Definition EDGE_MAP_get (k : option string) : option Side :=
  match k with
  | None => None
  | Some s =>
      if String.eqb s "front" then Some Top
      else if String.eqb s "rear" then Some Bottom
      else if String.eqb s "left" then Some Left
      else if String.eqb s "right" then Some Right
      else None
  end.

Definition triple_ltb (a b : Q * Q * Q) : bool :=
  let '(s1, x1, y1) := a in
  let '(s2, x2, y2) := b in
  if s1 <? s2 then true else if s2 <? s1 then false
  else if x1 <? x2 then true else if x2 <? x1 then false
  else y1 <? y2.

(** First element of [scored] after [scored.sort(reverse=True)]. *)
Fixpoint sorted_first (scored : list (Q * Q * Q)) : option (Q * Q * Q) :=
  match scored with
  | [] => None
  | c :: rest =>
      match sorted_first rest with
      | Some m => if triple_ltb c m then Some m else Some c
      | None => Some c
      end
  end.

Definition _best_snap (anchor mover : nat) (rs : list Room.t)
    (bounds : Q * Q * Q * Q) (edge : Edge.t) : option (Q * Q) :=
  let '(ax1, ay1, ax2, ay2) := Room.bounds (get rs anchor) in
  let bw := Room.width (get rs mover) in
  let bh := Room.height (get rs mover) in
  let candidates :=
    [ (Right, (ax2 + (1 # 2), ay1));
      (Left, (ax1 - bw - (1 # 2), ay1));
      (Top, (ax1, ay1 - bh - (1 # 2)));
      (Bottom, (ax1, ay2 + (1 # 2))) ] in
  let preferred := EDGE_MAP_get (Edge.edge_preference edge) in
  let scored :=
    flat_map
      (fun '(side, (cx, cy)) =>
         let rs' := alter (Room.set_y cy) mover (alter (Room.set_x cx) mover rs) in
         if negb (_inside_bounds (get rs' mover) bounds) then []
         else if _overlaps_any mover rs' anchor then []
         else
           let overlap := _wall_overlap (get rs' anchor) (get rs' mover) side in
           if overlap <? MIN_SHARED_WALL then []
           else
             let dist := _manhattan (get rs' anchor) (get rs' mover) in
             let score := overlap * 100 - dist * 2 in
             let score :=
               match preferred with
               | Some p => if Side_eqb p side then score + overlap * 100 else score
               | None => score
               end in
             [(score, cx, cy)])
      candidates in
  match sorted_first scored with
  | None => None
  | Some (_, bx, by_) => Some (_snap_to_grid bx, _snap_to_grid by_)
  end.

(** The unconditional master bedroom / master bathroom step that opens
    every iteration. *)
Definition force_master (rs : list Room.t) : list Room.t :=
  match find_index is_master_bed rs, find_index is_master_bath rs with
  | Some bed, Some bath =>
      let rs := alter (Room.set_x
                  (Room.x (get rs bed) + Room.width (get rs bed) + (1 # 2))) bath rs in
      let rs := alter (Room.set_y (Room.y (get rs bed))) bath rs in
      alter (Room.set_locked true) bath rs
  | _, _ => rs
  end.

Definition edge_priority (anchor target : Room.t) : Z :=
  let ap := Room.purpose anchor in
  let tp := Room.purpose target in
  if (String.eqb tp "bathroom" && String.eqb ap "bedroom")%bool then 80%Z
  else if ((String.eqb ap "kitchen" && String.eqb tp "living") ||
           (String.eqb ap "living" && String.eqb tp "kitchen"))%bool then 70%Z
  else if (String.eqb tp "bathroom" && String.eqb ap "living")%bool then 75%Z
  else 50%Z.

(** The list [attachments] before sorting: (priority, anchor, target, edge). *)
Definition collect_attachments (rs : list Room.t) : list (Z * nat * nat * Edge.t) :=
  flat_map
    (fun anchor =>
       flat_map
         (fun edge =>
            if negb (String.eqb (Edge.type edge) "attach") then []
            else
              match room_map_get rs (Edge.to edge) with
              | None => []
              | Some target =>
                  if is_master_bath (get rs target) then []
                  else [(edge_priority (get rs anchor) (get rs target),
                         anchor, target, edge)]
              end)
         (Room.adjacency (get rs anchor)))
    (seq 0 (length rs)).

Definition attach_one (bounds : Q * Q * Q * Q) (rs : list Room.t)
    (att : Z * nat * nat * Edge.t) : list Room.t :=
  let '(_, anchor, target, edge) := att in
  if (has_purpose "circulation" (get rs anchor) ||
      has_purpose "circulation" (get rs target))%bool then rs
  else if Room.locked (get rs target) then rs
  else
    match _best_snap anchor target rs bounds edge with
    | Some (bx, by_) => alter (Room.set_y by_) target (alter (Room.set_x bx) target rs)
    | None => rs
    end.

Definition iteration (bounds : Q * Q * Q * Q) (rs : list Room.t) : list Room.t :=
  let rs := force_master rs in
  let attachments :=
    sort_desc (fun a => fst (fst (fst a))) (collect_attachments rs) in
  fold_left (attach_one bounds) attachments rs.

Definition refine (rooms : list Room.t) (bounds : Q * Q * Q * Q)
    (iterations : nat) : list Room.t :=
  map _snap_room_to_grid (Nat.iter iterations (iteration bounds) rooms).
End StrictAdjacencyRefiner.

(** ** Overlap Resolver *)

Module StrictOverlapResolver.
Definition CLEARANCE : Q := 1.
Definition MAX_ITERS : nat := 200.

Definition _overlaps (a b : Room.t) : bool :=
  let '(ax1, ay1, ax2, ay2) := Room.bounds a in
  let '(bx1, by1, bx2, by2) := Room.bounds b in
  negb ((ax2 <=? bx1) || (bx2 <=? ax1) || (ay2 <=? by1) || (by2 <=? ay1))%bool.

Definition _is_master_pair (a b : Room.t) : bool :=
  (contains "master" (lower (Room.name a)) &&
   contains "master" (lower (Room.name b)) &&
   ((String.eqb (Room.purpose a) "bedroom" && String.eqb (Room.purpose b) "bathroom") ||
    (String.eqb (Room.purpose a) "bathroom" && String.eqb (Room.purpose b) "bedroom")))%bool.

(** [_push_away(mover, anchor)]: the relocated mover (the call always
    returns [True]). *)
Definition _push_away (mover anchor : Room.t) : Room.t :=
  let '(ax1, ay1, ax2, ay2) := Room.bounds anchor in
  let '(mx1, my1, mx2, my2) := Room.bounds mover in
  let dx_left := ax2 - mx1 in
  let dx_right := mx2 - ax1 in
  let dy_down := ay2 - my1 in
  let dy_up := my2 - ay1 in
  let min_overlap := Qmin4 dx_left dx_right dy_down dy_up in
  if min_overlap =? dx_left then Room.set_x (ax2 + CLEARANCE) mover
  else if min_overlap =? dx_right then
    Room.set_x (ax1 - Room.width mover - CLEARANCE) mover
  else if min_overlap =? dy_down then Room.set_y (ay2 + CLEARANCE) mover
  else Room.set_y (ay1 - Room.height mover - CLEARANCE) mover.

(** [_apply_rules(a, b)] on two distinct rooms: the rooms after the call
    and the returned flag. *)
Definition _apply_rules (a b : Room.t) : Room.t * Room.t * bool :=
  if (has_purpose "kitchen" a && has_purpose "bedroom" b)%bool then
    (a, Room.set_y (Room.y a + Room.height a + CLEARANCE) b, true)
  else if (has_purpose "kitchen" b && has_purpose "bedroom" a)%bool then
    (Room.set_y (Room.y b + Room.height b + CLEARANCE) a, b, true)
  else if has_purpose "living" a then
    (a, if negb (Room.locked a) then _push_away b a else b, true)
  else if has_purpose "living" b then
    (if negb (Room.locked b) then _push_away a b else a, b, true)
  else if has_purpose "kitchen" a then (a, _push_away b a, true)
  else if has_purpose "kitchen" b then (_push_away a b, b, true)
  else if is_foyer a then (a, _push_away b a, true)
  else if is_foyer b then (_push_away a b, b, true)
  else (a, b, false).

Definition _separate_by_priority (a b : Room.t) : Room.t * Room.t * bool :=
  if Room.locked a then (a, _push_away b a, true)
  else if Room.locked b then (_push_away a b, b, true)
  else if (Room.priority b <? Room.priority a)%Z then (a, _push_away b a, true)
  else if (Room.priority a <? Room.priority b)%Z then (_push_away a b, b, true)
  else if Room.area a <=? Room.area b then (_push_away a b, b, true)
  else (a, _push_away b a, true).

(** What [resolve] does with a pair it does not skip: the rules first,
    the priority comparison only when no rule fired. *)
Definition handle_pair (a b : Room.t) : Room.t * Room.t * bool :=
  let '(a', b', resolved) := _apply_rules a b in
  if resolved then (a', b', true) else _separate_by_priority a b.

(** The loop state of one pass: rooms, [changed], [overlaps_found]. *)
Definition pass_state : Type := list Room.t * bool * nat.

(** The body of the two nested [for] loops at the pair [(i, j)]. *)
Definition visit (st : pass_state) (ij : nat * nat) : pass_state :=
  let '(rs, changed, overlaps_found) := st in
  let '(i, j) := ij in
  let a := get rs i in
  let b := get rs j in
  if negb (_overlaps a b) then st
  else
    let overlaps_found := S overlaps_found in
    if (has_purpose "circulation" a && has_purpose "circulation" b)%bool
    then (rs, changed, overlaps_found)
    else if (Room.locked a && Room.locked b)%bool then (rs, changed, overlaps_found)
    else if _is_master_pair a b then (rs, changed, overlaps_found)
    else
      let '(a', b', moved) := handle_pair a b in
      (<[j := b']> (<[i := a']> rs), (changed || moved)%bool, overlaps_found).

(** [(i, j)] for [i in range(n)], [j in range(i + 1, n)], in loop order. *)
Definition index_pairs (n : nat) : list (nat * nat) :=
  flat_map (fun i => map (pair i) (seq (S i) (n - S i))) (seq 0 n).

Definition pass (rs : list Room.t) : pass_state :=
  fold_left visit (index_pairs (length rs)) (rs, false, 0%nat).

(** [resolve] with the number of passes left; the flag tells whether the
    loop left through the early [return] (a pass that changed nothing and
    found no overlapping pair) or ran out of passes. *)
Fixpoint resolve_from (iters : nat) (rs : list Room.t) : list Room.t * bool :=
  match iters with
  | O => (rs, false)
  | S iters' =>
      let '(rs', changed, overlaps_found) := pass rs in
      if (negb changed && Nat.eqb overlaps_found 0)%bool then (rs', true)
      else resolve_from iters' rs'
  end.

Definition resolve (rooms : list Room.t) : list Room.t :=
  fst (resolve_from MAX_ITERS rooms).
End StrictOverlapResolver.

(** ** Corridor Inserter and Merger *)

Module CorridorInserter.
Definition _is_adjacent (a b : Room.t) (tol : Q) : bool :=
  let '(ax1, ay1, ax2, ay2) := Room.bounds a in
  let '(bx1, by1, bx2, by2) := Room.bounds b in
  if ((Qabs (ax2 - bx1) <? tol) || (Qabs (ax1 - bx2) <? tol))%bool then
    1 <? Qmin ay2 by2 - Qmax ay1 by1
  else if ((Qabs (ay2 - by1) <? tol) || (Qabs (ay1 - by2) <? tol))%bool then
    1 <? Qmin ax2 bx2 - Qmax ax1 bx1
  else false.

(** Membership of [tuple(sorted([p, q]))] in [seen_pairs]: two sorted
    pairs are equal exactly when they hold the same two identifiers. *)
Definition same_pair (p q : string * string) : bool :=
  ((String.eqb (fst p) (fst q) && String.eqb (snd p) (snd q)) ||
   (String.eqb (fst p) (snd q) && String.eqb (snd p) (fst q)))%bool.

Definition insert_state : Type := list Room.t * list (string * string).

Definition visit_edge (rooms : list Room.t) (room : Room.t)
    (st : insert_state) (edge : Edge.t) : insert_state :=
  let '(corridors, seen_pairs) := st in
  if String.eqb (Edge.type edge) "near" then st
  else
    match room_map_get rooms (Edge.to edge) with
    | None => st
    | Some ti =>
        let target := get rooms ti in
        if _is_adjacent room target 1 then st
        else
          let pair := (Room.room_id room, Room.room_id target) in
          if existsb (same_pair pair) seen_pairs then st
          else (corridors ++ [Room.make_corridor room target 4],
                pair :: seen_pairs)
    end.

Definition insert (rooms : list Room.t) : list Room.t :=
  let corridors :=
    match find_index (has_purpose "living") rooms,
          find_index is_master_bed rooms with
    | Some l, Some m => [Room.make_corridor (get rooms l) (get rooms m) 5]
    | _, _ => []
    end in
  let '(corridors, _) :=
    fold_left
      (fun st room => fold_left (visit_edge rooms room) (Room.adjacency room) st)
      rooms (corridors, []) in
  rooms ++ corridors.
End CorridorInserter.

Module CorridorMerger.
Definition _can_merge (a b : Room.t) (tol : Q) : bool :=
  if (negb (has_purpose "circulation" a) || negb (has_purpose "circulation" b))%bool
  then false
  else
    let '(ax1, ay1, ax2, ay2) := Room.bounds a in
    let '(bx1, by1, bx2, by2) := Room.bounds b in
    if ((Qabs (ax1 - bx1) <? tol) && (Qabs (ax2 - bx2) <? tol))%bool then
      negb ((ay2 <? by1) || (by2 <? ay1))
    else if ((Qabs (ay1 - by1) <? tol) && (Qabs (ay2 - by2) <? tol))%bool then
      negb ((ax2 <? bx1) || (bx2 <? ax1))
    else false.

(** The inner [while i < len(corridors)] loop for a fixed [base]: the
    running union box and the corridors left in the list. *)
Fixpoint absorb (base : Room.t) (box : Q * Q * Q * Q) (corridors : list Room.t)
    : Q * Q * Q * Q * list Room.t :=
  match corridors with
  | [] => (box, [])
  | c :: rest =>
      if _can_merge base c (1 # 2) then
        let '(bx1, by1, bx2, by2) := box in
        let '(cx1, cy1, cx2, cy2) := Room.bounds c in
        absorb base (Qmin bx1 cx1, Qmin by1 cy1, Qmax bx2 cx2, Qmax by2 cy2) rest
      else
        let '(box', kept) := absorb base box rest in
        (box', c :: kept)
  end.

(** The outer [while corridors] loop; every round removes [base], so
    [length corridors] rounds empty the list. *)
Fixpoint merge_loop (fuel : nat) (corridors : list Room.t) : list Room.t :=
  match fuel, corridors with
  | S fuel', base :: rest =>
      let '(bx1, by1, bx2, by2, kept) := absorb base (Room.bounds base) rest in
      let base := Room.set_x bx1 base in
      let base := Room.set_y by1 base in
      let base := Room.set_width (bx2 - bx1) base in
      let base := Room.set_height (by2 - by1) base in
      let base := Room.set_width (Qmax (Room.width base) 4) base in
      let base := Room.set_height (Qmax (Room.height base) 4) base in
      base :: merge_loop fuel' kept
  | _, _ => []
  end.

Definition merge (rooms : list Room.t) : list Room.t :=
  let corridors := List.filter (has_purpose "circulation") rooms in
  let others := List.filter (fun r => negb (has_purpose "circulation" r)) rooms in
  others ++ merge_loop (length corridors) corridors.
End CorridorMerger.

(** ** Door Placer *)

Module Door.
Record t := mk {
  from_room : string;
  to_room : string;
  x : Q;
  y : Q;
  orientation : string
}.
End Door.

Module DoorPlacer.
Definition _shared_wall (a b : Room.t) (tol : Q) : option (string * Q * Q) :=
  let '(ax1, ay1, ax2, ay2) := Room.bounds a in
  let '(bx1, by1, bx2, by2) := Room.bounds b in
  let voverlap := Qmin ay2 by2 - Qmax ay1 by1 in
  let hoverlap := Qmin ax2 bx2 - Qmax ax1 bx1 in
  if ((Qabs (ax2 - bx1) <? tol) && (2 <? voverlap))%bool then
    Some ("vertical"%string, ax2, Qmax ay1 by1 + voverlap / 2)
  else if ((Qabs (ax1 - bx2) <? tol) && (2 <? voverlap))%bool then
    Some ("vertical"%string, ax1, Qmax ay1 by1 + voverlap / 2)
  else if ((Qabs (ay2 - by1) <? tol) && (2 <? hoverlap))%bool then
    Some ("horizontal"%string, Qmax ax1 bx1 + hoverlap / 2, ay2)
  else if ((Qabs (ay1 - by2) <? tol) && (2 <? hoverlap))%bool then
    Some ("horizontal"%string, Qmax ax1 bx1 + hoverlap / 2, ay1)
  else None.

(** The body of the inner loop: the door, if any, appended for [(a, b)]. *)
Definition door_between (a b : Room.t) : option Door.t :=
  match _shared_wall a b (1 # 5) with
  | None => None
  | Some (orientation, dx, dy) =>
      if (String.eqb (Room.zone a) "private" && String.eqb (Room.zone b) "private" &&
          negb (has_purpose "bathroom" a || has_purpose "bathroom" b))%bool
      then None
      else if (has_purpose "circulation" a && has_purpose "circulation" b)%bool
      then None
      else Some (Door.mk (Room.room_id a) (Room.room_id b) dx dy orientation)
  end.

Fixpoint place (rooms : list Room.t) : list Door.t :=
  match rooms with
  | [] => []
  | a :: rest => omap (door_between a) rest ++ place rest
  end.
End DoorPlacer.

(** ** Room Expander, clamp, polish *)

Definition can_expand (room : nat) (rs : list Room.t) (bounds : Q * Q * Q * Q)
    (dx dy clearance : Q) (allow_into_circulation : bool) : bool :=
  let r := get rs room in
  let test := Room.set_height (Room.height r + dy) (Room.set_width (Room.width r + dx) r) in
  let '(bx1, by1, bx2, by2) := bounds in
  let '(x1, y1, x2, y2) := Room.bounds test in
  if ((x1 <? bx1) || (y1 <? by1) || (bx2 <? x2) || (by2 <? y2))%bool then false
  else
    forallb
      (fun i =>
         if Nat.eqb i room then true
         else if (allow_into_circulation && has_purpose "circulation" (get rs i))%bool
         then true
         else
           let '(rx1, ry1, rx2, ry2) := Room.bounds (get rs i) in
           ((x2 + clearance <=? rx1) || (rx2 + clearance <=? x1) ||
            (y2 + clearance <=? ry1) || (ry2 + clearance <=? y1))%bool)
      (seq 0 (length rs)).

Definition clamp_to_bounds (bounds : Q * Q * Q * Q) (room : Room.t) : Room.t :=
  let '(xmin, ymin, xmax, ymax) := bounds in
  let room := Room.set_x (Qmax xmin (Qmin (Room.x room) (xmax - Room.width room))) room in
  Room.set_y (Qmax ymin (Qmin (Room.y room) (ymax - Room.height room))) room.

Definition polish_room (r : Room.t) : Room.t :=
  let r :=
    if has_purpose "circulation" r then
      let r := Room.set_x (inject_Z (py_round (Room.x r))) r in
      Room.set_y (inject_Z (py_round (Room.y r))) r
    else r in
  if has_purpose "bathroom" r then
    Room.set_x (inject_Z (py_round (Room.x r / 2) * 2)) r
  else r.

Definition polish_layout (rooms : list Room.t) : list Room.t := map polish_room rooms.

Module Expander.
Definition RESIZE_STEP : Q := 1 # 2.

Definition max_steps (r : Room.t) : nat :=
  if has_purpose "living" r then 30
  else if has_purpose "kitchen" r then 18
  else if is_master_bed r then 20
  else if has_purpose "bedroom" r then 15
  else 10.

(** [for _ in range(steps): if can_expand(..., dx=RESIZE_STEP, ...):
    r.width += RESIZE_STEP else: break] *)
Fixpoint grow_width (bounds : Q * Q * Q * Q) (steps : nat) (r : nat)
    (rs : list Room.t) : list Room.t :=
  match steps with
  | O => rs
  | S steps' =>
      if can_expand r rs bounds RESIZE_STEP 0 (1 # 2) false then
        grow_width bounds steps' r
          (alter (fun room => Room.set_width (Room.width room + RESIZE_STEP) room) r rs)
      else rs
  end.

Fixpoint grow_height (bounds : Q * Q * Q * Q) (steps : nat) (r : nat)
    (rs : list Room.t) : list Room.t :=
  match steps with
  | O => rs
  | S steps' =>
      if can_expand r rs bounds 0 RESIZE_STEP (1 # 2) false then
        grow_height bounds steps' r
          (alter (fun room => Room.set_height (Room.height room + RESIZE_STEP) room) r rs)
      else rs
  end.

Definition expand_one (bounds : Q * Q * Q * Q) (rs : list Room.t) (r : nat)
    : list Room.t :=
  let room := get rs r in
  if (has_purpose "bathroom" room || has_purpose "circulation" room)%bool then rs
  else
    let steps := max_steps room in
    grow_height bounds steps r (grow_width bounds steps r rs).

(** The loop over [sorted(rooms, key=priority, reverse=True)]. *)
Definition expand (bounds : Q * Q * Q * Q) (rs : list Room.t) : list Room.t :=
  let order := sort_desc (fun i => Room.priority (get rs i)) (seq 0 (length rs)) in
  fold_left (expand_one bounds) order rs.
End Expander.

(** ** Quality Scorer *)

Module LayoutQualityScorer.
Definition _shares_wall (a b : Room.t) (tol : Q) : bool :=
  let '(ax1, ay1, ax2, ay2) := Room.bounds a in
  let '(bx1, by1, bx2, by2) := Room.bounds b in
  if ((Qabs (ax2 - bx1) <? tol) || (Qabs (ax1 - bx2) <? tol))%bool then
    2 <? Qmin ay2 by2 - Qmax ay1 by1
  else if ((Qabs (ay2 - by1) <? tol) || (Qabs (ay1 - by2) <? tol))%bool then
    2 <? Qmin ax2 bx2 - Qmax ax1 bx1
  else false.

Definition count {A} (p : A -> bool) (l : list A) : Z :=
  Z.of_nat (length (List.filter p l)).

Definition score (rooms : list Room.t) (doors : list Door.t) : Z :=
  let score := 100%Z in
  let living := List.find (has_purpose "living") rooms in
  let corridors := List.filter (has_purpose "circulation") rooms in
  let bedrooms := List.filter (has_purpose "bedroom") rooms in
  let bathrooms := List.filter (has_purpose "bathroom") rooms in
  let kitchen := List.find (has_purpose "kitchen") rooms in
  let score :=
    match living with
    | Some l =>
        let living_doors :=
          count (fun d => (String.eqb (Door.from_room d) (Room.room_id l) ||
                           String.eqb (Door.to_room d) (Room.room_id l))%bool) doors in
        if (2 <? living_doors)%Z then (score - (living_doors - 2) * 10)%Z else score
    | None => score
    end in
  let score :=
    match kitchen with
    | Some k => (score - 15 * count (fun bed => _shares_wall k bed (1 # 2)) bedrooms)%Z
    | None => score
    end in
  let score :=
    match living with
    | Some l => (score - 10 * count (fun bath => _shares_wall l bath (1 # 2)) bathrooms)%Z
    | None => score
    end in
  let ncorr := Z.of_nat (length corridors) in
  let score := if (3 <? ncorr)%Z then (score - (ncorr - 3) * 5)%Z else score in
  let score := (score + Z.max 0 (10 - Z.of_nat (length rooms)))%Z in
  Z.max score 0.
End LayoutQualityScorer.

(** ** The pipeline *)

(** The input object.  A key that may be absent is an [option]; the
    values present are taken to have the types the pipeline expects. *)
Module PlanJson.
Record room := mk_room {
  room_id : option string;
  name : option string;
  purpose : option string;
  dimensions_ft : option (list Q);
  placement_intent : option (option string);   (* the object, then its "zone" *)
  adjacency_edges : option (list Edge.t)
}.
Record t := mk { rooms : option (list room) }.
End PlanJson.

Inductive error :=
| KeyError (key : string)
| IndexError.

Inductive result (A : Type) :=
| Ok (v : A)
| Raise (e : error).
Arguments Ok {A} v.
Arguments Raise {A} e.

Definition bind {A B} (m : result A) (f : A -> result B) : result B :=
  match m with
  | Ok v => f v
  | Raise e => Raise e
  end.

Notation "'do' v <- m ; k" := (bind m (fun v => k))
  (at level 10, v name, m at level 100, k at level 200).

Definition subscript {A} (key : string) (o : option A) : result A :=
  match o with
  | Some v => Ok v
  | None => Raise (KeyError key)
  end.

Definition item {A} (l : list A) (i : nat) : result A :=
  match l !! i with
  | Some v => Ok v
  | None => Raise IndexError
  end.

(** The [Room(...)] call of the list comprehension; keyword arguments are
    evaluated left to right. *)
Definition room_of_json (r : PlanJson.room) : result Room.t :=
  do room_id <- subscript "room_id" (PlanJson.room_id r);
  do name <- subscript "name" (PlanJson.name r);
  do purpose <- subscript "purpose" (PlanJson.purpose r);
  do dims <- subscript "dimensions_ft" (PlanJson.dimensions_ft r);
  do width <- item dims 0;
  do dims <- subscript "dimensions_ft" (PlanJson.dimensions_ft r);
  do height <- item dims 1;
  do intent <- subscript "placement_intent" (PlanJson.placement_intent r);
  do zone <- subscript "zone" intent;
  Ok (Room.mk room_id name purpose width height zone
        (default [] (PlanJson.adjacency_edges r)) 0 0 false 0).

Fixpoint rooms_of_json (l : list PlanJson.room) : result (list Room.t) :=
  match l with
  | [] => Ok []
  | r :: l' =>
      do room <- room_of_json r;
      do rest <- rooms_of_json l';
      Ok (room :: rest)
  end.

Module Layout.
Record room := mk_room {
  room_id : string;
  name : string;
  purpose : string;
  zone : string;
  x : Q;
  y : Q;
  width : Q;
  height : Q
}.
Record t := mk {
  bounds : Q * Q * Q * Q;          (* xmin, ymin, xmax, ymax *)
  quality_score : Z;
  rooms : list room;
  doors : list Door.t
}.

(** The output entry of a room; the numbers are written in lowest
    terms, so that equal layouts are equal terms. *)
Definition of_room (r : Room.t) : room :=
  mk_room (Room.room_id r) (Room.name r) (Room.purpose r) (Room.zone r)
          (Qred (Room.x r)) (Qred (Room.y r))
          (Qred (Room.width r)) (Qred (Room.height r)).
End Layout.

Definition lock_circulation (r : Room.t) : Room.t :=
  if has_purpose "circulation" r then Room.set_locked true r else r.

Definition BOUNDS : Q * Q * Q * Q := (5, 5, 35, 35).

(** Phases 1 to 8 on the constructed rooms: the room list as it stands
    after the expansion loop, and the doors placed in phase 7. *)
Definition phases (rooms : list Room.t) : list Room.t * list Door.t :=
  let placer := ImprovedZonePlacer.init 40 40 5 5 5 5 in
  let bounds := BOUNDS in
  let rooms := ImprovedZonePlacer.place placer rooms in
  let rooms := StrictAdjacencyRefiner.refine rooms bounds 3 in
  let rooms := StrictOverlapResolver.resolve rooms in
  let rooms := StrictAdjacencyRefiner.refine rooms bounds 2 in
  let living_room := find_index (has_purpose "living") rooms in
  let kitchen := find_index (has_purpose "kitchen") rooms in
  let foyer := find_index is_foyer rooms in
  let lock o rs :=
    match o with
    | Some i => alter (Room.set_locked true) i rs
    | None => rs
    end in
  let rooms := lock foyer (lock kitchen (lock living_room rooms)) in
  let rooms := CorridorInserter.insert rooms in
  let rooms := StrictOverlapResolver.resolve rooms in
  let rooms := CorridorMerger.merge rooms in
  let rooms := map lock_circulation rooms in
  let rooms := StrictAdjacencyRefiner.refine rooms bounds 1 in
  let doors := DoorPlacer.place rooms in
  let rooms := Expander.expand bounds rooms in
  (rooms, doors).

Definition generate_layout (plan_json : PlanJson.t) : result Layout.t :=
  do l <- subscript "rooms" (PlanJson.rooms plan_json);
  do rooms <- rooms_of_json l;
  let '(rooms, doors) := phases rooms in
  let rooms := map (clamp_to_bounds BOUNDS) rooms in
  let rooms := polish_layout rooms in
  let quality_score := LayoutQualityScorer.score rooms doors in
  Ok (Layout.mk BOUNDS quality_score (map Layout.of_room rooms) doors).

(** ** Envelope Builder: wall segments and their merging *)

Inductive Kind := outer | inner.

Definition Kind_eqb (a b : Kind) : bool :=
  match a, b with
  | outer, outer | inner, inner => true
  | _, _ => false
  end.

Module WallSegment.
Record t := mk { x1 : Q; y1 : Q; x2 : Q; y2 : Q; kind : Kind }.
End WallSegment.

Definition EPS : Q := 1 # 100.

(** The body of [for m in merged] for one [m]: [Some m'] when [w] is
    folded into [m] (the loop then breaks), [None] when the loop goes on. *)
Definition try_merge (w m : WallSegment.t) : option WallSegment.t :=
  let '(WallSegment.mk wx1 wy1 wx2 wy2 wk) := w in
  let '(WallSegment.mk mx1 my1 mx2 my2 mk) := m in
  if negb (Kind_eqb wk mk) then None
  else if ((Qabs (wx1 - wx2) <? EPS) && (Qabs (mx1 - mx2) <? EPS) &&
           (Qabs (wx1 - mx1) <? EPS) &&
           ((Qabs (wy2 - my1) <? EPS) || (Qabs (wy1 - my2) <? EPS)))%bool then
    Some (WallSegment.mk mx1 (Qmin (Qmin my1 wy1) wy2) mx2 (Qmax (Qmax my2 wy1) wy2) mk)
  else if ((Qabs (wy1 - wy2) <? EPS) && (Qabs (my1 - my2) <? EPS) &&
           (Qabs (wy1 - my1) <? EPS) &&
           ((Qabs (wx2 - mx1) <? EPS) || (Qabs (wx1 - mx2) <? EPS)))%bool then
    Some (WallSegment.mk (Qmin (Qmin mx1 wx1) wx2) my1 (Qmax (Qmax mx2 wx1) wx2) my2 mk)
  else None.

(** The [for m in merged] loop: the updated list when some [m] absorbed
    [w], [None] when [merged_into_existing] stays [False]. *)
Fixpoint merge_into (w : WallSegment.t) (merged : list WallSegment.t)
    : option (list WallSegment.t) :=
  match merged with
  | [] => None
  | m :: rest =>
      match try_merge w m with
      | Some m' => Some (m' :: rest)
      | None => cons m <$> merge_into w rest
      end
  end.

Definition merge_walls (walls : list WallSegment.t) : list WallSegment.t :=
  fold_left
    (fun merged w =>
       match merge_into w merged with
       | Some merged' => merged'
       | None => merged ++ [w]
       end)
    walls [].

(** ** Properties of finished layouts *)

(** The interiors of two output rectangles meet. *)
Definition rect_overlap (a b : Layout.room) : Prop :=
  Layout.x a < Layout.x b + Layout.width b /\
  Layout.x b < Layout.x a + Layout.width a /\
  Layout.y a < Layout.y b + Layout.height b /\
  Layout.y b < Layout.y a + Layout.height a.

(** An output rectangle lies within [bounds = (xmin, ymin, xmax, ymax)]. *)
Definition within_bounds (bounds : Q * Q * Q * Q) (r : Layout.room) : Prop :=
  let '(xmin, ymin, xmax, ymax) := bounds in
  xmin <= Layout.x r /\ ymin <= Layout.y r /\
  Layout.x r + Layout.width r <= xmax /\
  Layout.y r + Layout.height r <= ymax.

(** Distance between the wall of [a] on [side] and the wall of [b] that
    faces it. *)
Definition wall_gap (a b : Room.t) (side : Side) : Q :=
  let '(ax1, ay1, ax2, ay2) := Room.bounds a in
  let '(bx1, by1, bx2, by2) := Room.bounds b in
  match side with
  | Right => Qabs (ax2 - bx1)
  | Left => Qabs (ax1 - bx2)
  | Bottom => Qabs (ay2 - by1)
  | Top => Qabs (ay1 - by2)
  end.

(** [b] sits against [side] of [a]: the facing walls are at most [tol]
    apart and run alongside each other for at least [len]. *)
Definition adjacent_on (tol len : Q) (a b : Room.t) (side : Side) : Prop :=
  wall_gap a b side <= tol /\
  len <= StrictAdjacencyRefiner._wall_overlap a b side.

Definition room_of_layout (r : Layout.room) : Room.t :=
  Room.mk (Layout.room_id r) (Layout.name r) (Layout.purpose r)
          (Layout.width r) (Layout.height r) (Layout.zone r) []
          (Layout.x r) (Layout.y r) false 0.

(** Two rooms are apart along some axis: their interiors do not meet. *)
Definition separated (a b : Room.t) : Prop :=
  Room.x a + Room.width a <= Room.x b \/
  Room.x b + Room.width b <= Room.x a \/
  Room.y a + Room.height a <= Room.y b \/
  Room.y b + Room.height b <= Room.y a.

(** Room [t] keeps the distance [c] from room [o] along some axis. *)
Definition keeps_clearance (c : Q) (t o : Room.t) : Prop :=
  Room.x t + Room.width t + c <= Room.x o \/
  Room.x o + Room.width o + c <= Room.x t \/
  Room.y t + Room.height t + c <= Room.y o \/
  Room.y o + Room.height o + c <= Room.y t.

Definition grown (r : Room.t) (dx dy : Q) : Room.t :=
  Room.set_height (Room.height r + dy) (Room.set_width (Room.width r + dx) r).

(** Room [r] of [rs], grown by [dx] and [dy], stays within [bounds] and
    keeps half a unit from every other room of [rs], whatever its purpose. *)
Definition may_grow (bounds : Q * Q * Q * Q) (rs : list Room.t) (r : nat)
    (dx dy : Q) : Prop :=
  let t := grown (get rs r) dx dy in
  let '(bx1, by1, bx2, by2) := bounds in
  (bx1 <= Room.x t /\ by1 <= Room.y t /\
   Room.x t + Room.width t <= bx2 /\ Room.y t + Room.height t <= by2) /\
  forall j o, j <> r -> rs !! j = Some o -> keeps_clearance (1 # 2) t o.

(** One step of growth along each axis. *)
Definition widen (r : nat) (rs : list Room.t) : list Room.t :=
  alter (fun room => Room.set_width (Room.width room + Expander.RESIZE_STEP) room) r rs.

Definition heighten (r : nat) (rs : list Room.t) : list Room.t :=
  alter (fun room => Room.set_height (Room.height room + Expander.RESIZE_STEP) room) r rs.

(** [rs'] is reached from [rs] by taking [step] as long as [ok] holds,
    at most [budget] times: the steps taken all passed the test, and the
    loop ended on the budget or on a failed test. *)
Definition grows_while (step : list Room.t -> list Room.t)
    (ok : list Room.t -> Prop) (budget : nat) (rs rs' : list Room.t) : Prop :=
  exists k : nat,
    (k <= budget)%nat /\
    rs' = Nat.iter k step rs /\
    (forall m : nat, (m < k)%nat -> ok (Nat.iter m step rs)) /\
    (k = budget \/ ~ ok (Nat.iter k step rs)).

(** The four wall pairings of two rooms in the order the Door Placer
    tests them (the right, left, bottom and top edge of [a] against the
    facing edge of [b]): whether the pairing qualifies, that is, the edges
    are less than 0.2 apart and run alongside for more than 2 units, and
    the orientation and position of the door it gives. *)
Definition wall_pairings (a b : Room.t) : list (bool * (string * Q * Q)) :=
  let '(ax1, ay1, ax2, ay2) := Room.bounds a in
  let '(bx1, by1, bx2, by2) := Room.bounds b in
  let v := Qmin ay2 by2 - Qmax ay1 by1 in
  let h := Qmin ax2 bx2 - Qmax ax1 bx1 in
  [ ((Qabs (ax2 - bx1) <? 1 # 5) && (2 <? v),
     ("vertical"%string, ax2, Qmax ay1 by1 + v / 2));
    ((Qabs (ax1 - bx2) <? 1 # 5) && (2 <? v),
     ("vertical"%string, ax1, Qmax ay1 by1 + v / 2));
    ((Qabs (ay2 - by1) <? 1 # 5) && (2 <? h),
     ("horizontal"%string, Qmax ax1 bx1 + h / 2, ay2));
    ((Qabs (ay1 - by2) <? 1 # 5) && (2 <? h),
     ("horizontal"%string, Qmax ax1 bx1 + h / 2, ay1)) ]%bool.

Definition first_pairing (a b : Room.t) : option (string * Q * Q) :=
  snd <$> List.find fst (wall_pairings a b).

(** Door [d] is the door of the rooms at positions [i < j] of [rooms]:
    it leads from the earlier room to the later one and sits where their
    first qualifying wall pairing puts it. *)
Definition door_of_pair (rooms : list Room.t) (ij : nat * nat) (d : Door.t) : Prop :=
  (fst ij < snd ij)%nat /\
  exists a b,
    rooms !! fst ij = Some a /\
    rooms !! snd ij = Some b /\
    Door.from_room d = Room.room_id a /\
    Door.to_room d = Room.room_id b /\
    first_pairing a b = Some (Door.orientation d, Door.x d, Door.y d).

(** ** Sample inputs *)

Definition plan_room (id name purpose : string) (w h : Q) (zone : string)
    (edges : list Edge.t) : PlanJson.room :=
  PlanJson.mk_room (Some id) (Some name) (Some purpose) (Some [w; h])
                   (Some (Some zone)) (Some edges).

Definition plan_empty : PlanJson.t := PlanJson.mk (Some []).

Definition plan_without_rooms : PlanJson.t := PlanJson.mk None.

Definition plan_two_stores : PlanJson.t :=
  PlanJson.mk (Some [ plan_room "r1" "Store" "store" 10 10 "service" [];
                      plan_room "r2" "Study" "study" 10 10 "semi_private" [] ]).

Definition plan_master_suite : PlanJson.t :=
  PlanJson.mk (Some [ plan_room "mbed" "Master Bedroom" "bedroom" (25 # 2) 12 "private" [];
                      plan_room "mbath" "Master Bathroom" "bathroom" 6 6 "private" [] ]).

Definition plan_one_bathroom : PlanJson.t :=
  PlanJson.mk (Some [ plan_room "bath" "Bathroom" "bathroom" 4 4 "service" [] ]).

Definition plan_wide_hall : PlanJson.t :=
  PlanJson.mk (Some [ plan_room "hall" "Hall" "hall" 32 10 "public" [] ]).

Definition seg (x1 y1 x2 y2 : Q) : WallSegment.t := WallSegment.mk x1 y1 x2 y2 outer.

(** Three unit pieces of the wall [x = 0], the middle piece last. *)
Definition walls_middle_last : list WallSegment.t :=
  [ seg 0 0 0 1; seg 0 2 0 3; seg 0 1 0 2 ].

(** A locked living room and an unlocked store room that overlap. *)
Definition living_locked : Room.t :=
  Room.mk "liv" "Living" "living" 10 10 "public" [] 0 0 true 100.

Definition store_room : Room.t :=
  Room.mk "st" "Store" "store" 4 4 "service" [] 8 8 false 50.

(** A study with a corridor half a unit to its right. *)
Definition study_room : Room.t :=
  Room.mk "study" "Study" "study" 4 4 "semi_private" [] 5 5 false 50.

Definition corridor_room : Room.t :=
  Room.mk "corridor_a_b" "Corridor" "circulation" 4 4 "circulation" []
          (19 # 2) 5 true 0.

(** The layouts the pipeline returns on the sample plans. *)
Definition two_stores_layout : Layout.t :=
  Layout.mk BOUNDS 108
    [ Layout.mk_room "r1" "Store" "store" "service" 11 5 10 10;
      Layout.mk_room "r2" "Study" "study" "semi_private" 5 5 10 10 ] [].

Definition master_suite_layout : Layout.t :=
  Layout.mk BOUNDS 108
    [ Layout.mk_room "mbed" "Master Bedroom" "bedroom" "private" 6 20 (25 # 2) 15;
      Layout.mk_room "mbath" "Master Bathroom" "bathroom" "private" 20 20 6 6 ] [].

Definition one_bathroom_layout : Layout.t :=
  Layout.mk BOUNDS 109
    [ Layout.mk_room "bath" "Bathroom" "bathroom" "service" 4 5 4 4 ] [].

Definition wide_hall_layout : Layout.t :=
  Layout.mk BOUNDS 109
    [ Layout.mk_room "hall" "Hall" "hall" "public" 5 5 32 10 ] [].

(** A master suite as the placer leaves it. *)
Definition placed_suite : list Room.t :=
  [ Room.mk "mbed" "Master Bedroom" "bedroom" (25 # 2) 12 "private" [] 6 20 false 90;
    Room.mk "mbath" "Master Bathroom" "bathroom" 6 6 "private" [] 6 (65 # 2) true 85 ].

(** ** Envelope Builder: cells, partition walls, subtraction, offset *)

Module Cell.
Record t := mk {
  room_id : string;
  purpose : string;
  x : Q;
  y : Q;
  w : Q;
  h : Q
}.

Definition area (c : t) : Q := w c * h c.
End Cell.

Definition MIN_CORRIDOR_AREA : Q := 6.

Definition is_circulation_cell (c : Cell.t) : bool :=
  String.eqb (Cell.purpose c) "circulation".

(** [rooms_to_cells] on a layout as [generate_layout] returns it. *)
Definition rooms_to_cells (layout : Layout.t) : list Cell.t :=
  map (fun r => Cell.mk (Layout.room_id r) (Layout.purpose r)
                        (Layout.x r) (Layout.y r)
                        (Layout.width r) (Layout.height r))
      (Layout.rooms layout).

Definition filter_noise_cells (cells : list Cell.t) : list Cell.t :=
  List.filter
    (fun c => negb (is_circulation_cell c && (Cell.area c <? MIN_CORRIDOR_AREA)))
    cells.

Definition compute_room_partition_walls (cells : list Cell.t) : list WallSegment.t :=
  flat_map
    (fun c =>
       if is_circulation_cell c then []
       else
         let '(Cell.mk _ _ cx cy cw ch) := c in
         [ WallSegment.mk cx cy cx (cy + ch) inner;
           WallSegment.mk (cx + cw) cy (cx + cw) (cy + ch) inner;
           WallSegment.mk cx cy (cx + cw) cy inner;
           WallSegment.mk cx (cy + ch) (cx + cw) (cy + ch) inner ])
    cells.

(** [round(v, 2)]: the nearest multiple of 0.01, ties to the even one. *)
Definition round2 (v : Q) : Q := inject_Z (py_round (v * 100)) / 100.

Definition wall_round_key (w : WallSegment.t) : Q * Q * Q * Q :=
  (round2 (WallSegment.x1 w), round2 (WallSegment.y1 w),
   round2 (WallSegment.x2 w), round2 (WallSegment.y2 w)).

(** Equality of two key tuples, as the set [outer_keys] compares them. *)
Definition key_eqb (k1 k2 : Q * Q * Q * Q) : bool :=
  let '(a1, b1, c1, d1) := k1 in
  let '(a2, b2, c2, d2) := k2 in
  ((a1 =? a2) && (b1 =? b2) && (c1 =? c2) && (d1 =? d2))%bool.

Definition in_outer_keys (outer : list WallSegment.t) (w : WallSegment.t) : bool :=
  existsb (fun o => key_eqb (wall_round_key w) (wall_round_key o)) outer.

Definition subtract_outer_from_inner (inner_walls outer_walls : list WallSegment.t)
    : list WallSegment.t :=
  List.filter (fun w => negb (in_outer_keys outer_walls w)) inner_walls.




(** [trim_inner_wall(w, outer_keys, clearance)]; [outer_keys] is not read. *)
Definition trim_inner_wall (w : WallSegment.t) (clearance : Q) : option WallSegment.t :=
  let '(WallSegment.mk wx1 wy1 wx2 wy2 _) := w in
  let '(tx1, ty1, tx2, ty2) :=
    if Qabs (wx1 - wx2) <? EPS then (wx1, wy1 + clearance, wx2, wy2 - clearance)
    else if Qabs (wy1 - wy2) <? EPS then (wx1 + clearance, wy1, wx2 - clearance, wy2)
    else (wx1, wy1, wx2, wy2) in
  if ((Qabs (tx2 - tx1) <? EPS) || (Qabs (ty2 - ty1) <? EPS))%bool then None
  else Some (WallSegment.mk tx1 ty1 tx2 ty2 inner).

(** The contribution of the pair [(a, b)] to [inner] in
    [compute_inner_walls]. *)
Definition inner_walls_of_pair (tol : Q) (a b : Cell.t) : list WallSegment.t :=
  if String.eqb (Cell.room_id a) (Cell.room_id b) then []
  else
    let '(Cell.mk _ _ ax ay aw ah) := a in
    let '(Cell.mk _ _ bx by_ bw bh) := b in
    let vertical :=
      if ((Qabs (ax + aw - bx) <? tol) || (Qabs (bx + bw - ax) <? tol))%bool then
        let y1 := Qmax ay by_ in
        let y2 := Qmin (ay + ah) (by_ + bh) in
        if tol <? y2 - y1 then
          let wx := if Qabs (ax + aw - bx) <? tol then ax + aw else bx + bw in
          [WallSegment.mk wx y1 wx y2 inner]
        else []
      else [] in
    let horizontal :=
      if ((Qabs (ay + ah - by_) <? tol) || (Qabs (by_ + bh - ay) <? tol))%bool then
        let x1 := Qmax ax bx in
        let x2 := Qmin (ax + aw) (bx + bw) in
        if tol <? x2 - x1 then
          let wy := if Qabs (ay + ah - by_) <? tol then ay + ah else by_ + bh in
          [WallSegment.mk x1 wy x2 wy inner]
        else []
      else [] in
    vertical ++ horizontal.

Fixpoint inner_walls_raw (tol : Q) (cells : list Cell.t) : list WallSegment.t :=
  match cells with
  | [] => []
  | a :: rest => flat_map (inner_walls_of_pair tol a) rest ++ inner_walls_raw tol rest
  end.

Definition compute_inner_walls (cells : list Cell.t) (tol : Q) : list WallSegment.t :=
  merge_walls (inner_walls_raw tol cells).

(** ** Vocabulary for the properties of the phases *)

(** What identifies a room: identifier, name, purpose, zone. *)
Definition ident (r : Room.t) : string * string * string * string :=
  (Room.room_id r, Room.name r, Room.purpose r, Room.zone r).

(** Identity, adjacency edges and size: what placement and overlap
    resolution have no business changing. *)
Definition shape (r : Room.t)
    : string * string * string * string * list Edge.t * Q * Q :=
  (ident r, Room.adjacency r, Room.width r, Room.height r).

Definition layout_ident (r : Layout.room) : string * string * string * string :=
  (Layout.room_id r, Layout.name r, Layout.purpose r, Layout.zone r).

(** The identity is that of a room proper, not of a circulation room. *)
Definition not_circulation (i : string * string * string * string) : bool :=
  negb (String.eqb (snd (fst i)) "circulation").

(** [v] is a multiple of the 0.5 grid. *)
Definition on_grid (v : Q) : Prop := exists k : Z, v == inject_Z k * (1 # 2).


Definition is_vertical (w : WallSegment.t) : bool :=
  Qabs (WallSegment.x1 w - WallSegment.x2 w) <? EPS.

Definition is_horizontal (w : WallSegment.t) : bool :=
  Qabs (WallSegment.y1 w - WallSegment.y2 w) <? EPS.

Definition has_kind (k : Kind) (w : WallSegment.t) : bool :=
  Kind_eqb (WallSegment.kind w) k.


(** The one case in which the rules of the Overlap Resolver end the
    handling of a pair without moving a room: no kitchen/bedroom pair, and
    the living room that decides the pair is locked. *)
Definition living_stays (a b : Room.t) : bool :=
  (negb (has_purpose "kitchen" a && has_purpose "bedroom" b) &&
   negb (has_purpose "kitchen" b && has_purpose "bedroom" a) &&
   (if has_purpose "living" a then Room.locked a
    else has_purpose "living" b && Room.locked b))%bool.

(** The left wall of a room 8 units high, as an outer wall. *)
Definition wall_outer_left : WallSegment.t := WallSegment.mk 0 0 0 8 outer.


(** A living room with two doors, and a third door to add. *)
Definition two_living_doors : list Door.t :=
  [ Door.mk "liv" "kit" 10 4 "vertical"; Door.mk "liv" "bed" 4 10 "horizontal" ].

Definition third_living_door : Door.t := Door.mk "bath" "liv" 0 4 "vertical".

(** What the Overlap Resolver may not change in a room: everything but
    its position. *)
Definition resolver_frame (r : Room.t)
    : string * string * string * string * list Edge.t * Q * Q * bool * Z :=
  (shape r, Room.locked r, Room.priority r).

(** What the Zone Placer may not change in a room once the priority is
    assigned: its shape and that priority. *)
Definition placer_frame (r : Room.t)
    : string * string * string * string * list Edge.t * Q * Q * Z :=
  (shape r, Room.priority r).

(** A room as [Room.make_corridor] creates it. *)
Definition is_new_corridor (c : Room.t) : Prop :=
  Room.name c = "Corridor"%string /\
  Room.purpose c = "circulation"%string /\
  Room.zone c = "circulation"%string /\
  Room.adjacency c = [] /\
  Room.locked c = false.

Definition is_circulation (r : Room.t) : bool := has_purpose "circulation" r.

(** What the Room Expander may not change in a room: everything but its
    width and height. *)
Definition expander_frame (r : Room.t)
    : string * string * string * string * list Edge.t * Q * Q * bool * Z :=
  (ident r, Room.adjacency r, Room.x r, Room.y r, Room.locked r, Room.priority r).

(** Room [r'] is room [r] after expansion: nothing but the size changed,
    neither side got shorter, and a bathroom or circulation room is as it
    was. *)
Definition grew (r r' : Room.t) : Prop :=
  expander_frame r' = expander_frame r /\
  Room.width r <= Room.width r' /\
  Room.height r <= Room.height r' /\
  ((has_purpose "bathroom" r || has_purpose "circulation" r)%bool = true -> r' = r).

(** Position [i] of [rs] holds a room that is neither bathroom nor
    circulation, or no room at all. *)
Definition growable (rs : list Room.t) (i : nat) : Prop :=
  forall r, rs !! i = Some r ->
    (has_purpose "bathroom" r || has_purpose "circulation" r)%bool = false.

(** A hall wider than the buildable area, with an attach edge from a
    living room. *)
Definition attach_sample : list Room.t :=
  [ Room.mk "liv" "Living" "living" 10 10 "public"
            [Edge.mk "hall" "attach" None] 6 6 false 100;
    Room.mk "hall" "Hall" "hall" 32 10 "public" [] 0 0 false 50 ].

(** The identities of the rooms proper of a room list, in order. *)
Definition room_idents (rs : list Room.t) : list (string * string * string * string) :=
  List.filter not_circulation (map ident rs).

(** The identity a plan entry gives its room, when all four keys are
    there. *)
Definition plan_ident (j : PlanJson.room) : option (string * string * string * string) :=
  match PlanJson.room_id j, PlanJson.name j, PlanJson.purpose j,
        PlanJson.placement_intent j with
  | Some i, Some n, Some p, Some (Some z) => Some (i, n, p, z)
  | _, _, _, _ => None
  end.

(** The pairs the Door Placer refuses a door: two circulation rooms, and
    two rooms of the private zone neither of which is a bathroom. *)
Definition door_excluded (a b : Room.t) : bool :=
  ((has_purpose "circulation" a && has_purpose "circulation" b) ||
   (String.eqb (Room.zone a) "private" && String.eqb (Room.zone b) "private" &&
    negb (has_purpose "bathroom" a) && negb (has_purpose "bathroom" b)))%bool.

(** A living room with a kitchen against its right wall. *)
Definition living_kitchen : list Room.t :=
  [ Room.mk "liv" "Living" "living" 10 10 "public" [] 0 0 false 100;
    Room.mk "kit" "Kitchen" "kitchen" 8 8 "service" [] 10 0 false 80 ].

(** The plan entry does not ask for a circulation room. *)
Definition plan_room_proper (j : PlanJson.room) : bool :=
  match PlanJson.purpose j with
  | Some p => negb (String.eqb p "circulation")
  | None => true
  end.

(** * Theorems *)

(** ** Comparisons on rationals *)

Lemma Qltb_lt (a b : Q) : (a <? b) = true <-> a < b.
Proof.
  unfold Qltb. rewrite negb_true_iff. split.
  - intros H. apply Qnot_le_lt. intros Hle.
    apply Qle_bool_iff in Hle. congruence.
  - intros H. destruct (Qle_bool b a) eqn:E; [|reflexivity].
    apply Qle_bool_iff in E. lra.
Qed.

Lemma Qltb_ge (a b : Q) : (a <? b) = false <-> b <= a.
Proof.
  unfold Qltb. rewrite negb_false_iff. apply Qle_bool_iff.
Qed.

Lemma Qleb_le (a b : Q) : (a <=? b) = true <-> a <= b.
Proof. apply Qle_bool_iff. Qed.

Lemma Qleb_gt (a b : Q) : (a <=? b) = false <-> b < a.
Proof.
  split.
  - intros H. apply Qnot_le_lt. intros Hle.
    apply Qle_bool_iff in Hle. congruence.
  - intros H. destruct (a <=? b) eqn:E; [|reflexivity].
    apply Qle_bool_iff in E. lra.
Qed.

(** ** Corridors *)

(** C10: [Room.make_corridor a b width] is a circulation room; along the
    axis on which the two centers are farther apart (vertical on a tie)
    its extent is [min(|separation|, 12)], across it the extent is
    [width]; nothing bounds the length from below, so centers that
    coincide on the chosen axis give a corridor of zero height, as for a
    corridor from a room to itself. *)
Theorem make_corridor_extent (a b : Room.t) (width : Q) :
  let c := Room.make_corridor a b width in
  let dx := Qabs (fst (Room.center a) - fst (Room.center b)) in
  let dy := Qabs (snd (Room.center a) - snd (Room.center b)) in
  Room.purpose c = "circulation"%string /\
  (dy < dx -> Room.width c == Qmin dx 12 /\ Room.height c == width) /\
  (dx <= dy -> Room.width c == width /\ Room.height c == Qmin dy 12) /\
  (dx <= dy -> dy == 0 -> Room.height c == 0) /\
  Room.height (Room.make_corridor a a width) == 0.
Proof.
  assert (Hself : forall v, Qmin (Qabs (v - v)) Room.MAX_CORRIDOR_LEN == 0).
  { intros v. assert (Hz : v - v == 0) by ring.
    rewrite Hz. reflexivity. }
  cbv zeta. unfold Room.make_corridor.
  destruct (Room.center a) as [ax ay] eqn:Ea.
  destruct (Room.center b) as [bx by_] eqn:Eb. cbn [fst snd].
  split; [|split; [|split; [|split]]].
  - destruct (Qabs (ay - by_) <? Qabs (ax - bx)); reflexivity.
  - intros Hlt. apply Qltb_lt in Hlt. rewrite Hlt. cbn. split; reflexivity.
  - intros Hle. apply Qltb_ge in Hle. rewrite Hle. cbn. split; reflexivity.
  - intros Hle Hz. apply Qltb_ge in Hle. rewrite Hle. cbn.
    rewrite Hz. reflexivity.
  - assert (Hge : (Qabs (ay - ay) <? Qabs (ax - ax)) = false).
    { apply Qltb_ge. assert (H1 : ax - ax == 0) by ring.
      assert (H2 : ay - ay == 0) by ring. rewrite H1, H2. apply Qle_refl. }
    rewrite Hge. cbn. apply Hself.
Qed.

(** ** The pipeline on degenerate inputs *)

(** C6: an empty [rooms] array yields a layout with no rooms, no doors and
    quality score 110 (base 100 plus the compactness bonus 10). *)
Theorem empty_plan_layout :
  generate_layout plan_empty = Ok (Layout.mk BOUNDS 110 [] []).
Proof. reflexivity. Qed.

(** C8: a plan object without the [rooms] key makes [generate_layout]
    raise [KeyError] on its first statement; no layout is produced. *)
Theorem missing_rooms_raises (plan_json : PlanJson.t) :
  PlanJson.rooms plan_json = None ->
  generate_layout plan_json = Raise (KeyError "rooms").
Proof.
  intros H. unfold generate_layout. rewrite H. reflexivity.
Qed.

Lemma missing_rooms_raises_witness :
  PlanJson.rooms plan_without_rooms = None /\
  generate_layout plan_without_rooms = Raise (KeyError "rooms").
Proof.
  split; [reflexivity | apply (missing_rooms_raises plan_without_rooms); reflexivity].
Defined.

(** ** Wall merging *)

(** C7: [merge_walls] is not idempotent.  On three unit pieces of one
    wall given as bottom, top, middle, the first run folds the middle
    piece into the bottom one and leaves [0..2] and [2..3] side by side;
    a second run folds these two into [0..3]. *)
Theorem merge_walls_second_run_differs :
  merge_walls walls_middle_last = [seg 0 0 0 2; seg 0 2 0 3] /\
  merge_walls (merge_walls walls_middle_last) = [seg 0 0 0 3] /\
  merge_walls (merge_walls walls_middle_last) <> merge_walls walls_middle_last.
Proof.
  split; [reflexivity | split; [reflexivity | discriminate]].
Qed.

(** ** Finished layouts that break the stated invariants *)

(** C1, as stated, fails: two 10 x 10 rooms outside the placement
    template start at the origin; the resolver moves the first to x = 11,
    nothing overlaps at y = 0..10, and the final clamp brings them to
    (11, 5) and (5, 5), where they overlap on x in 11..15. *)
Lemma two_stores_overlap :
  generate_layout plan_two_stores = Ok two_stores_layout /\
  rect_overlap (Layout.mk_room "r1" "Store" "store" "service" 11 5 10 10)
               (Layout.mk_room "r2" "Study" "study" "semi_private" 5 5 10 10).
Proof.
  split; [vm_compute; reflexivity |].
  unfold rect_overlap; cbn. repeat split.
Qed.

(** C2, as stated, fails: a 12.5 x 12 master bedroom at x = 6 puts the
    master bathroom at x = 19; [polish_layout] then rounds the bathroom's
    x to the multiple of two 20, which leaves 1.5 units between the
    bedroom's right wall (18.5) and the bathroom.  No side of the bedroom
    has the bathroom within one unit. *)
Lemma master_suite_apart :
  generate_layout plan_master_suite = Ok master_suite_layout /\
  forall side,
    ~ adjacent_on 1 (5 # 2)
        (room_of_layout
           (Layout.mk_room "mbed" "Master Bedroom" "bedroom" "private" 6 20 (25 # 2) 15))
        (room_of_layout
           (Layout.mk_room "mbath" "Master Bathroom" "bathroom" "private" 20 20 6 6))
        side.
Proof.
  split; [vm_compute; reflexivity |].
  intros side [Hgap _]. destruct side; vm_compute in Hgap; apply Hgap; reflexivity.
Qed.

(** C3, as stated, fails in two ways: a bathroom clamped to x = 5 is moved
    to x = 4 by [polish_layout], which runs after the clamp; and a room
    wider than the buildable width stays at x = 5 and ends at x = 37. *)
Lemma rooms_outside_bounds :
  generate_layout plan_one_bathroom = Ok one_bathroom_layout /\
  ~ within_bounds BOUNDS (Layout.mk_room "bath" "Bathroom" "bathroom" "service" 4 5 4 4) /\
  generate_layout plan_wide_hall = Ok wide_hall_layout /\
  ~ within_bounds BOUNDS (Layout.mk_room "hall" "Hall" "hall" "public" 5 5 32 10).
Proof.
  split; [vm_compute; reflexivity |]. split.
  { intros (H & _). vm_compute in H. apply H; reflexivity. }
  split; [vm_compute; reflexivity |].
  intros (_ & _ & H & _). vm_compute in H. apply H; reflexivity.
Qed.

(** C4, as stated, fails: with a corridor half a unit to the right of
    the study, the test the claim describes (circulation exempt) lets the
    study widen, yet the expander, which calls [can_expand] with
    [allow_into_circulation=False], leaves its width at 4. *)
Lemma corridor_blocks_growth :
  let rs := [study_room; corridor_room] in
  can_expand 0 rs BOUNDS (1 # 2) 0 (1 # 2) true = true /\
  can_expand 0 rs BOUNDS (1 # 2) 0 (1 # 2) false = false /\
  Room.width (get (Expander.expand BOUNDS rs) 0) == 4.
Proof. cbv zeta. split; [|split]; reflexivity. Qed.

(** C5, as stated, fails: a locked living room overlapping an unlocked
    store room ends the rules with nothing moved, and the comparison of
    lock state, which would push the store room to x = 11, is not
    reached; the resolver returns the pair as it was. *)
Lemma locked_living_blocks_fallback :
  StrictOverlapResolver._overlaps living_locked store_room = true /\
  StrictOverlapResolver.handle_pair living_locked store_room
    = (living_locked, store_room, true) /\
  StrictOverlapResolver._separate_by_priority living_locked store_room
    = (living_locked, Room.set_x 11 store_room, true) /\
  StrictOverlapResolver.resolve [living_locked; store_room]
    = [living_locked; store_room].
Proof.
  split; [reflexivity |]. split; [reflexivity |]. split; [reflexivity |].
  vm_compute. reflexivity.
Qed.

(** ** Overlap Resolver: precedence of the rules *)

(** C5, amended: for a pair that [resolve] does not skip, a kitchen and a
    bedroom stack the bedroom one unit below the kitchen; otherwise a
    living room in the pair (the first room checked first) has the other
    room pushed away when it is unlocked and ends the handling with
    nothing moved when it is locked; otherwise a kitchen, then a room
    named foyer, has the other room pushed away whatever the locks;
    otherwise the pair is compared by lock state (the unlocked room of a
    locked/unlocked pair is pushed), then by priority (the lower is
    pushed), then by area (the smaller is pushed, the first on a tie). *)
Theorem handle_pair_precedence (a b : Room.t) :
  let K := has_purpose "kitchen" in
  let B := has_purpose "bedroom" in
  let L := has_purpose "living" in
  let out := StrictOverlapResolver.handle_pair a b in
  let stack_b := (a, Room.set_y (Room.y a + Room.height a + 1) b, true) in
  let stack_a := (Room.set_y (Room.y b + Room.height b + 1) a, b, true) in
  let push_b := (a, StrictOverlapResolver._push_away b a, true) in
  let push_a := (StrictOverlapResolver._push_away a b, b, true) in
  let stay := (a, b, true) in
  (K a && B b = true -> out = stack_b) /\
  (K a && B b = false -> K b && B a = true -> out = stack_a) /\
  (K a && B b = false -> K b && B a = false ->
   (L a = true -> out = if Room.locked a then stay else push_b) /\
   (L a = false -> L b = true -> out = if Room.locked b then stay else push_a) /\
   (L a = false -> L b = false ->
    (K a = true -> out = push_b) /\
    (K a = false -> K b = true -> out = push_a) /\
    (K a = false -> K b = false ->
     (is_foyer a = true -> out = push_b) /\
     (is_foyer a = false -> is_foyer b = true -> out = push_a) /\
     (is_foyer a = false -> is_foyer b = false ->
      (Room.locked a = true -> out = push_b) /\
      (Room.locked a = false -> Room.locked b = true -> out = push_a) /\
      (Room.locked a = false -> Room.locked b = false ->
       ((Room.priority b < Room.priority a)%Z -> out = push_b) /\
       ((Room.priority a < Room.priority b)%Z -> out = push_a) /\
       (Room.priority a = Room.priority b ->
        (Room.area a <= Room.area b -> out = push_a) /\
        (Room.area b < Room.area a -> out = push_b))))))).
Proof.
  cbv zeta.
  unfold StrictOverlapResolver.handle_pair, StrictOverlapResolver._apply_rules,
    StrictOverlapResolver._separate_by_priority, StrictOverlapResolver.CLEARANCE.
  split; [intros ->; reflexivity |].
  split; [intros -> ->; reflexivity |].
  intros -> ->.
  split; [intros ->; destruct (Room.locked a); reflexivity |].
  split; [intros -> ->; destruct (Room.locked b); reflexivity |].
  intros -> ->.
  split; [intros ->; reflexivity |].
  split; [intros -> ->; reflexivity |].
  intros -> ->.
  split; [intros ->; reflexivity |].
  split; [intros -> ->; reflexivity |].
  intros -> ->. cbn match.
  split; [intros ->; reflexivity |].
  split; [intros -> ->; reflexivity |].
  intros -> ->.
  split; [intros H; apply Z.ltb_lt in H; rewrite H; reflexivity |].
  split.
  { intros H. assert (H' := H). apply Z.ltb_lt in H. rewrite H.
    assert (Hn : (Room.priority b <? Room.priority a)%Z = false)
      by (apply Z.ltb_ge; lia).
    rewrite Hn. reflexivity. }
  intros Heq. rewrite Heq, Z.ltb_irrefl.
  split.
  - intros H. apply Qleb_le in H. rewrite H. reflexivity.
  - intros H. apply Qleb_gt in H. rewrite H. reflexivity.
Qed.

(** ** Room Expander *)

Lemma get_lookup (rs : list Room.t) (i : nat) (r : Room.t) :
  rs !! i = Some r -> get rs i = r.
Proof. unfold get. intros ->. reflexivity. Qed.

(** With [allow_into_circulation=False], [can_expand] holds exactly when
    the grown room is within bounds and clear of every other room. *)
Lemma can_expand_strict_iff (bounds : Q * Q * Q * Q) (rs : list Room.t) (r : nat)
    (dx dy : Q) :
  can_expand r rs bounds dx dy (1 # 2) false = true <-> may_grow bounds rs r dx dy.
Proof.
  unfold can_expand, may_grow, grown.
  destruct bounds as [[[bx1 by1] bx2] by2].
  set (t := Room.set_height _ _).
  cbn [Room.bounds].
  destruct ((Room.x t <? bx1) || (Room.y t <? by1) || (bx2 <? Room.x t + Room.width t)
            || (by2 <? Room.y t + Room.height t))%bool eqn:Hb.
  - split; [discriminate |].
    intros [(H1 & H2 & H3 & H4) _].
    rewrite !orb_true_iff, !Qltb_lt in Hb. lra.
  - rewrite !orb_false_iff, !Qltb_ge in Hb.
    destruct Hb as [[[H1 H2] H3] H4].
    rewrite forallb_forall. split.
    + intros Hall. split; [auto |].
      intros j o Hj Ho.
      assert (Hin : In j (seq 0 (length rs))).
      { apply in_seq. apply lookup_lt_Some in Ho. lia. }
      specialize (Hall j Hin).
      apply Nat.eqb_neq in Hj. rewrite Hj in Hall. cbn [andb] in Hall.
      rewrite (get_lookup _ _ _ Ho) in Hall.
      rewrite !orb_true_iff, !Qleb_le in Hall.
      unfold keeps_clearance. tauto.
    + intros [_ Hall] j Hin.
      destruct (Nat.eqb j r) eqn:Hj; [reflexivity |]. cbn [andb].
      apply Nat.eqb_neq in Hj. apply in_seq in Hin.
      destruct (rs !! j) as [o |] eqn:Ho.
      2:{ apply lookup_ge_None in Ho. lia. }
      rewrite (get_lookup _ _ _ Ho).
      specialize (Hall j o Hj Ho). unfold keeps_clearance in Hall.
      rewrite !orb_true_iff, !Qleb_le. tauto.
Qed.

(** A loop of the shape [for _ in range(budget): if test: step else: break]. *)
Lemma bounded_loop_grows (step : list Room.t -> list Room.t)
    (test : list Room.t -> bool) (ok : list Room.t -> Prop)
    (loop : nat -> list Room.t -> list Room.t) :
  (forall s, test s = true <-> ok s) ->
  (forall s, loop O s = s) ->
  (forall n s, loop (S n) s = if test s then loop n (step s) else s) ->
  forall budget rs, grows_while step ok budget rs (loop budget rs).
Proof.
  intros Htest H0 HS budget.
  induction budget as [| n IH]; intros rs.
  - exists O. rewrite H0. repeat split; [lia | | now left].
    intros m Hm. lia.
  - rewrite HS. destruct (test rs) eqn:Et.
    + destruct (IH (step rs)) as (k & Hk & Heq & Hpass & Hend).
      exists (S k). split; [lia |]. split; [| split].
      * rewrite Nat.iter_succ_r. exact Heq.
      * intros [| m] Hm.
        -- cbn. now apply Htest.
        -- rewrite Nat.iter_succ_r. apply Hpass. lia.
      * rewrite Nat.iter_succ_r. destruct Hend as [-> | Hend]; [now left | now right].
    + exists O. split; [lia |]. split; [reflexivity |]. split.
      * intros m Hm. lia.
      * right. cbn. intros Hok. apply Htest in Hok. congruence.
Qed.

(** C4, amended: for a room the expander processes (neither bathroom nor
    circulation), the width grows in steps of 0.5 for as long as, and no
    longer than, the grown rectangle stays within bounds and keeps 0.5
    units from every other room, up to the room's step budget; then the
    height grows likewise.  Circulation rooms count among the other
    rooms: the expander calls [can_expand] with
    [allow_into_circulation=False]. *)
Theorem expander_growth (bounds : Q * Q * Q * Q) (rs : list Room.t) (r : nat) :
  has_purpose "bathroom" (get rs r) = false ->
  has_purpose "circulation" (get rs r) = false ->
  exists rs1,
    grows_while (widen r) (fun s => may_grow bounds s r (1 # 2) 0)
                (Expander.max_steps (get rs r)) rs rs1 /\
    grows_while (heighten r) (fun s => may_grow bounds s r 0 (1 # 2))
                (Expander.max_steps (get rs r)) rs1 (Expander.expand_one bounds rs r).
Proof.
  intros Hbath Hcirc. unfold Expander.expand_one. rewrite Hbath, Hcirc. cbn [orb].
  exists (Expander.grow_width bounds (Expander.max_steps (get rs r)) r rs). split.
  - apply (bounded_loop_grows (widen r)
             (fun s => can_expand r s bounds Expander.RESIZE_STEP 0 (1 # 2) false)
             _ (fun n s => Expander.grow_width bounds n r s)).
    + intros s. apply can_expand_strict_iff.
    + reflexivity.
    + reflexivity.
  - apply (bounded_loop_grows (heighten r)
             (fun s => can_expand r s bounds 0 Expander.RESIZE_STEP (1 # 2) false)
             _ (fun n s => Expander.grow_height bounds n r s)).
    + intros s. apply can_expand_strict_iff.
    + reflexivity.
    + reflexivity.
Qed.

Lemma expander_growth_witness :
  has_purpose "bathroom" (get [study_room; corridor_room] 0) = false /\
  has_purpose "circulation" (get [study_room; corridor_room] 0) = false /\
  exists rs1,
    grows_while (widen 0) (fun s => may_grow BOUNDS s 0 (1 # 2) 0)
                (Expander.max_steps (get [study_room; corridor_room] 0))
                [study_room; corridor_room] rs1 /\
    grows_while (heighten 0) (fun s => may_grow BOUNDS s 0 0 (1 # 2))
                (Expander.max_steps (get [study_room; corridor_room] 0)) rs1
                (Expander.expand_one BOUNDS [study_room; corridor_room] 0).
Proof.
  split; [reflexivity |]. split; [reflexivity |].
  apply (expander_growth BOUNDS [study_room; corridor_room] 0); reflexivity.
Defined.

(** ** Overlap Resolver: what an early return guarantees *)

Lemma overlaps_false_separated (a b : Room.t) :
  StrictOverlapResolver._overlaps a b = false <-> separated a b.
Proof.
  unfold StrictOverlapResolver._overlaps, separated. cbn [Room.bounds].
  rewrite negb_false_iff, !orb_true_iff, !Qleb_le. tauto.
Qed.

(** A visit never lowers [overlaps_found]; when the count is unchanged
    the pair did not overlap and nothing was touched. *)
Lemma visit_count (rs : list Room.t) (changed : bool) (n i j : nat) :
  let st := StrictOverlapResolver.visit (rs, changed, n) (i, j) in
  (n <= snd st)%nat /\
  (snd st = n ->
   st = (rs, changed, n) /\
   StrictOverlapResolver._overlaps (get rs i) (get rs j) = false).
Proof.
  cbv zeta. unfold StrictOverlapResolver.visit.
  destruct (StrictOverlapResolver._overlaps (get rs i) (get rs j)) eqn:Eo; cbn [negb].
  - destruct (has_purpose "circulation" (get rs i) &&
              has_purpose "circulation" (get rs j))%bool;
      [cbn; split; [lia | intros; lia] |].
    destruct (Room.locked (get rs i) && Room.locked (get rs j))%bool;
      [cbn; split; [lia | intros; lia] |].
    destruct (StrictOverlapResolver._is_master_pair (get rs i) (get rs j));
      [cbn; split; [lia | intros; lia] |].
    destruct (StrictOverlapResolver.handle_pair (get rs i) (get rs j)) as [[a' b'] moved].
    cbn. split; [lia | intros; lia].
  - cbn. split; [lia | intros _; split; reflexivity].
Qed.

(** A run of visits that ends with the count it started with has met no
    overlapping pair and has left the rooms and the flag as they were. *)
Lemma visits_quiet (pairs : list (nat * nat)) :
  forall (rs : list Room.t) (changed : bool) (n : nat),
    let st := fold_left StrictOverlapResolver.visit pairs (rs, changed, n) in
    (n <= snd st)%nat /\
    (snd st = n ->
     st = (rs, changed, n) /\
     Forall (fun ij => StrictOverlapResolver._overlaps
                         (get rs (fst ij)) (get rs (snd ij)) = false) pairs).
Proof.
  induction pairs as [| [i j] pairs IH]; intros rs changed n; cbv zeta.
  - cbn. split; [lia | intros _; split; [reflexivity | constructor]].
  - cbn [fold_left].
    destruct (visit_count rs changed n i j) as [Hle Hsame].
    destruct (StrictOverlapResolver.visit (rs, changed, n) (i, j))
      as [[rs1 changed1] n1] eqn:Ev.
    cbn [snd] in Hle, Hsame.
    destruct (IH rs1 changed1 n1) as [Hle' Hsame'].
    split; [lia |].
    intros Hend.
    assert (Hn1 : n1 = n) by lia.
    destruct (Hsame Hn1) as [Est Hov].
    injection Est as -> -> _. subst n1.
    destruct (Hsame' Hend) as [Est' Hall].
    split; [exact Est' |].
    constructor; [exact Hov | exact Hall].
Qed.

Lemma index_pairs_complete (n i j : nat) :
  (i < j)%nat -> (j < n)%nat -> In (i, j) (StrictOverlapResolver.index_pairs n).
Proof.
  intros Hij Hjn. unfold StrictOverlapResolver.index_pairs.
  apply in_flat_map. exists i. split.
  - apply in_seq. lia.
  - apply in_map. apply in_seq. lia.
Qed.

Lemma separated_sym (a b : Room.t) : separated a b -> separated b a.
Proof. unfold separated. tauto. Qed.

(** C1, amended: when [resolve] leaves its loop through the early return
    (a pass that changed nothing and counted no overlapping pair), no two
    rooms of the list it returns overlap, circulation rooms included.
    Nothing is promised when the 200 passes are used up, nor for the
    rooms once later phases have moved them. *)
Theorem resolve_early_return_separated (iters : nat) (rs out : list Room.t)
    (i j : nat) (a b : Room.t) :
  StrictOverlapResolver.resolve_from iters rs = (out, true) ->
  i <> j ->
  out !! i = Some a ->
  out !! j = Some b ->
  separated a b.
Proof.
  revert rs. induction iters as [| n IH]; intros rs Hres Hij Ha Hb.
  - cbn in Hres. discriminate.
  - cbn [StrictOverlapResolver.resolve_from] in Hres.
    destruct (StrictOverlapResolver.pass rs) as [[rs1 changed] found] eqn:Ep.
    destruct (negb changed && Nat.eqb found 0)%bool eqn:Eq.
    + injection Hres as <-.
      apply andb_true_iff in Eq. destruct Eq as [_ Hfound].
      apply Nat.eqb_eq in Hfound. subst found.
      unfold StrictOverlapResolver.pass in Ep.
      destruct (visits_quiet (StrictOverlapResolver.index_pairs (length rs))
                  rs false 0%nat) as [_ Hquiet].
      rewrite Ep in Hquiet. cbn [snd] in Hquiet.
      destruct (Hquiet eq_refl) as [Est Hall].
      injection Est as -> _.
      rewrite Forall_forall in Hall.
      assert (Hlt : forall p q u v, (p < q)%nat -> rs !! p = Some u ->
                                    rs !! q = Some v -> separated u v).
      { intros p q u v Hpq Hu Hv.
        apply overlaps_false_separated.
        assert (Hin := index_pairs_complete (length rs) p q Hpq
                         (lookup_lt_Some _ _ _ Hv)).
        apply list_elem_of_In in Hin.
        specialize (Hall (p, q) Hin). cbn [fst snd] in Hall.
        rewrite (get_lookup _ _ _ Hu), (get_lookup _ _ _ Hv) in Hall. exact Hall. }
      destruct (Nat.lt_ge_cases i j) as [Hlt' | Hge].
      * exact (Hlt i j a b Hlt' Ha Hb).
      * apply separated_sym. apply (Hlt j i b a); [lia | assumption | assumption].
    + exact (IH rs1 Hres Hij Ha Hb).
Qed.

Lemma resolve_early_return_separated_witness :
  StrictOverlapResolver.resolve_from StrictOverlapResolver.MAX_ITERS
      [study_room; store_room]
    = ([Room.set_x 3 study_room; store_room], true) /\
  0%nat <> 1%nat /\
  [Room.set_x 3 study_room; store_room] !! 0%nat = Some (Room.set_x 3 study_room) /\
  [Room.set_x 3 study_room; store_room] !! 1%nat = Some store_room /\
  separated (Room.set_x 3 study_room) store_room.
Proof.
  assert (Hrun : StrictOverlapResolver.resolve_from StrictOverlapResolver.MAX_ITERS
                   [study_room; store_room]
                 = ([Room.set_x 3 study_room; store_room], true))
    by (vm_compute; reflexivity).
  split; [exact Hrun |]. split; [discriminate |].
  split; [reflexivity |]. split; [reflexivity |].
  apply (resolve_early_return_separated StrictOverlapResolver.MAX_ITERS
           [study_room; store_room] [Room.set_x 3 study_room; store_room]
           0 1 (Room.set_x 3 study_room) store_room Hrun);
    [discriminate | reflexivity | reflexivity].
Defined.

(** ** Adjacency Refiner: the master suite *)

Lemma find_index_Some (p : Room.t -> bool) (rs : list Room.t) (i : nat) :
  find_index p rs = Some i -> exists r, rs !! i = Some r /\ p r = true.
Proof.
  revert i. induction rs as [| r rs IH]; intros i H; cbn in H; [discriminate |].
  destruct (p r) eqn:Ep.
  - injection H as <-. exists r. split; [reflexivity | exact Ep].
  - destruct (find_index p rs) as [k |]; [| discriminate].
    injection H as <-. destruct (IH k eq_refl) as (r' & Hr' & Hp).
    exists r'. split; assumption.
Qed.

Lemma get_alter_eq (f : Room.t -> Room.t) (rs : list Room.t) (i : nat) (r : Room.t) :
  rs !! i = Some r -> get (alter f i rs) i = f r.
Proof.
  intros H. unfold get. rewrite list_lookup_alter_eq, H. reflexivity.
Qed.

Lemma get_alter_ne (f : Room.t -> Room.t) (rs : list Room.t) (i j : nat) :
  i <> j -> get (alter f i rs) j = get rs j.
Proof.
  intros H. unfold get. rewrite list_lookup_alter_ne by exact H. reflexivity.
Qed.

(** C2, amended: the step that opens every refiner iteration leaves the
    master bedroom where it is and puts the master bathroom, locked, half
    a unit to the right of it at the same y, so that the facing walls run
    alongside for the smaller of the two heights; that is at least 2.5
    when both rooms are at least 2.5 high.  The steps that follow (other
    attachments, grid snap, resolver, expander, clamp, polish) are not
    covered. *)
Theorem force_master_attaches (rs : list Room.t) (bed bath : nat) :
  find_index is_master_bed rs = Some bed ->
  find_index is_master_bath rs = Some bath ->
  let rs' := StrictAdjacencyRefiner.force_master rs in
  let b := get rs' bed in
  let t := get rs' bath in
  b = get rs bed /\
  Room.x t == Room.x b + Room.width b + (1 # 2) /\
  Room.y t == Room.y b /\
  Room.locked t = true /\
  wall_gap b t Right == 1 # 2 /\
  StrictAdjacencyRefiner._wall_overlap b t Right
    == Qmin (Room.height b) (Room.height t) /\
  (5 # 2 <= Room.height b -> 5 # 2 <= Room.height t ->
   adjacent_on (1 # 2) (5 # 2) b t Right).
Proof.
  intros Hbed Hbath. cbv zeta.
  unfold StrictAdjacencyRefiner.force_master. rewrite Hbed, Hbath.
  destruct (find_index_Some _ _ _ Hbed) as (rb & Lb & Pb).
  destruct (find_index_Some _ _ _ Hbath) as (rt & Lt & Pt).
  assert (Hne : bath <> bed).
  { intros ->. rewrite Lb in Lt. injection Lt as <-.
    unfold is_master_bed, is_master_bath in Pb, Pt.
    apply andb_true_iff in Pb, Pt. destruct Pb as [Pb _], Pt as [Pt _].
    apply String.eqb_eq in Pb, Pt. rewrite Pb in Pt. discriminate. }
  rewrite !get_alter_ne by exact Hne.
  rewrite (get_lookup _ _ _ Lb).
  set (f1 := Room.set_x (Room.x rb + Room.width rb + (1 # 2))).
  assert (L1 : alter f1 bath rs !! bath = Some (f1 rt))
    by (rewrite list_lookup_alter_eq, Lt; reflexivity).
  set (f2 := Room.set_y (Room.y rb)).
  assert (L2 : alter f2 bath (alter f1 bath rs) !! bath = Some (f2 (f1 rt)))
    by (rewrite list_lookup_alter_eq, L1; reflexivity).
  rewrite (get_alter_eq _ _ _ _ L2).
  assert (Hgap : wall_gap rb (Room.set_locked true (f2 (f1 rt))) Right == 1 # 2).
  { change (Qabs (Room.x rb + Room.width rb - (Room.x rb + Room.width rb + (1 # 2)))
            == 1 # 2).
    assert (E : Room.x rb + Room.width rb - (Room.x rb + Room.width rb + (1 # 2))
                == - (1 # 2)) by ring.
    rewrite E. reflexivity. }
  assert (Hwall : StrictAdjacencyRefiner._wall_overlap rb
                    (Room.set_locked true (f2 (f1 rt))) Right
                  == Qmin (Room.height rb) (Room.height rt)).
  { change (Qmin (Room.y rb + Room.height rb) (Room.y rb + Room.height rt)
            - Qmax (Room.y rb) (Room.y rb)
            == Qmin (Room.height rb) (Room.height rt)).
    rewrite Q.max_id.
    destruct (Q.min_spec (Room.height rb) (Room.height rt)) as [[Hlt ->] | [Hle ->]].
    - rewrite Q.min_l by lra. ring.
    - rewrite Q.min_r by lra. ring. }
  split; [reflexivity |]. split; [cbn; reflexivity |]. split; [cbn; reflexivity |].
  split; [reflexivity |]. split; [exact Hgap |]. split; [exact Hwall |].
  intros Hb Ht. split.
  - rewrite Hgap. apply Qle_refl.
  - rewrite Hwall. apply Q.min_glb; assumption.
Qed.

Lemma force_master_attaches_witness :
  find_index is_master_bed placed_suite = Some 0%nat /\
  find_index is_master_bath placed_suite = Some 1%nat /\
  adjacent_on (1 # 2) (5 # 2)
    (get (StrictAdjacencyRefiner.force_master placed_suite) 0)
    (get (StrictAdjacencyRefiner.force_master placed_suite) 1) Right.
Proof.
  split; [reflexivity |]. split; [reflexivity |].
  destruct (force_master_attaches placed_suite 0 1 eq_refl eq_refl)
    as (_ & _ & _ & _ & _ & _ & H).
  apply H; vm_compute; discriminate.
Defined.

(** ** The final clamp and polish *)

Lemma clamp_within (bounds : Q * Q * Q * Q) (r : Room.t) :
  let '(xmin, ymin, xmax, ymax) := bounds in
  let c := clamp_to_bounds bounds r in
  Room.width c = Room.width r /\ Room.height c = Room.height r /\
  Room.purpose c = Room.purpose r /\
  (Room.width r <= xmax - xmin -> xmin <= Room.x c /\ Room.x c + Room.width c <= xmax) /\
  (Room.height r <= ymax - ymin -> ymin <= Room.y c /\ Room.y c + Room.height c <= ymax).
Proof.
  destruct bounds as [[[xmin ymin] xmax] ymax]. cbv zeta.
  unfold clamp_to_bounds. cbn.
  split; [reflexivity |]. split; [reflexivity |]. split; [reflexivity |].
  split; intros Hfit.
  - split; [apply Q.le_max_l |].
    apply Q.max_case_strong; [intros p q Hpq H; rewrite <- Hpq; exact H | |];
      intros Hcmp.
    + lra.
    + assert (H := Q.le_min_r (Room.x r) (xmax - Room.width r)). lra.
  - split; [apply Q.le_max_l |].
    apply Q.max_case_strong; [intros p q Hpq H; rewrite <- Hpq; exact H | |];
      intros Hcmp.
    + lra.
    + assert (H := Q.le_min_r (Room.y r) (ymax - Room.height r)). lra.
Qed.

Lemma polish_room_other (r : Room.t) :
  has_purpose "circulation" r = false ->
  has_purpose "bathroom" r = false ->
  polish_room r = r.
Proof.
  intros Hc Hb. unfold polish_room. rewrite Hc, Hb. reflexivity.
Qed.

(** C3, amended: in the layout [generate_layout] returns, every room that
    is neither a bathroom nor a circulation room and whose width and
    height do not exceed the buildable 30 x 30 lies within the bounds
    (5, 5, 35, 35). *)
Theorem final_rooms_within_bounds (plan_json : PlanJson.t) (l : Layout.t)
    (r : Layout.room) :
  generate_layout plan_json = Ok l ->
  In r (Layout.rooms l) ->
  Layout.purpose r <> "bathroom"%string ->
  Layout.purpose r <> "circulation"%string ->
  Layout.width r <= 30 ->
  Layout.height r <= 30 ->
  within_bounds BOUNDS r.
Proof.
  unfold generate_layout.
  destruct (PlanJson.rooms plan_json) as [js |]; cbn [subscript bind]; [| discriminate].
  destruct (rooms_of_json js) as [rooms | e]; cbn [bind]; [| discriminate].
  destruct (phases rooms) as [rs doors].
  intros [= <-]. cbn [Layout.rooms].
  intros Hin. apply in_map_iff in Hin as (r1 & <- & Hin).
  unfold polish_layout in Hin.
  apply in_map_iff in Hin as (r2 & <- & Hin).
  apply in_map_iff in Hin as (r3 & <- & _).
  pose proof (clamp_within BOUNDS r3) as Hc. cbv beta iota zeta delta [BOUNDS] in Hc.
  fold BOUNDS in Hc.
  destruct Hc as (Hw & Hh & Hp & Hx & Hy).
  set (c := clamp_to_bounds BOUNDS r3) in *.
  assert (Hpol : forall p, Room.purpose (polish_room c) = p -> Room.purpose c = p).
  { intros p <-. unfold polish_room.
    destruct (has_purpose "circulation" c); cbn;
      match goal with |- context [if ?t then _ else _] => destruct t end; reflexivity. }
  cbn [Layout.purpose Layout.width Layout.height Layout.of_room].
  intros Hnb Hnc.
  assert (Eb : has_purpose "bathroom" c = false).
  { unfold has_purpose. apply String.eqb_neq. intros E. apply Hnb.
    rewrite <- E. symmetry. apply Hpol. reflexivity. }
  assert (Ec : has_purpose "circulation" c = false).
  { unfold has_purpose. apply String.eqb_neq. intros E. apply Hnc.
    rewrite <- E. symmetry. apply Hpol. reflexivity. }
  rewrite (polish_room_other c Ec Eb).
  intros Hwid Hhei. rewrite Qred_correct in Hwid, Hhei.
  unfold within_bounds, BOUNDS, Layout.of_room. cbn [Layout.x Layout.y Layout.width Layout.height].
  rewrite !Qred_correct.
  rewrite Hw in Hwid. rewrite Hh in Hhei.
  destruct Hx as [Hx1 Hx2]; [lra |].
  destruct Hy as [Hy1 Hy2]; [lra |].
  rewrite Hw in Hx2 |- *. rewrite Hh in Hy2 |- *.
  repeat split; assumption.
Qed.

Lemma final_rooms_within_bounds_witness :
  generate_layout plan_two_stores = Ok two_stores_layout /\
  In (Layout.mk_room "r1" "Store" "store" "service" 11 5 10 10)
     (Layout.rooms two_stores_layout) /\
  within_bounds BOUNDS (Layout.mk_room "r1" "Store" "store" "service" 11 5 10 10).
Proof.
  assert (Hrun : generate_layout plan_two_stores = Ok two_stores_layout)
    by (vm_compute; reflexivity).
  split; [exact Hrun |]. split; [left; reflexivity |].
  apply (final_rooms_within_bounds plan_two_stores two_stores_layout _ Hrun);
    [left; reflexivity | discriminate | discriminate
    | vm_compute; discriminate | vm_compute; discriminate].
Defined.

(** ** Door Placer *)

Lemma shared_wall_first_pairing (a b : Room.t) :
  DoorPlacer._shared_wall a b (1 # 5) = first_pairing a b.
Proof.
  unfold DoorPlacer._shared_wall, first_pairing, wall_pairings.
  cbn [Room.bounds List.find fst snd].
  repeat match goal with
         | |- context [if ?t then _ else _] => destruct t; cbn [fmap option_fmap option_map snd]
         end; reflexivity.
Qed.

Lemma door_between_pair (a b : Room.t) (d : Door.t) :
  DoorPlacer.door_between a b = Some d ->
  Door.from_room d = Room.room_id a /\
  Door.to_room d = Room.room_id b /\
  first_pairing a b = Some (Door.orientation d, Door.x d, Door.y d).
Proof.
  unfold DoorPlacer.door_between. rewrite shared_wall_first_pairing.
  destruct (first_pairing a b) as [[[o px] py] |]; [| discriminate].
  repeat match goal with
         | |- context [if ?t then _ else _] => destruct t
         end; try discriminate.
  intros [= <-]. cbn. repeat split; reflexivity.
Qed.

(** [door_between] yields a door exactly for a pair with a qualifying
    wall pairing that is not among the excluded pairs. *)
Lemma door_between_iff (a b : Room.t) :
  is_Some (DoorPlacer.door_between a b) <->
  is_Some (first_pairing a b) /\ door_excluded a b = false.
Proof.
  unfold DoorPlacer.door_between, door_excluded.
  rewrite shared_wall_first_pairing.
  destruct (first_pairing a b) as [[[o px] py] |].
  - destruct (String.eqb (Room.zone a) "private"), (String.eqb (Room.zone b) "private"),
      (has_purpose "bathroom" a), (has_purpose "bathroom" b),
      (has_purpose "circulation" a), (has_purpose "circulation" b); cbn;
      split; try (intros [d Hd]; discriminate); try (intros [_ H]; discriminate);
      intros _; (split; [eexists; reflexivity | reflexivity]) || (eexists; reflexivity).
  - split; [intros [d Hd]; discriminate | intros [[w Hw] _]; discriminate].
Qed.

(** The doors appended while [a], at position [i], is the outer room and
    the rooms from position [k] on are scanned: one door for each later
    position whose room gets a door with [a], and no other. *)
Lemma doors_of_row (all : list Room.t) (a : Room.t) (i : nat) :
  all !! i = Some a ->
  forall (rest : list Room.t) (k : nat),
    (i < k)%nat ->
    rest = drop k all ->
    exists js : list nat,
      NoDup js /\
      (forall j, j ∈ js <->
         (k <= j)%nat /\
         exists b, all !! j = Some b /\ is_Some (DoorPlacer.door_between a b)) /\
      Forall2 (fun j d => door_of_pair all (i, j) d) js
              (omap (DoorPlacer.door_between a) rest).
Proof.
  intros Ha rest. induction rest as [| b rest IH]; intros k Hik Hrest.
  - exists []. split; [constructor |]. split; [| constructor].
    intros j. split; [intros H; inversion H |].
    intros (Hkj & b & Hb & _). apply lookup_lt_Some in Hb.
    assert (Hlen : length (drop k all) = 0%nat) by (rewrite <- Hrest; reflexivity).
    rewrite length_drop in Hlen. lia.
  - assert (Hk : all !! k = Some b).
    { pose proof (lookup_drop all k 0) as H. rewrite <- Hrest in H.
      rewrite Nat.add_0_r in H. symmetry. exact H. }
    assert (Hrest' : rest = drop (S k) all).
    { pose proof (drop_S all b k Hk) as H. rewrite <- Hrest in H.
      injection H as H. exact H. }
    destruct (IH (S k)) as (js & Hnd & Hmem & Hall); [lia | exact Hrest' |].
    cbn [omap list_omap].
    destruct (DoorPlacer.door_between a b) as [d |] eqn:Ed.
    + exists (k :: js). split; [| split].
      * apply NoDup_cons. split; [| exact Hnd].
        intros Hin. apply Hmem in Hin as [Hlt _]. lia.
      * intros j. rewrite elem_of_cons, Hmem. split.
        -- intros [-> | (Hlt & b' & Hb' & Hd')].
           ++ split; [lia |]. exists b. split; [exact Hk |]. rewrite Ed. eexists; reflexivity.
           ++ split; [lia |]. exists b'. split; assumption.
        -- intros (Hkj & b' & Hb' & Hd').
           destruct (decide (j = k)) as [-> | Hne]; [left; reflexivity | right].
           split; [lia |]. exists b'. split; assumption.
      * constructor; [| exact Hall].
        split; [exact Hik |]. exists a, b. cbn [fst snd].
        split; [exact Ha |]. split; [exact Hk |].
        apply door_between_pair. exact Ed.
    + exists js. split; [exact Hnd |]. split; [| exact Hall].
      intros j. rewrite Hmem. split.
      * intros (Hlt & b' & Hb' & Hd'). split; [lia |]. exists b'. split; assumption.
      * intros (Hkj & b' & Hb' & Hd').
        destruct (decide (j = k)) as [-> | Hne].
        -- rewrite Hk in Hb'. injection Hb' as <-. rewrite Ed in Hd'.
           destruct Hd' as [d Hd]. discriminate.
        -- split; [lia |]. exists b'. split; assumption.
Qed.

(** The doors placed for the rooms from position [k] on: one for each
    pair of positions [k <= i < j] whose rooms get a door, and no other. *)
Lemma doors_of_suffix (all : list Room.t) :
  forall (rooms : list Room.t) (k : nat),
    rooms = drop k all ->
    exists ps : list (nat * nat),
      NoDup ps /\
      (forall i j, (i, j) ∈ ps <->
         (k <= i)%nat /\ (i < j)%nat /\
         exists a b, all !! i = Some a /\ all !! j = Some b /\
                     is_Some (DoorPlacer.door_between a b)) /\
      Forall2 (door_of_pair all) ps (DoorPlacer.place rooms).
Proof.
  intros rooms. induction rooms as [| a rest IH]; intros k Hrooms.
  - exists []. split; [constructor |]. split; [| constructor].
    intros i j. split; [intros H; inversion H |].
    intros (Hki & _ & a & _ & Ha & _). apply lookup_lt_Some in Ha.
    assert (Hlen : length (drop k all) = 0%nat) by (rewrite <- Hrooms; reflexivity).
    rewrite length_drop in Hlen. lia.
  - assert (Ha : all !! k = Some a).
    { pose proof (lookup_drop all k 0) as H. rewrite <- Hrooms in H.
      rewrite Nat.add_0_r in H. symmetry. exact H. }
    assert (Hrest : rest = drop (S k) all).
    { pose proof (drop_S all a k Ha) as H. rewrite <- Hrooms in H.
      injection H as H. exact H. }
    destruct (doors_of_row all a k Ha rest (S k)) as (js & Hnd & Hmem & Hrow);
      [lia | exact Hrest |].
    destruct (IH (S k) Hrest) as (ps & Hnd' & Hmem' & Hall).
    exists ((pair k <$> js) ++ ps). split; [| split].
    + apply NoDup_app. split; [| split; [| exact Hnd']].
      * apply NoDup_fmap_2; [| exact Hnd]. intros p q [= ->]. reflexivity.
      * intros [i j] Hin Hin'.
        apply list_elem_of_fmap in Hin as (j' & [= -> ->] & _).
        apply Hmem' in Hin' as [Hlt _]. lia.
    + intros i j. rewrite elem_of_app, list_elem_of_fmap, Hmem'. split.
      * intros [(j' & [= -> ->] & Hin) | (Hlt & Hij & a' & b & Ha' & Hb & Hd)].
        -- apply Hmem in Hin as (Hlt & b & Hb & Hd).
           split; [lia |]. split; [lia |]. exists a, b. repeat split; assumption.
        -- split; [lia |]. split; [exact Hij |]. exists a', b. repeat split; assumption.
      * intros (Hki & Hij & a' & b & Ha' & Hb & Hd).
        destruct (decide (i = k)) as [-> | Hne].
        -- left. exists j. split; [reflexivity |]. apply Hmem.
           rewrite Ha in Ha'. injection Ha' as <-.
           split; [lia |]. exists b. split; assumption.
        -- right. split; [lia |]. split; [exact Hij |]. exists a', b.
           repeat split; assumption.
    + cbn [DoorPlacer.place]. apply Forall2_app; [| exact Hall].
      apply Forall2_fmap_l. exact Hrow.
Qed.

(** C9: the doors [DoorPlacer.place] returns correspond, in order, to
    pairwise distinct position pairs [i < j] of the room list, so no pair
    of rooms gets more than one door; each door leads from the room that
    comes first in the list to the later one, and its orientation and
    position are those of the first of the four wall pairings, tested in
    the order right, left, bottom, top edge of the earlier room, whose
    edges are less than 0.2 apart and overlap by more than 2.  The pairs
    that get a door are exactly the pairs with such a wall pairing that
    are neither two circulation rooms nor two private rooms without a
    bathroom: no such pair is left without its door. *)
Theorem one_door_per_pair (rooms : list Room.t) :
  exists ps : list (nat * nat),
    NoDup ps /\
    Forall2 (door_of_pair rooms) ps (DoorPlacer.place rooms) /\
    forall i j,
      (i, j) ∈ ps <->
      (i < j)%nat /\
      exists a b,
        rooms !! i = Some a /\ rooms !! j = Some b /\
        is_Some (first_pairing a b) /\ door_excluded a b = false.
Proof.
  destruct (doors_of_suffix rooms rooms 0 eq_refl) as (ps & Hnd & Hmem & Hall).
  exists ps. split; [exact Hnd |]. split; [exact Hall |].
  intros i j. rewrite Hmem. split.
  - intros (_ & Hij & a & b & Ha & Hb & Hd). split; [exact Hij |].
    exists a, b. apply door_between_iff in Hd as [Hw Hex]. repeat split; assumption.
  - intros (Hij & a & b & Ha & Hb & Hw & Hex). split; [lia |]. split; [exact Hij |].
    exists a, b. split; [exact Ha |]. split; [exact Hb |].
    apply door_between_iff. split; assumption.
Qed.

(** A living room with a kitchen against its right wall: one door, from
    the living room to the kitchen, in the middle of the shared wall. *)
Example door_living_kitchen :
  exists d,
    DoorPlacer.place
      [ Room.mk "liv" "Living" "living" 10 10 "public" [] 0 0 false 100;
        Room.mk "kit" "Kitchen" "kitchen" 8 8 "service" [] 10 0 false 80 ] = [d] /\
    Door.from_room d = "liv"%string /\ Door.to_room d = "kit"%string /\
    Door.orientation d = "vertical"%string /\
    Door.x d == 10 /\ Door.y d == 4.
Proof.
  eexists. split; [vm_compute; reflexivity |].
  repeat split.
Qed.

(** * Further properties of the code *)

(** ** Envelope Builder *)

Lemma Kind_eqb_eq (a b : Kind) : Kind_eqb a b = true <-> a = b.
Proof. destruct a, b; cbn; split; intros H; try reflexivity; discriminate. Qed.

Lemma Kind_eqb_refl (a : Kind) : Kind_eqb a a = true.
Proof. destruct a; reflexivity. Qed.


(** X2: subtracting the outer walls is idempotent, the walls it returns
    all miss the rounded keys of the outer walls, and with no outer wall
    it returns the inner walls as they are. *)
Theorem subtract_outer_idempotent (inner_walls outer_walls : list WallSegment.t) :
  subtract_outer_from_inner (subtract_outer_from_inner inner_walls outer_walls)
                            outer_walls
    = subtract_outer_from_inner inner_walls outer_walls /\
  Forall (fun w => in_outer_keys outer_walls w = false)
         (subtract_outer_from_inner inner_walls outer_walls) /\
  subtract_outer_from_inner inner_walls [] = inner_walls.
Proof.
  unfold subtract_outer_from_inner. split; [| split].
  - induction inner_walls as [| w ws IH]; [reflexivity |].
    cbn [List.filter]. destruct (in_outer_keys outer_walls w) eqn:E; cbn [negb].
    + exact IH.
    + cbn [List.filter]. rewrite E. cbn [negb]. f_equal. exact IH.
  - induction inner_walls as [| w ws IH]; [constructor |].
    cbn [List.filter]. destruct (in_outer_keys outer_walls w) eqn:E; cbn [negb].
    + exact IH.
    + constructor; assumption.
  - induction inner_walls as [| w ws IH]; [reflexivity |].
    cbn. f_equal. exact IH.
Qed.

(** The keys keep the endpoint order: an inner wall whose endpoints are
    those of an outer wall in the opposite order is not subtracted. *)
Example subtract_outer_endpoint_order :
  subtract_outer_from_inner [WallSegment.mk 0 8 0 0 inner] [wall_outer_left]
    = [WallSegment.mk 0 8 0 0 inner] /\
  subtract_outer_from_inner [WallSegment.mk 0 0 0 8 inner] [wall_outer_left] = [].
Proof. split; reflexivity. Qed.

Lemma Qltb_abs_sym (a b c : Q) : (Qabs (a - b) <? c) = (Qabs (b - a) <? c).
Proof. rewrite (Qabs_Qminus a b). reflexivity. Qed.

(** X3: [trim_inner_wall] returns nothing for every wall that is vertical
    or horizontal (within [EPS]), whatever the clearance: the test that
    follows the trimming rejects a wall whose two x or two y coincide.
    Any other wall comes back with its coordinates unchanged, as an inner
    wall. *)
Theorem trim_inner_wall_axis_aligned (w : WallSegment.t) (clearance : Q) :
  ((is_vertical w || is_horizontal w)%bool = true ->
   trim_inner_wall w clearance = None) /\
  ((is_vertical w || is_horizontal w)%bool = false ->
   trim_inner_wall w clearance
     = Some (WallSegment.mk (WallSegment.x1 w) (WallSegment.y1 w)
                            (WallSegment.x2 w) (WallSegment.y2 w) inner)).
Proof.
  destruct w as [wx1 wy1 wx2 wy2 wk].
  unfold trim_inner_wall, is_vertical, is_horizontal.
  cbn [WallSegment.x1 WallSegment.x2 WallSegment.y1 WallSegment.y2].
  destruct (Qabs (wx1 - wx2) <? EPS) eqn:Ev.
  - split; [intros _ | discriminate].
    rewrite (Qltb_abs_sym wx2 wx1), Ev. reflexivity.
  - destruct (Qabs (wy1 - wy2) <? EPS) eqn:Eh.
    + split; [intros _ | discriminate].
      rewrite (Qltb_abs_sym wy2 wy1), Eh, orb_true_r. reflexivity.
    + split; [discriminate | intros _].
      rewrite (Qltb_abs_sym wx2 wx1), Ev, (Qltb_abs_sym wy2 wy1), Eh. reflexivity.
Qed.

(** X4: dropping the noise cells changes nothing for the partition walls:
    [filter_noise_cells] only ever drops circulation cells, and these own
    no wall.  Each other cell contributes four inner walls. *)
Theorem partition_walls_ignore_noise (cells : list Cell.t) :
  compute_room_partition_walls (filter_noise_cells cells)
    = compute_room_partition_walls cells /\
  length (compute_room_partition_walls cells)
    = (4 * length (List.filter (fun c => negb (is_circulation_cell c)) cells))%nat /\
  Forall (fun w => WallSegment.kind w = inner) (compute_room_partition_walls cells).
Proof.
  unfold compute_room_partition_walls, filter_noise_cells.
  split; [| split].
  - induction cells as [| c cells IH]; [reflexivity |].
    cbn [List.filter flat_map].
    destruct (is_circulation_cell c) eqn:Ec; cbn [andb negb].
    + destruct (Cell.area c <? MIN_CORRIDOR_AREA); cbn [negb flat_map].
      * exact IH.
      * rewrite Ec. cbn [app]. exact IH.
    + cbn [flat_map]. rewrite Ec. f_equal. exact IH.
  - induction cells as [| c cells IH]; [reflexivity |].
    cbn [List.filter flat_map].
    destruct (is_circulation_cell c) eqn:Ec; cbn [negb].
    + cbn [app]. exact IH.
    + destruct c as [cid cp cx cy cw ch]. rewrite length_app, IH. cbn [length]. lia.
  - induction cells as [| c cells IH]; [constructor |].
    cbn [flat_map]. apply Forall_app. split; [| exact IH].
    destruct (is_circulation_cell c); [constructor |].
    destruct c as [cid cp cx cy cw ch]. repeat constructor.
Qed.

(** *** [merge_walls] *)

Lemma try_merge_kind (w m m' : WallSegment.t) :
  try_merge w m = Some m' ->
  WallSegment.kind m = WallSegment.kind w /\
  WallSegment.kind m' = WallSegment.kind m.
Proof.
  destruct w as [wx1 wy1 wx2 wy2 wk], m as [mx1 my1 mx2 my2 mk].
  unfold try_merge.
  destruct (Kind_eqb wk mk) eqn:Ek; cbn [negb]; [| discriminate].
  apply Kind_eqb_eq in Ek. subst mk.
  repeat match goal with
         | |- context [if ?t then _ else _] => destruct t
         end; try discriminate; intros [= <-]; split; reflexivity.
Qed.

Lemma try_merge_other_kind (w m : WallSegment.t) :
  WallSegment.kind m <> WallSegment.kind w -> try_merge w m = None.
Proof.
  intros Hne. destruct (try_merge w m) as [m' |] eqn:E; [| reflexivity].
  apply try_merge_kind in E. tauto.
Qed.

Lemma merge_into_length (w : WallSegment.t) (merged l : list WallSegment.t) :
  merge_into w merged = Some l -> length l = length merged.
Proof.
  revert l. induction merged as [| m rest IH]; intros l; cbn [merge_into].
  - discriminate.
  - destruct (try_merge w m) as [m' |].
    + intros [= <-]. reflexivity.
    + destruct (merge_into w rest) as [l' |]; cbn; [| discriminate].
      intros [= <-]. cbn. f_equal. apply IH. reflexivity.
Qed.

(** One round of the outer loop of [merge_walls]. *)
Lemma merge_walls_fold (walls : list WallSegment.t) :
  merge_walls walls
    = fold_left (fun merged w => match merge_into w merged with
                                 | Some merged' => merged'
                                 | None => merged ++ [w]
                                 end) walls [].
Proof. reflexivity. Qed.

Lemma merge_fold_length (walls acc : list WallSegment.t) :
  let out := fold_left (fun merged w => match merge_into w merged with
                                        | Some merged' => merged'
                                        | None => merged ++ [w]
                                        end) walls acc in
  (length acc <= length out)%nat /\
  (length out <= length acc + length walls)%nat /\
  (acc = [] -> walls <> [] -> out <> []).
Proof.
  cbv zeta. revert acc. induction walls as [| w walls IH]; intros acc.
  - cbn. split; [lia |]. split; [lia |]. intros _ H. contradiction.
  - cbn [fold_left length].
    destruct (merge_into w acc) as [l |] eqn:E.
    + assert (El := merge_into_length _ _ _ E).
      destruct (IH l) as (H1 & H2 & _).
      split; [lia |]. split; [lia |].
      intros -> _. cbn in E. discriminate.
    + destruct (IH (acc ++ [w])) as (H1 & H2 & _).
      rewrite length_app in H1, H2. cbn [length] in H1, H2.
      split; [lia |]. split; [lia |].
      intros _ _ Hnil. rewrite Hnil in H1. cbn in H1. lia.
Qed.

(** X5: [merge_walls] never returns more walls than it is given, and it
    returns no wall exactly when it is given none. *)
Theorem merge_walls_length (walls : list WallSegment.t) :
  (length (merge_walls walls) <= length walls)%nat /\
  (merge_walls walls = [] <-> walls = []).
Proof.
  rewrite merge_walls_fold.
  destruct (merge_fold_length walls []) as (_ & H2 & H3). cbn [length] in H2.
  split; [lia |]. split.
  - intros Hnil. destruct walls as [| w walls]; [reflexivity |].
    exfalso. apply H3; [reflexivity | discriminate | exact Hnil].
  - intros ->. reflexivity.
Qed.

Lemma has_kind_true (k : Kind) (w : WallSegment.t) :
  has_kind k w = true <-> WallSegment.kind w = k.
Proof. unfold has_kind. apply Kind_eqb_eq. Qed.

Lemma has_kind_false (k : Kind) (w : WallSegment.t) :
  has_kind k w = false <-> WallSegment.kind w <> k.
Proof.
  unfold has_kind. split.
  - intros H E. apply Kind_eqb_eq in E. congruence.
  - intros H. destruct (Kind_eqb (WallSegment.kind w) k) eqn:E; [| reflexivity].
    apply Kind_eqb_eq in E. contradiction.
Qed.

(** Folding a wall of kind [k] into [merged] commutes with keeping the
    walls of kind [k]. *)
Lemma merge_into_filter_same (k : Kind) (w : WallSegment.t) :
  WallSegment.kind w = k ->
  forall merged,
    List.filter (has_kind k) <$> merge_into w merged
      = merge_into w (List.filter (has_kind k) merged).
Proof.
  intros Hk merged. induction merged as [| m rest IH]; [reflexivity |].
  cbn [merge_into List.filter].
  destruct (try_merge w m) as [m' |] eqn:Et.
  - destruct (try_merge_kind _ _ _ Et) as [Hm Hm'].
    assert (E : has_kind k m = true) by (apply has_kind_true; congruence).
    assert (E' : has_kind k m' = true) by (apply has_kind_true; congruence).
    rewrite E. cbn [merge_into]. rewrite Et. cbn. rewrite E'. reflexivity.
  - destruct (has_kind k m) eqn:E.
    + cbn [merge_into]. rewrite Et, <- IH.
      destruct (merge_into w rest) as [l |]; cbn; [| reflexivity].
      rewrite E. reflexivity.
    + rewrite <- IH.
      destruct (merge_into w rest) as [l |]; cbn; [| reflexivity].
      rewrite E. reflexivity.
Qed.

(** Folding in a wall of another kind leaves the walls of kind [k] alone. *)
Lemma merge_into_filter_other (k : Kind) (w : WallSegment.t) :
  WallSegment.kind w <> k ->
  forall merged l,
    merge_into w merged = Some l ->
    List.filter (has_kind k) l = List.filter (has_kind k) merged.
Proof.
  intros Hk merged. induction merged as [| m rest IH]; intros l; cbn [merge_into].
  - discriminate.
  - destruct (try_merge w m) as [m' |] eqn:Et.
    + intros [= <-]. destruct (try_merge_kind _ _ _ Et) as [Hm Hm'].
      cbn [List.filter].
      assert (E : has_kind k m = false) by (apply has_kind_false; congruence).
      assert (E' : has_kind k m' = false) by (apply has_kind_false; congruence).
      rewrite E, E'. reflexivity.
    + destruct (merge_into w rest) as [l' |]; cbn; [| discriminate].
      intros [= <-]. cbn [List.filter]. rewrite (IH l' eq_refl). reflexivity.
Qed.

Lemma merge_fold_by_kind (k : Kind) (walls acc : list WallSegment.t) :
  List.filter (has_kind k)
    (fold_left (fun merged w => match merge_into w merged with
                                | Some merged' => merged'
                                | None => merged ++ [w]
                                end) walls acc)
  = fold_left (fun merged w => match merge_into w merged with
                               | Some merged' => merged'
                               | None => merged ++ [w]
                               end)
              (List.filter (has_kind k) walls) (List.filter (has_kind k) acc).
Proof.
  revert acc. induction walls as [| w walls IH]; intros acc; [reflexivity |].
  cbn [fold_left List.filter]. rewrite IH.
  destruct (has_kind k w) eqn:E.
  - assert (Ek : WallSegment.kind w = k) by (apply has_kind_true; exact E).
    cbn [fold_left].
    rewrite <- (merge_into_filter_same k w Ek acc).
    destruct (merge_into w acc) as [l |]; cbn.
    + reflexivity.
    + rewrite List.filter_app. cbn [List.filter]. rewrite E. reflexivity.
  - assert (Ek : WallSegment.kind w <> k) by (apply has_kind_false; exact E).
    destruct (merge_into w acc) as [l |] eqn:Em.
    + rewrite (merge_into_filter_other k w Ek acc l Em). reflexivity.
    + rewrite List.filter_app. cbn [List.filter]. rewrite E, app_nil_r. reflexivity.
Qed.

(** X6: outer and inner walls are merged independently of each other:
    the walls of one kind in the result of [merge_walls] are the result of
    [merge_walls] on the walls of that kind alone. *)
Theorem merge_walls_by_kind (k : Kind) (walls : list WallSegment.t) :
  List.filter (has_kind k) (merge_walls walls)
    = merge_walls (List.filter (has_kind k) walls).
Proof.
  rewrite !merge_walls_fold. apply (merge_fold_by_kind k walls []).
Qed.

(** X7: [compute_inner_walls] returns inner walls only, and none when
    there are fewer than two cells. *)
Theorem compute_inner_walls_kind (cells : list Cell.t) (tol : Q) :
  Forall (fun w => WallSegment.kind w = inner) (compute_inner_walls cells tol) /\
  ((length cells <= 1)%nat -> compute_inner_walls cells tol = []).
Proof.
  split.
  - assert (Hraw : List.filter (has_kind outer) (inner_walls_raw tol cells) = []).
    { induction cells as [| a rest IH]; [reflexivity |].
      cbn [inner_walls_raw]. rewrite List.filter_app, IH, app_nil_r.
      clear IH. induction rest as [| b rest IH]; [reflexivity |].
      cbn [flat_map]. rewrite List.filter_app, IH, app_nil_r.
      unfold inner_walls_of_pair.
      destruct a as [aid ap ax ay aw ah], b as [bid bp bx by_ bw bh].
      repeat match goal with
             | |- context [if ?t then _ else _] => destruct t
             end; reflexivity. }
    unfold compute_inner_walls.
    assert (Hout : List.filter (has_kind outer) (merge_walls (inner_walls_raw tol cells))
                   = merge_walls (List.filter (has_kind outer) (inner_walls_raw tol cells)))
      by (rewrite !merge_walls_fold; apply (merge_fold_by_kind outer _ [])).
    rewrite Hraw in Hout. change (merge_walls []) with (@nil WallSegment.t) in Hout.
    induction (merge_walls (inner_walls_raw tol cells)) as [| w ws IH];
      [constructor |].
    cbn [List.filter] in Hout.
    destruct (has_kind outer w) eqn:E; [discriminate |].
    constructor; [| exact (IH Hout)].
    apply has_kind_false in E. destruct (WallSegment.kind w); [contradiction | reflexivity].
  - intros Hlen. destruct cells as [| a [| b rest]]; [reflexivity | reflexivity |].
    cbn in Hlen. lia.
Qed.

(** ** Rounding, snapping, clamping, polishing *)

Lemma py_round_near (v : Q) :
  v - (1 # 2) <= inject_Z (py_round v) /\ inject_Z (py_round v) <= v + (1 # 2).
Proof.
  unfold py_round.
  assert (Hlo := Qfloor_le v). assert (Hhi := Qlt_floor v).
  rewrite inject_Z_plus in Hhi. change (inject_Z 1) with 1 in Hhi.
  destruct (v - inject_Z (Qfloor v) <? 1 # 2) eqn:E1.
  - apply Qltb_lt in E1. split; lra.
  - apply Qltb_ge in E1.
    destruct ((1 # 2) <? v - inject_Z (Qfloor v)) eqn:E2.
    + rewrite inject_Z_plus. change (inject_Z 1) with 1. split; lra.
    + apply Qltb_ge in E2.
      destruct (Z.even (Qfloor v)).
      * split; lra.
      * rewrite inject_Z_plus. change (inject_Z 1) with 1. split; lra.
Qed.

Lemma py_round_comp (u v : Q) : u == v -> py_round u = py_round v.
Proof.
  intros H. unfold py_round. rewrite (Qfloor_comp _ _ H).
  assert (E : u - inject_Z (Qfloor v) == v - inject_Z (Qfloor v)) by (rewrite H; reflexivity).
  assert (E1 : (u - inject_Z (Qfloor v) <? 1 # 2) = (v - inject_Z (Qfloor v) <? 1 # 2)).
  { unfold Qltb. rewrite E. reflexivity. }
  assert (E2 : ((1 # 2) <? u - inject_Z (Qfloor v)) = ((1 # 2) <? v - inject_Z (Qfloor v))).
  { unfold Qltb. rewrite E. reflexivity. }
  rewrite E1, E2. reflexivity.
Qed.

Lemma py_round_integer (k : Z) : py_round (inject_Z k) = k.
Proof.
  unfold py_round. rewrite Qfloor_Z.
  assert (E : (inject_Z k - inject_Z k <? 1 # 2) = true).
  { apply Qltb_lt. lra. }
  rewrite E. reflexivity.
Qed.

(** X8: [_snap_to_grid] lands on a multiple of 0.5, moves a coordinate by
    at most 0.25, and leaves a coordinate that is on the grid where it
    is; so snapping twice is snapping once. *)
Theorem snap_to_grid_spec (v : Q) :
  let s := StrictAdjacencyRefiner._snap_to_grid v in
  on_grid s /\
  Qabs (s - v) <= 1 # 4 /\
  (on_grid v -> s == v) /\
  StrictAdjacencyRefiner._snap_to_grid s == s.
Proof.
  cbv zeta. unfold StrictAdjacencyRefiner._snap_to_grid, StrictAdjacencyRefiner.GRID.
  assert (Hgrid : forall u, on_grid u ->
            inject_Z (py_round (u / (1 # 2))) * (1 # 2) == u).
  { intros u [k Hk].
    assert (E : u / (1 # 2) == inject_Z k) by (rewrite Hk; field).
    rewrite (py_round_comp _ _ E), py_round_integer. rewrite Hk. reflexivity. }
  assert (Hon : on_grid (inject_Z (py_round (v / (1 # 2))) * (1 # 2))).
  { exists (py_round (v / (1 # 2))). reflexivity. }
  split; [exact Hon |]. split; [| split; [apply Hgrid | apply Hgrid; exact Hon]].
  destruct (py_round_near (v / (1 # 2))) as [Hlo Hhi].
  assert (E : v / (1 # 2) == v * 2) by field.
  set (t := inject_Z (py_round (v / (1 # 2)))) in *.
  rewrite E in Hlo, Hhi.
  apply Qabs_Qle_condition. split; lra.
Qed.


(** X10: [polish_layout] nudges and never resizes: a circulation room
    moves to integer coordinates at most 0.5 away on each axis, a bathroom
    moves in x only, by at most 1, to an even integer, and every other
    room is left as it is. *)
Theorem polish_room_nudges (r : Room.t) :
  let p := polish_room r in
  shape p = shape r /\ Room.locked p = Room.locked r /\
  Room.priority p = Room.priority r /\
  (has_purpose "circulation" r = true ->
   Qabs (Room.x p - Room.x r) <= 1 # 2 /\ Qabs (Room.y p - Room.y r) <= 1 # 2 /\
   (exists k, Room.x p == inject_Z k) /\ (exists k, Room.y p == inject_Z k)) /\
  (has_purpose "bathroom" r = true ->
   Qabs (Room.x p - Room.x r) <= 1 /\ Room.y p = Room.y r /\
   (exists k, Room.x p == inject_Z (2 * k))) /\
  (has_purpose "circulation" r = false -> has_purpose "bathroom" r = false -> p = r).
Proof.
  cbv zeta. unfold polish_room, has_purpose.
  destruct (String.eqb (Room.purpose r) "circulation") eqn:Ec.
  - assert (Enb : String.eqb (Room.purpose r) "bathroom" = false).
    { apply String.eqb_eq in Ec. rewrite Ec. reflexivity. }
    cbn [Room.purpose Room.set_x Room.set_y]. rewrite Enb.
    split; [reflexivity |].
    split; [reflexivity |]. split; [reflexivity |].
    split; [| split; [discriminate | discriminate]].
    intros _. cbn [Room.x Room.y Room.set_x Room.set_y].
    destruct (py_round_near (Room.x r)) as [Hx1 Hx2].
    destruct (py_round_near (Room.y r)) as [Hy1 Hy2].
    split; [apply Qabs_Qle_condition; split; lra |].
    split; [apply Qabs_Qle_condition; split; lra |].
    split; eexists; reflexivity.
  - destruct (String.eqb (Room.purpose r) "bathroom") eqn:Eb.
    + split; [reflexivity |]. split; [reflexivity |]. split; [reflexivity |].
      split; [discriminate |]. split; [| discriminate].
      intros _. cbn [Room.x Room.y Room.set_x Room.set_y].
      destruct (py_round_near (Room.x r / 2)) as [Hx1 Hx2].
      assert (E : Room.x r / 2 == Room.x r * (1 # 2)) by field.
      rewrite inject_Z_mult. change (inject_Z 2) with 2.
      set (t := inject_Z (py_round (Room.x r / 2))) in *.
      rewrite E in Hx1, Hx2.
      split; [apply Qabs_Qle_condition; split; lra |].
      split; [reflexivity |].
      exists (py_round (Room.x r / 2)). rewrite inject_Z_mult. change (inject_Z 2) with 2.
      fold t. ring.
    + split; [reflexivity |]. split; [reflexivity |]. split; [reflexivity |].
      split; [discriminate |]. split; [discriminate |]. reflexivity.
Qed.

(** ** Quality Scorer *)

(** X11: the quality score lies between 0 and 110, and does not exceed
    100 once the plan has ten rooms or more; adding a door never raises
    it. *)
Theorem score_bounds (rooms : list Room.t) (doors : list Door.t) (d : Door.t) :
  (0 <= LayoutQualityScorer.score rooms doors <= 110)%Z /\
  ((10 <= length rooms)%nat -> (LayoutQualityScorer.score rooms doors <= 100)%Z) /\
  (LayoutQualityScorer.score rooms (d :: doors)
     <= LayoutQualityScorer.score rooms doors)%Z.
Proof.
  unfold LayoutQualityScorer.score, LayoutQualityScorer.count. cbv zeta.
  destruct (List.find (has_purpose "living") rooms) as [l |];
    destruct (List.find (has_purpose "kitchen") rooms) as [k |];
    cbn [List.filter];
    repeat match goal with
           | |- context [if (String.eqb ?a ?b || ?c)%bool then _ else _] =>
               destruct (String.eqb a b || c)%bool; cbn [length]
           end;
    rewrite ?Nat2Z.inj_succ;
    repeat match goal with
           | |- context [if (?a <? ?b)%Z then _ else _] =>
               let E := fresh "E" in
               destruct (a <? b)%Z eqn:E;
               [apply Z.ltb_lt in E | apply Z.ltb_ge in E]
           end;
    (split; [lia | split; [intros; lia | lia]]).
Qed.

(** X12: once the living room has two doors, each further door that
    touches it lowers the score by exactly 10, as long as the score stays
    above the floor of 0. *)
Theorem score_excess_living_door (rooms : list Room.t) (doors : list Door.t)
    (d : Door.t) (l : Room.t) :
  List.find (has_purpose "living") rooms = Some l ->
  (String.eqb (Door.from_room d) (Room.room_id l) ||
   String.eqb (Door.to_room d) (Room.room_id l))%bool = true ->
  (2 <= LayoutQualityScorer.count
          (fun d' => (String.eqb (Door.from_room d') (Room.room_id l) ||
                      String.eqb (Door.to_room d') (Room.room_id l))%bool) doors)%Z ->
  (0 < LayoutQualityScorer.score rooms (d :: doors))%Z ->
  LayoutQualityScorer.score rooms (d :: doors)
    = (LayoutQualityScorer.score rooms doors - 10)%Z.
Proof.
  intros Hl Hd. unfold LayoutQualityScorer.score, LayoutQualityScorer.count.
  cbv zeta. rewrite Hl. cbn [List.filter]. rewrite Hd. cbn [length].
  rewrite Nat2Z.inj_succ.
  destruct (List.find (has_purpose "kitchen") rooms) as [k |];
    repeat match goal with
           | |- context [if (?a <? ?b)%Z then _ else _] =>
               let E := fresh "E" in
               destruct (a <? b)%Z eqn:E;
               [apply Z.ltb_lt in E | apply Z.ltb_ge in E]
           end; intros; lia.
Qed.

Lemma score_excess_living_door_witness :
  List.find (has_purpose "living") [living_locked] = Some living_locked /\
  LayoutQualityScorer.score [living_locked] (third_living_door :: two_living_doors)
    = (LayoutQualityScorer.score [living_locked] two_living_doors - 10)%Z.
Proof.
  split; [reflexivity |].
  apply (score_excess_living_door [living_locked] two_living_doors
           third_living_door living_locked);
    [reflexivity | reflexivity | vm_compute; discriminate | reflexivity].
Defined.

(** ** Overlap Resolver: pushing *)

Lemma keeps_clearance_sym (c : Q) (a b : Room.t) :
  keeps_clearance c a b -> keeps_clearance c b a.
Proof. unfold keeps_clearance. tauto. Qed.

Lemma push_away_moves (mover anchor : Room.t) :
  let m := StrictOverlapResolver._push_away mover anchor in
  resolver_frame m = resolver_frame mover /\
  (Room.x m = Room.x mover \/ Room.y m = Room.y mover) /\
  keeps_clearance 1 m anchor.
Proof.
  cbv zeta. unfold StrictOverlapResolver._push_away, StrictOverlapResolver.CLEARANCE.
  cbn [Room.bounds].
  repeat match goal with
         | |- context [if ?t then _ else _] => destruct t
         end;
    (split; [reflexivity |]);
    (split; [cbn; tauto |]);
    unfold keeps_clearance; cbn [Room.x Room.y Room.width Room.height Room.set_x Room.set_y].
  - right; left. lra.
  - left. lra.
  - right; right; right. lra.
  - right; right; left. lra.
Qed.

(** X13: [_push_away] moves the mover along one axis only, changes
    nothing else in it, and always leaves it at least [CLEARANCE] = 1
    away from the anchor, whatever the two rectangles were. *)
Theorem push_away_clears (mover anchor : Room.t) :
  let m := StrictOverlapResolver._push_away mover anchor in
  resolver_frame m = resolver_frame mover /\
  (Room.x m = Room.x mover \/ Room.y m = Room.y mover) /\
  keeps_clearance 1 m anchor.
Proof. exact (push_away_moves mover anchor). Qed.

Lemma handle_pair_moves (a b : Room.t) :
  living_stays a b = false ->
  let '(a', b', moved) := StrictOverlapResolver.handle_pair a b in
  moved = true /\
  (a' = a \/ b' = b) /\
  resolver_frame a' = resolver_frame a /\
  resolver_frame b' = resolver_frame b /\
  keeps_clearance 1 a' b'.
Proof.
  assert (Hb : forall m o, m = StrictOverlapResolver._push_away b a -> o = a ->
            true = true /\ (o = a \/ m = b) /\
            resolver_frame o = resolver_frame a /\
            resolver_frame m = resolver_frame b /\ keeps_clearance 1 o m).
  { intros m o -> ->. destruct (push_away_moves b a) as (Hf & _ & Hc).
    repeat split; auto. apply keeps_clearance_sym. exact Hc. }
  assert (Ha : forall m o, m = StrictOverlapResolver._push_away a b -> o = b ->
            true = true /\ (m = a \/ o = b) /\
            resolver_frame m = resolver_frame a /\
            resolver_frame o = resolver_frame b /\ keeps_clearance 1 m o).
  { intros m o -> ->. destruct (push_away_moves a b) as (Hf & _ & Hc).
    repeat split; auto. }
  unfold living_stays, StrictOverlapResolver.handle_pair,
    StrictOverlapResolver._apply_rules, StrictOverlapResolver._separate_by_priority,
    StrictOverlapResolver.CLEARANCE.
  destruct (has_purpose "kitchen" a && has_purpose "bedroom" b)%bool.
  { intros _. split; [reflexivity |]. split; [left; reflexivity |].
    split; [reflexivity |]. split; [reflexivity |].
    unfold keeps_clearance. cbn. right; right; left. lra. }
  destruct (has_purpose "kitchen" b && has_purpose "bedroom" a)%bool.
  { intros _. split; [reflexivity |]. split; [right; reflexivity |].
    split; [reflexivity |]. split; [reflexivity |].
    unfold keeps_clearance. cbn. right; right; right. lra. }
  cbn [negb andb].
  destruct (has_purpose "living" a).
  { destruct (Room.locked a); [discriminate |]. intros _. cbn [negb]. now apply Hb. }
  destruct (has_purpose "living" b).
  { destruct (Room.locked b); [discriminate |]. intros _. cbn [negb]. now apply Ha. }
  intros _.
  repeat match goal with
         | |- context [if ?t then _ else _] => destruct t
         end; first [now apply Hb | now apply Ha].
Qed.

(** X14: except when the rule for a locked living room applies, handling
    a pair moves at most one of the two rooms, changes nothing but its
    position, and leaves the two rooms at least one unit apart. *)
Theorem handle_pair_clears (a b : Room.t) :
  living_stays a b = false ->
  let '(a', b', moved) := StrictOverlapResolver.handle_pair a b in
  moved = true /\
  (a' = a \/ b' = b) /\
  resolver_frame a' = resolver_frame a /\
  resolver_frame b' = resolver_frame b /\
  keeps_clearance 1 a' b'.
Proof. exact (handle_pair_moves a b). Qed.

Lemma handle_pair_clears_witness :
  living_stays study_room store_room = false /\
  keeps_clearance 1 (Room.set_x 3 study_room) store_room.
Proof.
  split; [reflexivity |].
  pose proof (handle_pair_clears study_room store_room eq_refl) as H.
  vm_compute in H. vm_compute. tauto.
Defined.

(** ** Overlap Resolver: passes *)

Lemma index_pairs_sound (n i j : nat) :
  In (i, j) (StrictOverlapResolver.index_pairs n) -> (i < j)%nat /\ (j < n)%nat.
Proof.
  unfold StrictOverlapResolver.index_pairs. intros H.
  apply in_flat_map in H as (i' & Hi & H).
  apply in_map_iff in H as (j' & [= <- <-] & Hj).
  apply in_seq in Hi. apply in_seq in Hj. lia.
Qed.

Lemma visits_of_separated (rs : list Room.t) (pairs : list (nat * nat))
    (changed : bool) (n : nat) :
  (forall i j, In (i, j) pairs ->
     StrictOverlapResolver._overlaps (get rs i) (get rs j) = false) ->
  fold_left StrictOverlapResolver.visit pairs (rs, changed, n) = (rs, changed, n).
Proof.
  induction pairs as [| [i j] pairs IH]; intros H; [reflexivity |].
  cbn [fold_left]. unfold StrictOverlapResolver.visit at 2.
  rewrite (H i j (or_introl eq_refl)). cbn [negb].
  apply IH. intros i' j' Hin. apply H. right. exact Hin.
Qed.

(** X15: an overlap-free room list is a fixed point of the resolver: the
    first pass finds nothing and [resolve] returns the list unchanged. *)
Theorem resolve_fixed_point (rs : list Room.t) :
  (forall i j a b, (i < j)%nat -> rs !! i = Some a -> rs !! j = Some b ->
     separated a b) ->
  StrictOverlapResolver.pass rs = (rs, false, 0%nat) /\
  StrictOverlapResolver.resolve rs = rs.
Proof.
  intros Hsep.
  assert (Hpass : StrictOverlapResolver.pass rs = (rs, false, 0%nat)).
  { unfold StrictOverlapResolver.pass. apply visits_of_separated.
    intros i j Hin. apply index_pairs_sound in Hin as [Hij Hjn].
    destruct (rs !! i) as [a |] eqn:Ea.
    2:{ apply lookup_ge_None in Ea. lia. }
    destruct (rs !! j) as [b |] eqn:Eb.
    2:{ apply lookup_ge_None in Eb. lia. }
    rewrite (get_lookup _ _ _ Ea), (get_lookup _ _ _ Eb).
    apply overlaps_false_separated. exact (Hsep i j a b Hij Ea Eb). }
  split; [exact Hpass |].
  unfold StrictOverlapResolver.resolve, StrictOverlapResolver.MAX_ITERS.
  cbn [StrictOverlapResolver.resolve_from]. rewrite Hpass. reflexivity.
Qed.

Lemma resolve_fixed_point_witness :
  StrictOverlapResolver.resolve [Room.set_x 3 study_room; store_room]
    = [Room.set_x 3 study_room; store_room].
Proof.
  apply (resolve_fixed_point [Room.set_x 3 study_room; store_room]).
  intros [| [| i]] [| [| [| j]]] a b Hij Ha Hb; try lia; try discriminate.
  injection Ha as <-. injection Hb as <-.
  unfold separated. vm_compute. left. discriminate.
Defined.

Lemma map_insert_frame {B} (f : Room.t -> B) (rs : list Room.t) (i : nat) (v : Room.t) :
  (forall r, rs !! i = Some r -> f v = f r) ->
  map f (<[i := v]> rs) = map f rs.
Proof.
  revert i. induction rs as [| r rs IH]; intros i H; [reflexivity |].
  destruct i as [| i]; cbn.
  - rewrite (H r eq_refl). reflexivity.
  - f_equal. apply IH. intros r' Hr'. apply H. exact Hr'.
Qed.

Lemma handle_pair_frame (a b : Room.t) :
  let '(a', b', _) := StrictOverlapResolver.handle_pair a b in
  resolver_frame a' = resolver_frame a /\ resolver_frame b' = resolver_frame b.
Proof.
  destruct (living_stays a b) eqn:E.
  - unfold living_stays in E.
    unfold StrictOverlapResolver.handle_pair, StrictOverlapResolver._apply_rules.
    destruct (has_purpose "kitchen" a && has_purpose "bedroom" b)%bool; [discriminate |].
    destruct (has_purpose "kitchen" b && has_purpose "bedroom" a)%bool; [discriminate |].
    cbn [negb andb] in E.
    destruct (has_purpose "living" a).
    + rewrite E. cbn. split; reflexivity.
    + destruct (has_purpose "living" b); [| discriminate].
      cbn [andb] in E. rewrite E. cbn. split; reflexivity.
  - pose proof (handle_pair_moves a b E) as H.
    destruct (StrictOverlapResolver.handle_pair a b) as [[a' b'] moved].
    tauto.
Qed.

Lemma visit_frame (st : StrictOverlapResolver.pass_state) (ij : nat * nat) :
  map resolver_frame (fst (fst (StrictOverlapResolver.visit st ij)))
    = map resolver_frame (fst (fst st)).
Proof.
  destruct st as [[rs changed] n], ij as [i j]. unfold StrictOverlapResolver.visit.
  repeat match goal with
         | |- context [if ?t then _ else _] => destruct t; try reflexivity
         end.
  pose proof (handle_pair_frame (get rs i) (get rs j)) as Hf.
  destruct (StrictOverlapResolver.handle_pair (get rs i) (get rs j)) as [[a' b'] moved].
  destruct Hf as [Hfa Hfb]. cbn [fst].
  rewrite map_insert_frame.
  - apply map_insert_frame. intros r Hr. rewrite Hfa, (get_lookup _ _ _ Hr). reflexivity.
  - intros r Hr. destruct (decide (i = j)) as [-> | Hne].
    + apply list_lookup_insert_Some in Hr as [(_ & <- & _) | (Hne & _)]; [| contradiction].
      rewrite Hfa, Hfb. reflexivity.
    + rewrite list_lookup_insert_ne in Hr by exact Hne.
      rewrite Hfb, (get_lookup _ _ _ Hr). reflexivity.
Qed.

Lemma pass_frame (rs : list Room.t) :
  map resolver_frame (fst (fst (StrictOverlapResolver.pass rs))) = map resolver_frame rs.
Proof.
  unfold StrictOverlapResolver.pass.
  generalize (StrictOverlapResolver.index_pairs (length rs)) as pairs.
  change (map resolver_frame rs)
    with (map resolver_frame (fst (fst (rs, false, 0%nat)))).
  generalize (rs, false, 0%nat) as st.
  intros st pairs. revert st.
  induction pairs as [| ij pairs IH]; intros st; [reflexivity |].
  cbn [fold_left]. rewrite IH. apply visit_frame.
Qed.

Lemma resolve_from_frame (iters : nat) (rs : list Room.t) :
  map resolver_frame (fst (StrictOverlapResolver.resolve_from iters rs))
    = map resolver_frame rs.
Proof.
  revert rs. induction iters as [| n IH]; intros rs; [reflexivity |].
  cbn [StrictOverlapResolver.resolve_from].
  pose proof (pass_frame rs) as Hp.
  destruct (StrictOverlapResolver.pass rs) as [[rs1 changed] found]. cbn [fst] in Hp.
  destruct (negb changed && Nat.eqb found 0)%bool; cbn [fst].
  - exact Hp.
  - rewrite IH. exact Hp.
Qed.

(** X16: [resolve] only ever relocates rooms: the list it returns has the
    same rooms in the same order, each with its identity, edges, size,
    lock flag and priority unchanged. *)
Theorem resolve_only_moves (rooms : list Room.t) :
  map resolver_frame (StrictOverlapResolver.resolve rooms) = map resolver_frame rooms.
Proof. apply resolve_from_frame. Qed.

(** ** Adjacency Refiner and Zone Placer: what they leave alone *)

Lemma map_alter_frame {B} (f : Room.t -> B) (g : Room.t -> Room.t)
    (rs : list Room.t) (i : nat) :
  (forall r, f (g r) = f r) -> map f (alter g i rs) = map f rs.
Proof.
  intros H. revert i. induction rs as [| r rs IH]; intros i; [reflexivity |].
  destruct i as [| i]; cbn.
  - rewrite H. reflexivity.
  - f_equal. apply IH.
Qed.

Lemma fold_left_frame {A B} (f : Room.t -> B) (step : list Room.t -> A -> list Room.t)
    (l : list A) (rs : list Room.t) :
  (forall s a, map f (step s a) = map f s) ->
  map f (fold_left step l rs) = map f rs.
Proof.
  intros H. revert rs. induction l as [| a l IH]; intros rs; [reflexivity |].
  cbn [fold_left]. rewrite IH. apply H.
Qed.

Lemma force_master_shape (rs : list Room.t) :
  map shape (StrictAdjacencyRefiner.force_master rs) = map shape rs.
Proof.
  unfold StrictAdjacencyRefiner.force_master.
  destruct (find_index is_master_bed rs); [| reflexivity].
  destruct (find_index is_master_bath rs); [| reflexivity].
  rewrite !map_alter_frame by reflexivity. reflexivity.
Qed.

Lemma attach_one_shape (bounds : Q * Q * Q * Q) (rs : list Room.t)
    (att : Z * nat * nat * Edge.t) :
  map shape (StrictAdjacencyRefiner.attach_one bounds rs att) = map shape rs.
Proof.
  destruct att as [[[p anchor] target] edge]. unfold StrictAdjacencyRefiner.attach_one.
  repeat match goal with
         | |- context [if ?t then _ else _] => destruct t; try reflexivity
         end.
  destruct (StrictAdjacencyRefiner._best_snap anchor target rs bounds edge)
    as [[bx by_] |]; [| reflexivity].
  rewrite !map_alter_frame by reflexivity. reflexivity.
Qed.

Lemma iteration_shape (bounds : Q * Q * Q * Q) (rs : list Room.t) :
  map shape (StrictAdjacencyRefiner.iteration bounds rs) = map shape rs.
Proof.
  unfold StrictAdjacencyRefiner.iteration.
  rewrite fold_left_frame by (intros; apply attach_one_shape).
  apply force_master_shape.
Qed.

Lemma refine_shape (rooms : list Room.t) (bounds : Q * Q * Q * Q) (iterations : nat) :
  map shape (StrictAdjacencyRefiner.refine rooms bounds iterations) = map shape rooms.
Proof.
  unfold StrictAdjacencyRefiner.refine. rewrite map_map.
  rewrite (map_ext (fun r => shape (StrictAdjacencyRefiner._snap_room_to_grid r)) shape)
    by reflexivity.
  induction iterations as [| n IH]; [reflexivity |].
  rewrite Nat.iter_succ, iteration_shape. exact IH.
Qed.

(** X17: [refine] never resizes, renames or reorders: the rooms it
    returns have the shapes of the rooms it was given, in the same order,
    and every one of them sits on the 0.5 grid in x and in y. *)
Theorem refine_keeps_shape (rooms : list Room.t) (bounds : Q * Q * Q * Q)
    (iterations : nat) :
  map shape (StrictAdjacencyRefiner.refine rooms bounds iterations) = map shape rooms /\
  Forall (fun r => on_grid (Room.x r) /\ on_grid (Room.y r))
         (StrictAdjacencyRefiner.refine rooms bounds iterations).
Proof.
  split; [apply refine_shape |]. unfold StrictAdjacencyRefiner.refine.
  apply List.Forall_forall. intros r Hin.
  apply in_map_iff in Hin as (r0 & <- & _).
  unfold StrictAdjacencyRefiner._snap_room_to_grid,
    StrictAdjacencyRefiner._snap_to_grid, StrictAdjacencyRefiner.GRID.
  cbn [Room.x Room.y Room.set_x Room.set_y].
  split; eexists; reflexivity.
Qed.

(** Names the outermost [let] of the list under [map] in the goal. *)
Ltac name_let v :=
  lazymatch goal with
  | |- map ?f (let x := ?a in @?b x) = ?c =>
      pose (v := a); change (map f (b v) = c); cbv beta
  end.

Lemma place_kids_frame (mb : nat) (kids : list nat) :
  forall (i : nat) (rs : list Room.t),
    map placer_frame (ImprovedZonePlacer.place_kids mb i kids rs) = map placer_frame rs.
Proof.
  induction kids as [| k kids IH]; intros i rs; [reflexivity |].
  cbn [ImprovedZonePlacer.place_kids]. rewrite IH.
  rewrite !map_alter_frame by reflexivity. reflexivity.
Qed.

Lemma assign_priority_shape (r : Room.t) :
  shape (ImprovedZonePlacer.assign_priority r) = shape r.
Proof.
  unfold ImprovedZonePlacer.assign_priority.
  repeat match goal with
         | |- context [if ?t then _ else _] => destruct t
         end; reflexivity.
Qed.

Lemma place_frame (p : ImprovedZonePlacer.t) (rooms : list Room.t) :
  map placer_frame (ImprovedZonePlacer.place p rooms)
    = map placer_frame (map ImprovedZonePlacer.assign_priority rooms).
Proof.
  cbv beta delta [ImprovedZonePlacer.place].
  name_let rs0. fold rs0. clearbody rs0.
  name_let living_room. clearbody living_room.
  name_let foyer. clearbody foyer.
  name_let kitchen. clearbody kitchen.
  name_let master_bed. clearbody master_bed.
  name_let master_bath. clearbody master_bath.
  name_let common_bath. clearbody common_bath.
  name_let kids_rooms. clearbody kids_rooms.
  name_let rs1.
  assert (H1 : map placer_frame rs1 = map placer_frame rs0)
    by (subst rs1; destruct living_room;
        rewrite ?map_alter_frame by reflexivity; reflexivity).
  clearbody rs1.
  name_let rs2.
  assert (H2 : map placer_frame rs2 = map placer_frame rs1)
    by (subst rs2; destruct foyer, living_room;
        rewrite ?map_alter_frame by reflexivity; reflexivity).
  clearbody rs2.
  name_let rs3.
  assert (H3 : map placer_frame rs3 = map placer_frame rs2)
    by (subst rs3; destruct kitchen, foyer, living_room;
        rewrite ?map_alter_frame by reflexivity; reflexivity).
  clearbody rs3.
  name_let rs4.
  assert (H4 : map placer_frame rs4 = map placer_frame rs3)
    by (subst rs4; destruct common_bath, living_room;
        rewrite ?map_alter_frame by reflexivity; reflexivity).
  clearbody rs4.
  name_let rs5.
  assert (H5 : map placer_frame rs5 = map placer_frame rs4)
    by (subst rs5; destruct master_bed, kitchen;
        rewrite ?map_alter_frame by reflexivity; reflexivity).
  clearbody rs5.
  name_let rs6.
  assert (H6 : map placer_frame rs6 = map placer_frame rs5)
    by (subst rs6; destruct master_bath, master_bed;
        rewrite ?map_alter_frame by reflexivity; reflexivity).
  clearbody rs6.
  destruct kids_rooms, master_bed; rewrite ?place_kids_frame; congruence.
Qed.

(** X18: the Zone Placer sets priorities and positions and nothing else:
    it returns the rooms it was given, in order, with their shapes
    unchanged and with the priority of the purpose/name table; the later
    placement steps do not alter that priority. *)
Theorem place_keeps_shape (p : ImprovedZonePlacer.t) (rooms : list Room.t) :
  map shape (ImprovedZonePlacer.place p rooms) = map shape rooms /\
  map Room.priority (ImprovedZonePlacer.place p rooms)
    = map (fun r => Room.priority (ImprovedZonePlacer.assign_priority r)) rooms.
Proof.
  pose proof (place_frame p rooms) as H.
  split.
  - assert (E : map shape (ImprovedZonePlacer.place p rooms)
                = map fst (map placer_frame (ImprovedZonePlacer.place p rooms)))
      by (rewrite map_map; reflexivity).
    rewrite E, H, !map_map. apply map_ext. intros r. apply assign_priority_shape.
  - assert (E : map Room.priority (ImprovedZonePlacer.place p rooms)
                = map snd (map placer_frame (ImprovedZonePlacer.place p rooms)))
      by (rewrite map_map; reflexivity).
    rewrite E, H, !map_map. reflexivity.
Qed.

(** ** Corridor Inserter and Merger *)

Lemma make_corridor_new (a b : Room.t) (width : Q) :
  is_new_corridor (Room.make_corridor a b width).
Proof.
  unfold Room.make_corridor, is_new_corridor.
  destruct (Room.center a) as [ax ay], (Room.center b) as [bx by_].
  destruct (Qabs (ay - by_) <? Qabs (ax - bx)); cbn; repeat split.
Qed.

Lemma visit_edge_corridors (rooms : list Room.t) (room : Room.t)
    (st : CorridorInserter.insert_state) (edge : Edge.t) :
  Forall is_new_corridor (fst st) ->
  Forall is_new_corridor (fst (CorridorInserter.visit_edge rooms room st edge)) /\
  (length (fst (CorridorInserter.visit_edge rooms room st edge))
   <= S (length (fst st)))%nat.
Proof.
  intros H. destruct st as [corridors seen]. unfold CorridorInserter.visit_edge.
  cbn [fst] in H.
  destruct (String.eqb (Edge.type edge) "near"); [cbn; split; [exact H | lia] |].
  destruct (room_map_get rooms (Edge.to edge)) as [ti |]; [| cbn; split; [exact H | lia]].
  destruct (CorridorInserter._is_adjacent room (get rooms ti) 1);
    [cbn; split; [exact H | lia] |].
  destruct (existsb _ seen); [cbn; split; [exact H | lia] |].
  cbn [fst]. split.
  - apply Forall_app. split; [exact H |].
    constructor; [apply make_corridor_new | constructor].
  - rewrite length_app. cbn. lia.
Qed.

Lemma visit_edges_corridors (rooms : list Room.t) (room : Room.t) (edges : list Edge.t) :
  forall st : CorridorInserter.insert_state,
    Forall is_new_corridor (fst st) ->
    Forall is_new_corridor
      (fst (fold_left (CorridorInserter.visit_edge rooms room) edges st)) /\
    (length (fst (fold_left (CorridorInserter.visit_edge rooms room) edges st))
     <= length (fst st) + length edges)%nat.
Proof.
  induction edges as [| e edges IH]; intros st H.
  - cbn. split; [exact H | lia].
  - cbn [fold_left length].
    destruct (visit_edge_corridors rooms room st e H) as [H1 L1].
    destruct (IH _ H1) as [H2 L2]. split; [exact H2 | lia].
Qed.

Lemma visit_rooms_corridors (rooms : list Room.t) (scanned : list Room.t) :
  forall st : CorridorInserter.insert_state,
    Forall is_new_corridor (fst st) ->
    let out := fold_left
                 (fun st room =>
                    fold_left (CorridorInserter.visit_edge rooms room)
                              (Room.adjacency room) st)
                 scanned st in
    Forall is_new_corridor (fst out) /\
    (length (fst out)
     <= length (fst st) + length (flat_map Room.adjacency scanned))%nat.
Proof.
  induction scanned as [| r scanned IH]; intros st H; cbv zeta.
  - cbn. split; [exact H | lia].
  - cbn [fold_left flat_map]. rewrite length_app.
    destruct (visit_edges_corridors rooms r (Room.adjacency r) st H) as [H1 L1].
    destruct (IH _ H1) as [H2 L2]. cbv zeta in H2, L2. split; [exact H2 | lia].
Qed.

Lemma insert_appends (rooms : list Room.t) :
  exists corridors,
    CorridorInserter.insert rooms = rooms ++ corridors /\
    Forall is_new_corridor corridors /\
    (length corridors <= 1 + length (flat_map Room.adjacency rooms))%nat.
Proof.
  unfold CorridorInserter.insert.
  set (first := match find_index (has_purpose "living") rooms,
                      find_index is_master_bed rooms with
                | Some l, Some m => [Room.make_corridor (get rooms l) (get rooms m) 5]
                | _, _ => []
                end).
  assert (Hfirst : Forall is_new_corridor first /\ (length first <= 1)%nat).
  { subst first.
    destruct (find_index (has_purpose "living") rooms);
      destruct (find_index is_master_bed rooms); cbn;
      (split; [repeat constructor; apply make_corridor_new | lia]). }
  destruct Hfirst as [Hf Lf].
  destruct (visit_rooms_corridors rooms rooms (first, []) Hf) as [H L].
  cbv zeta in H, L. cbn [fst] in L.
  destruct (fold_left
              (fun (st : CorridorInserter.insert_state) (room : Room.t) =>
                 fold_left (CorridorInserter.visit_edge rooms room)
                           (Room.adjacency room) st)
              rooms (first, [])) as [corridors seen].
  exists corridors. cbn [fst] in H, L. split; [reflexivity |]. split; [exact H | lia].
Qed.

(** X19: the Corridor Inserter appends and never touches what is there:
    its result is the room list it was given followed by new corridors,
    each an unlocked circulation room named Corridor without edges, and
    there are at most one of them per adjacency edge plus the one linking
    living room and master bedroom. *)
Theorem insert_only_appends (rooms : list Room.t) :
  exists corridors,
    CorridorInserter.insert rooms = rooms ++ corridors /\
    Forall is_new_corridor corridors /\
    (length corridors <= 1 + length (flat_map Room.adjacency rooms))%nat.
Proof. exact (insert_appends rooms). Qed.

Lemma absorb_kept (base : Room.t) (corridors : list Room.t) :
  forall (box box' : Q * Q * Q * Q) (kept : list Room.t),
    CorridorMerger.absorb base box corridors = (box', kept) ->
    (length kept <= length corridors)%nat /\
    (forall P : Room.t -> Prop, Forall P corridors -> Forall P kept).
Proof.
  induction corridors as [| c rest IH]; intros box box' kept; cbn [CorridorMerger.absorb].
  - intros [= <- <-]. split; [lia | auto].
  - destruct (CorridorMerger._can_merge base c (1 # 2)).
    + destruct box as [[[bx1 by1] bx2] by2].
      destruct (Room.bounds c) as [[[cx1 cy1] cx2] cy2].
      intros H. destruct (IH _ _ _ H) as [L F]. split; [cbn; lia |].
      intros P HP. apply F. inversion HP; assumption.
    + destruct (CorridorMerger.absorb base box rest) as [box1 kept1] eqn:E.
      intros [= <- <-]. destruct (IH _ _ _ E) as [L F]. split; [cbn; lia |].
      intros P HP. inversion HP; subst. constructor; [assumption | apply F; assumption].
Qed.

Lemma merge_loop_spec (fuel : nat) :
  forall corridors : list Room.t,
    Forall (fun c => is_circulation c = true) corridors ->
    let merged := CorridorMerger.merge_loop fuel corridors in
    Forall (fun c => is_circulation c = true /\
                     4 <= Room.width c /\ 4 <= Room.height c) merged /\
    (length merged <= length corridors)%nat /\
    ((length corridors <= fuel)%nat -> corridors <> [] -> merged <> []).
Proof.
  induction fuel as [| n IH]; intros corridors Hc; cbv zeta.
  - cbn. split; [constructor |]. split; [lia |].
    intros L Hne. destruct corridors; [contradiction | cbn in L; lia].
  - destruct corridors as [| base rest].
    + cbn. split; [constructor |]. split; [lia |]. intros _ H. contradiction.
    + cbn [CorridorMerger.merge_loop].
      destruct (CorridorMerger.absorb base (Room.bounds base) rest)
        as [[[[bx1 by1] bx2] by2] kept] eqn:E.
      destruct (absorb_kept _ _ _ _ _ E) as [L F].
      inversion Hc as [| ? ? Hbase Hrest]; subst.
      destruct (IH kept (F _ Hrest)) as (H1 & H2 & _). cbv zeta in H1, H2.
      split; [| split; [cbn; lia | intros _ _; discriminate]].
      constructor; [| exact H1].
      split; [exact Hbase |].
      cbn [Room.width Room.height Room.set_width Room.set_height Room.set_x Room.set_y].
      split; apply Q.le_max_r.
Qed.

Lemma filter_negb_all {A} (p : A -> bool) (l : list A) :
  Forall (fun a => p a = true) l -> List.filter (fun a => negb (p a)) l = [].
Proof.
  induction 1 as [| a l Ha _ IH]; [reflexivity |].
  cbn. rewrite Ha. exact IH.
Qed.

Lemma filter_filter_same {A} (p : A -> bool) (l : list A) :
  List.filter p (List.filter p l) = List.filter p l.
Proof.
  induction l as [| a l IH]; [reflexivity |].
  cbn. destruct (p a) eqn:E; [cbn; rewrite E, IH; reflexivity | exact IH].
Qed.

Lemma filter_all_true {A} (p : A -> bool) (l : list A) :
  Forall (fun a => p a = true) (List.filter p l).
Proof.
  induction l as [| a l IH]; [constructor |].
  cbn. destruct (p a) eqn:E; [constructor; assumption | exact IH].
Qed.

Lemma merge_rooms_first (rooms : list Room.t) :
  List.filter (fun r => negb (is_circulation r)) (CorridorMerger.merge rooms)
    = List.filter (fun r => negb (is_circulation r)) rooms /\
  Forall (fun c => is_circulation c = true -> 4 <= Room.width c /\ 4 <= Room.height c)
         (CorridorMerger.merge rooms) /\
  (length (CorridorMerger.merge rooms) <= length rooms)%nat /\
  (existsb is_circulation rooms = true ->
   existsb is_circulation (CorridorMerger.merge rooms) = true).
Proof.
  change (CorridorMerger.merge rooms)
    with (List.filter (fun r => negb (is_circulation r)) rooms ++
          CorridorMerger.merge_loop (length (List.filter is_circulation rooms))
                                    (List.filter is_circulation rooms)).
  set (corridors := List.filter is_circulation rooms).
  set (others := List.filter (fun r => negb (is_circulation r)) rooms).
  assert (Hc : Forall (fun c => is_circulation c = true) corridors)
    by apply filter_all_true.
  destruct (merge_loop_spec (length corridors) corridors Hc) as (H1 & H2 & H3).
  cbv zeta in H1, H2, H3.
  set (merged := CorridorMerger.merge_loop (length corridors) corridors) in *.
  split; [| split; [| split]].
  - rewrite List.filter_app. subst others.
    rewrite (filter_filter_same (fun r => negb (is_circulation r)) rooms).
    rewrite (filter_negb_all is_circulation merged); [apply app_nil_r |].
    eapply List.Forall_impl; [| exact H1]. cbn. tauto.
  - apply Forall_app. split.
    + subst others. eapply List.Forall_impl;
        [| apply (filter_all_true (fun r => negb (is_circulation r)) rooms)].
      cbn. intros r Hr Hcirc. rewrite Hcirc in Hr. discriminate.
    + eapply List.Forall_impl; [| exact H1]. cbn. tauto.
  - rewrite length_app.
    pose proof (filter_length is_circulation rooms) as Hlen.
    fold corridors in Hlen. fold others in Hlen. lia.
  - intros Hex. rewrite existsb_app. apply orb_true_iff. right.
    assert (Hne : corridors <> []).
    { apply existsb_exists in Hex as (r & Hin & Hr). intros Hnil.
      assert (Hin' : In r corridors) by (apply filter_In; split; assumption).
      rewrite Hnil in Hin'. contradiction. }
    specialize (H3 (Nat.le_refl _) Hne).
    destruct merged as [| m merged']; [contradiction |].
    inversion H1 as [| ? ? (Hm & _) _]; subst. cbn. rewrite Hm. reflexivity.
Qed.


(** X21: the merging loop has run to the end when [merge] returns: with
    the [length corridors] rounds it is given the loop has emptied its
    work list, and more rounds would change nothing. *)
Theorem merge_loop_fuel (corridors : list Room.t) (fuel : nat) :
  (length corridors <= fuel)%nat ->
  CorridorMerger.merge_loop fuel corridors
    = CorridorMerger.merge_loop (length corridors) corridors.
Proof.
  assert (H : forall k corridors, (length corridors <= k)%nat ->
            forall fuel, (length corridors <= fuel)%nat ->
              CorridorMerger.merge_loop fuel corridors
                = CorridorMerger.merge_loop (length corridors) corridors).
  { induction k as [| k IH]; intros cs Hk n Hf.
    - destruct cs; [| cbn in Hk; lia]. destruct n; reflexivity.
    - destruct cs as [| base rest]; [destruct n; reflexivity |].
      destruct n as [| n]; [cbn in Hf; lia |].
      cbn [length CorridorMerger.merge_loop].
      destruct (CorridorMerger.absorb base (Room.bounds base) rest)
        as [[[[bx1 by1] bx2] by2] kept] eqn:E.
      destruct (absorb_kept _ _ _ _ _ E) as [L _].
      cbn in Hk, Hf. f_equal.
      rewrite (IH kept) by lia. symmetry. apply (IH kept); lia. }
  intros Hf. apply (H (length corridors)); [lia | exact Hf].
Qed.

Lemma merge_loop_fuel_witness :
  (length [corridor_room] <= 3)%nat /\
  CorridorMerger.merge_loop 3 [corridor_room]
    = CorridorMerger.merge_loop (length [corridor_room]) [corridor_room].
Proof.
  split; [cbn; lia |].
  apply (merge_loop_fuel [corridor_room] 3). cbn. lia.
Defined.

(** ** Room Expander: what it leaves alone *)

Lemma grew_refl (r : Room.t) : grew r r.
Proof.
  unfold grew. split; [reflexivity |]. split; [apply Qle_refl |].
  split; [apply Qle_refl | reflexivity].
Qed.

Lemma grew_purpose (r r' : Room.t) : grew r r' -> Room.purpose r' = Room.purpose r.
Proof. intros (H & _). unfold expander_frame, ident in H. congruence. Qed.

Lemma grew_trans (r1 r2 r3 : Room.t) : grew r1 r2 -> grew r2 r3 -> grew r1 r3.
Proof.
  intros H12 H23. pose proof (grew_purpose _ _ H12) as Hp.
  destruct H12 as (F1 & W1 & H1 & U1), H23 as (F2 & W2 & H2 & U2).
  split; [congruence |]. split; [lra |]. split; [lra |].
  intros Hb. rewrite (U1 Hb) in *. apply U2. exact Hb.
Qed.

Lemma Forall2_grew_refl (rs : list Room.t) : Forall2 grew rs rs.
Proof. induction rs; constructor; [apply grew_refl | assumption]. Qed.

Lemma Forall2_grew_trans (l1 l2 l3 : list Room.t) :
  Forall2 grew l1 l2 -> Forall2 grew l2 l3 -> Forall2 grew l1 l3.
Proof.
  intros H. revert l3. induction H as [| a b l1 l2 Hab _ IH]; intros l3 H23.
  - inversion H23. constructor.
  - inversion H23; subst. constructor; [eapply grew_trans; eassumption | apply IH; assumption].
Qed.

Lemma Forall2_grew_alter (g : Room.t -> Room.t) (rs : list Room.t) (i : nat) :
  (forall r, rs !! i = Some r -> grew r (g r)) ->
  Forall2 grew rs (alter g i rs).
Proof.
  revert i. induction rs as [| r rs IH]; intros i H; [constructor |].
  destruct i as [| i]; cbn.
  - constructor; [apply H; reflexivity | apply Forall2_grew_refl].
  - constructor; [apply grew_refl | apply IH; intros r' Hr'; apply H; exact Hr'].
Qed.

Lemma growable_step (g : Room.t -> Room.t) (rs : list Room.t) (i : nat) :
  (forall r, Room.purpose (g r) = Room.purpose r) ->
  growable rs i -> growable (alter g i rs) i.
Proof.
  intros Hg H r Hr. rewrite list_lookup_alter_eq in Hr.
  destruct (rs !! i) as [r0 |] eqn:E; [| discriminate].
  injection Hr as <-. specialize (H r0 E).
  unfold has_purpose in *. rewrite Hg. exact H.
Qed.

Lemma grow_width_grew (bounds : Q * Q * Q * Q) (steps : nat) (i : nat) :
  forall rs, growable rs i -> Forall2 grew rs (Expander.grow_width bounds steps i rs).
Proof.
  induction steps as [| n IH]; intros rs Hg; cbn [Expander.grow_width];
    [apply Forall2_grew_refl |].
  destruct (can_expand i rs bounds Expander.RESIZE_STEP 0 (1 # 2) false);
    [| apply Forall2_grew_refl].
  eapply Forall2_grew_trans; [| apply IH; apply growable_step; [reflexivity | exact Hg]].
  apply Forall2_grew_alter. intros r Hr. specialize (Hg r Hr).
  unfold grew, Expander.RESIZE_STEP. cbn. rewrite Hg.
  split; [reflexivity |]. split; [lra |]. split; [lra | discriminate].
Qed.

Lemma grow_height_grew (bounds : Q * Q * Q * Q) (steps : nat) (i : nat) :
  forall rs, growable rs i -> Forall2 grew rs (Expander.grow_height bounds steps i rs).
Proof.
  induction steps as [| n IH]; intros rs Hg; cbn [Expander.grow_height];
    [apply Forall2_grew_refl |].
  destruct (can_expand i rs bounds 0 Expander.RESIZE_STEP (1 # 2) false);
    [| apply Forall2_grew_refl].
  eapply Forall2_grew_trans; [| apply IH; apply growable_step; [reflexivity | exact Hg]].
  apply Forall2_grew_alter. intros r Hr. specialize (Hg r Hr).
  unfold grew, Expander.RESIZE_STEP. cbn. rewrite Hg.
  split; [reflexivity |]. split; [lra |]. split; [lra | discriminate].
Qed.

Lemma growable_grew (rs rs' : list Room.t) (i : nat) :
  Forall2 grew rs rs' -> growable rs i -> growable rs' i.
Proof.
  intros H. revert i. induction H as [| r r' rs rs' Hr _ IH]; intros i Hg r0 Hr0.
  - discriminate.
  - destruct i as [| i]; cbn in Hr0.
    + injection Hr0 as <-. specialize (Hg r eq_refl).
      unfold has_purpose in *. rewrite (grew_purpose _ _ Hr). exact Hg.
    + apply (IH i); [| exact Hr0]. intros r1 Hr1. apply Hg. exact Hr1.
Qed.

Lemma expand_one_grew (bounds : Q * Q * Q * Q) (rs : list Room.t) (i : nat) :
  Forall2 grew rs (Expander.expand_one bounds rs i).
Proof.
  unfold Expander.expand_one.
  destruct (has_purpose "bathroom" (get rs i) || has_purpose "circulation" (get rs i))%bool
    eqn:E; [apply Forall2_grew_refl |].
  assert (Hg : growable rs i).
  { intros r Hr. rewrite (get_lookup _ _ _ Hr) in E. exact E. }
  eapply Forall2_grew_trans; [apply grow_width_grew; exact Hg |].
  apply grow_height_grew. eapply growable_grew; [| exact Hg].
  apply grow_width_grew. exact Hg.
Qed.

Lemma expand_grew (bounds : Q * Q * Q * Q) (rs : list Room.t) :
  Forall2 grew rs (Expander.expand bounds rs).
Proof.
  unfold Expander.expand.
  generalize (sort_desc (fun i => Room.priority (get rs i)) (seq 0 (length rs))) as order.
  intros order. revert rs.
  induction order as [| i order IH]; intros rs.
  - cbn. apply Forall2_grew_refl.
  - cbn [fold_left]. eapply Forall2_grew_trans; [apply expand_one_grew |]. apply IH.
Qed.

(** X22: the Room Expander never moves, shrinks, renames or reorders a
    room: each room it returns differs from the one it was given at most
    in a width and a height that are no smaller, and bathrooms and
    circulation rooms come back exactly as they were. *)
Theorem expand_only_grows (bounds : Q * Q * Q * Q) (rs : list Room.t) :
  Forall2 grew rs (Expander.expand bounds rs).
Proof. exact (expand_grew bounds rs). Qed.

(** ** Adjacency Refiner: rooms that cannot be attached *)

Lemma oversize_outside (bounds : Q * Q * Q * Q) (t : Room.t) (cx cy : Q) :
  (let '(bx1, by1, bx2, by2) := bounds in
   bx2 - bx1 < Room.width t \/ by2 - by1 < Room.height t) ->
  StrictAdjacencyRefiner._inside_bounds (Room.set_y cy (Room.set_x cx t)) bounds = false.
Proof.
  destruct bounds as [[[bx1 by1] bx2] by2]. intros H.
  unfold StrictAdjacencyRefiner._inside_bounds.
  cbn [Room.bounds Room.x Room.y Room.width Room.height Room.set_x Room.set_y].
  destruct ((bx1 <=? cx) && (by1 <=? cy) && (cx + Room.width t <=? bx2) &&
            (cy + Room.height t <=? by2))%bool eqn:E; [| reflexivity].
  rewrite !andb_true_iff, !Qleb_le in E. lra.
Qed.

(** X23: a room wider or taller than the buildable area is never moved by
    an attach edge: none of the four candidate positions is within
    bounds, [_best_snap] returns [None] and the edge is a no-op. *)
Theorem attach_oversize_noop (bounds : Q * Q * Q * Q) (rs : list Room.t)
    (priority : Z) (anchor target : nat) (edge : Edge.t) (t : Room.t) :
  rs !! target = Some t ->
  (let '(bx1, by1, bx2, by2) := bounds in
   bx2 - bx1 < Room.width t \/ by2 - by1 < Room.height t) ->
  StrictAdjacencyRefiner._best_snap anchor target rs bounds edge = None /\
  StrictAdjacencyRefiner.attach_one bounds rs (priority, anchor, target, edge) = rs.
Proof.
  intros Ht Hbig.
  assert (Hsnap : StrictAdjacencyRefiner._best_snap anchor target rs bounds edge = None).
  { unfold StrictAdjacencyRefiner._best_snap.
    destruct (Room.bounds (get rs anchor)) as [[[ax1 ay1] ax2] ay2].
    assert (Hout : forall cx cy,
              StrictAdjacencyRefiner._inside_bounds
                (get (alter (Room.set_y cy) target (alter (Room.set_x cx) target rs)) target)
                bounds = false).
    { intros cx cy.
      assert (L1 : alter (Room.set_x cx) target rs !! target = Some (Room.set_x cx t))
        by (rewrite list_lookup_alter_eq, Ht; reflexivity).
      rewrite (get_alter_eq _ _ _ _ L1). apply oversize_outside. exact Hbig. }
    cbn [flat_map]. rewrite !Hout. reflexivity. }
  split; [exact Hsnap |].
  unfold StrictAdjacencyRefiner.attach_one. rewrite Hsnap.
  repeat match goal with
         | |- context [if ?c then _ else _] => destruct c
         end; reflexivity.
Qed.

Lemma attach_oversize_noop_witness :
  attach_sample !! 1%nat
    = Some (Room.mk "hall" "Hall" "hall" 32 10 "public" [] 0 0 false 50) /\
  StrictAdjacencyRefiner.attach_one BOUNDS attach_sample
    (50%Z, 0%nat, 1%nat, Edge.mk "hall" "attach" None) = attach_sample.
Proof.
  split; [reflexivity |].
  apply (attach_oversize_noop BOUNDS attach_sample 50 0 1 (Edge.mk "hall" "attach" None)
           (Room.mk "hall" "Hall" "hall" 32 10 "public" [] 0 0 false 50) eq_refl).
  left. reflexivity.
Defined.

(** ** The pipeline: inputs it accepts *)




(** ** The pipeline: the rooms of the plan reach the layout *)

Lemma room_idents_frame {B} (f : Room.t -> B)
    (g : B -> string * string * string * string) (l1 l2 : list Room.t) :
  (forall r, g (f r) = ident r) ->
  map f l1 = map f l2 -> room_idents l1 = room_idents l2.
Proof.
  intros Hg H. unfold room_idents. f_equal.
  rewrite <- (map_ext (fun r => g (f r)) ident Hg l1).
  rewrite <- (map_ext (fun r => g (f r)) ident Hg l2).
  rewrite <- !(map_map f g). rewrite H. reflexivity.
Qed.

Lemma room_idents_alter (g : Room.t -> Room.t) (rs : list Room.t) (i : nat) :
  (forall r, ident (g r) = ident r) -> room_idents (alter g i rs) = room_idents rs.
Proof.
  intros H. unfold room_idents. rewrite (map_alter_frame ident g rs i H). reflexivity.
Qed.

Lemma room_idents_lock (o : option nat) (rs : list Room.t) :
  room_idents (match o with
               | Some i => alter (Room.set_locked true) i rs
               | None => rs
               end) = room_idents rs.
Proof. destruct o; [apply room_idents_alter; reflexivity | reflexivity]. Qed.

Lemma room_idents_map (g : Room.t -> Room.t) (rs : list Room.t) :
  (forall r, ident (g r) = ident r) -> room_idents (map g rs) = room_idents rs.
Proof.
  intros H. unfold room_idents. rewrite map_map.
  rewrite (map_ext (fun r => ident (g r)) ident H rs). reflexivity.
Qed.

Lemma room_idents_place (p : ImprovedZonePlacer.t) (rooms : list Room.t) :
  room_idents (ImprovedZonePlacer.place p rooms) = room_idents rooms.
Proof.
  rewrite (room_idents_frame placer_frame (fun f => fst (fst (fst (fst f)))) _ _
             (fun r => eq_refl) (place_frame p rooms)).
  apply room_idents_map. intros r. unfold ImprovedZonePlacer.assign_priority.
  repeat match goal with
         | |- context [if ?t then _ else _] => destruct t
         end; reflexivity.
Qed.

Lemma room_idents_refine (rooms : list Room.t) (bounds : Q * Q * Q * Q) (n : nat) :
  room_idents (StrictAdjacencyRefiner.refine rooms bounds n) = room_idents rooms.
Proof.
  apply (room_idents_frame shape (fun f => fst (fst (fst f)))); [reflexivity |].
  apply refine_shape.
Qed.

Lemma room_idents_resolve (rooms : list Room.t) :
  room_idents (StrictOverlapResolver.resolve rooms) = room_idents rooms.
Proof.
  apply (room_idents_frame resolver_frame (fun f => fst (fst (fst (fst (fst f))))));
    [reflexivity |].
  apply resolve_from_frame.
Qed.

Lemma room_idents_insert (rooms : list Room.t) :
  room_idents (CorridorInserter.insert rooms) = room_idents rooms.
Proof.
  destruct (insert_appends rooms) as (cs & -> & Hcs & _).
  unfold room_idents. rewrite map_app, List.filter_app.
  assert (E : List.filter not_circulation (map ident cs) = []).
  { induction Hcs as [| c cs (_ & Hp & _) _ IH]; [reflexivity |].
    cbn. unfold not_circulation at 1, ident at 1. cbn [fst snd]. rewrite Hp.
    cbn. exact IH. }
  rewrite E. apply app_nil_r.
Qed.

Lemma room_idents_filter (rs : list Room.t) :
  room_idents rs = map ident (List.filter (fun r => negb (is_circulation r)) rs).
Proof. unfold room_idents. apply filter_map_swap. Qed.

Lemma room_idents_merge (rooms : list Room.t) :
  room_idents (CorridorMerger.merge rooms) = room_idents rooms.
Proof.
  rewrite !room_idents_filter.
  destruct (merge_rooms_first rooms) as (-> & _). reflexivity.
Qed.

Lemma room_idents_expand (bounds : Q * Q * Q * Q) (rs : list Room.t) :
  room_idents (Expander.expand bounds rs) = room_idents rs.
Proof.
  unfold room_idents. f_equal.
  induction (expand_grew bounds rs) as [| r r' l l' (Hf & _) _ IH]; [reflexivity |].
  cbn [map]. rewrite IH. f_equal. unfold expander_frame in Hf. congruence.
Qed.

Lemma room_idents_phases (rooms : list Room.t) :
  room_idents (fst (phases rooms)) = room_idents rooms.
Proof.
  unfold phases. cbn [fst].
  rewrite room_idents_expand, room_idents_refine.
  rewrite (room_idents_map lock_circulation)
    by (intros r; unfold lock_circulation; destruct (has_purpose "circulation" r);
        reflexivity).
  rewrite room_idents_merge, room_idents_resolve, room_idents_insert.
  rewrite !room_idents_lock.
  rewrite room_idents_refine, room_idents_resolve, room_idents_refine.
  apply room_idents_place.
Qed.

Lemma rooms_of_json_idents (js : list PlanJson.room) :
  forall rooms, rooms_of_json js = Ok rooms ->
    Forall2 (fun j r => plan_ident j = Some (ident r)) js rooms.
Proof.
  induction js as [| j js IH]; intros rooms; cbn [rooms_of_json].
  - intros [= <-]. constructor.
  - destruct (room_of_json j) as [r | e] eqn:Ej; cbn [bind]; [| discriminate].
    destruct (rooms_of_json js) as [rest | e]; cbn [bind]; [| discriminate].
    intros [= <-]. constructor; [| apply IH; reflexivity].
    unfold room_of_json in Ej. unfold plan_ident.
    destruct (PlanJson.room_id j); cbn [subscript bind] in Ej; [| discriminate].
    destruct (PlanJson.name j); cbn [subscript bind] in Ej; [| discriminate].
    destruct (PlanJson.purpose j); cbn [subscript bind] in Ej; [| discriminate].
    destruct (PlanJson.dimensions_ft j) as [[| w [| h ds]] |];
      cbn in Ej; try discriminate.
    destruct (PlanJson.placement_intent j) as [[z |] |]; cbn in Ej; try discriminate.
    injection Ej as <-. reflexivity.
Qed.

Lemma layout_room_idents (plan_json : PlanJson.t) (l : Layout.t) :
  generate_layout plan_json = Ok l ->
  Layout.bounds l = BOUNDS /\
  exists js rooms,
    PlanJson.rooms plan_json = Some js /\
    Forall2 (fun j r => plan_ident j = Some (ident r)) js rooms /\
    List.filter not_circulation (map layout_ident (Layout.rooms l))
      = List.filter not_circulation (map ident rooms).
Proof.
  unfold generate_layout.
  destruct (PlanJson.rooms plan_json) as [js |]; cbn [subscript bind]; [| discriminate].
  destruct (rooms_of_json js) as [rooms | e] eqn:Ejs; cbn [bind]; [| discriminate].
  pose proof (room_idents_phases rooms) as Hph.
  destruct (phases rooms) as [rs doors]. cbn [fst] in Hph.
  intros [= <-]. cbn [Layout.bounds Layout.rooms]. split; [reflexivity |].
  exists js, rooms. split; [reflexivity |].
  split; [apply rooms_of_json_idents; exact Ejs |].
  fold (room_idents rooms). rewrite <- Hph. unfold room_idents. f_equal.
  unfold polish_layout. rewrite !map_map. apply map_ext. intros r.
  unfold layout_ident, Layout.of_room, ident.
  cbn [Layout.room_id Layout.name Layout.purpose Layout.zone].
  assert (Hpol : forall c, ident (polish_room c) = ident c).
  { intros c. unfold polish_room.
    destruct (has_purpose "circulation" c);
      match goal with |- context [if ?t then _ else _] => destruct t end; reflexivity. }
  assert (Hcl : ident (clamp_to_bounds BOUNDS r) = ident r) by reflexivity.
  pose proof (Hpol (clamp_to_bounds BOUNDS r)) as H1. unfold ident in H1, Hcl.
  congruence.
Qed.

(** X25: [generate_layout] neither drops, duplicates, renames nor reorders
    the rooms of the plan: the rooms of the layout that are not
    circulation rooms carry, in order, the identifier, name, purpose and
    zone of the plan's rooms that are not circulation rooms; the bounds
    of the layout are (5, 5, 35, 35). *)
Theorem generate_layout_keeps_rooms (plan_json : PlanJson.t) (l : Layout.t) :
  generate_layout plan_json = Ok l ->
  Layout.bounds l = BOUNDS /\
  exists js rooms,
    PlanJson.rooms plan_json = Some js /\
    Forall2 (fun j r => plan_ident j = Some (ident r)) js rooms /\
    List.filter not_circulation (map layout_ident (Layout.rooms l))
      = List.filter not_circulation (map ident rooms).
Proof. exact (layout_room_idents plan_json l). Qed.

Lemma generate_layout_keeps_rooms_witness :
  generate_layout plan_two_stores = Ok two_stores_layout /\
  List.filter not_circulation (map layout_ident (Layout.rooms two_stores_layout))
    = [ ("r1", "Store", "store", "service");
        ("r2", "Study", "study", "semi_private") ]%string.
Proof.
  assert (Hrun : generate_layout plan_two_stores = Ok two_stores_layout)
    by (vm_compute; reflexivity).
  split; [exact Hrun |].
  destruct (generate_layout_keeps_rooms plan_two_stores two_stores_layout Hrun)
    as (_ & js & rooms & _ & _ & _).
  reflexivity.
Defined.

(** ** Door Placer: the pairs without a door *)

Lemma door_between_allowed (a b : Room.t) (d : Door.t) :
  DoorPlacer.door_between a b = Some d ->
  door_excluded a b = false /\
  Door.from_room d = Room.room_id a /\ Door.to_room d = Room.room_id b /\
  (Door.orientation d = "vertical"%string \/ Door.orientation d = "horizontal"%string).
Proof.
  unfold DoorPlacer.door_between, door_excluded.
  destruct (DoorPlacer._shared_wall a b (1 # 5)) as [[[o px] py] |] eqn:Ew; [| discriminate].
  assert (Ho : o = "vertical"%string \/ o = "horizontal"%string).
  { unfold DoorPlacer._shared_wall in Ew. cbn [Room.bounds] in Ew.
    repeat match type of Ew with
           | context [if ?t then _ else _] => destruct t
           end; try discriminate; injection Ew as <- _ _; auto. }
  destruct (String.eqb (Room.zone a) "private"), (String.eqb (Room.zone b) "private"),
    (has_purpose "bathroom" a), (has_purpose "bathroom" b),
    (has_purpose "circulation" a), (has_purpose "circulation" b);
    cbn; try discriminate; intros [= <-]; cbn; auto.
Qed.

Lemma place_doors_from (rooms : list Room.t) (d : Door.t) :
  In d (DoorPlacer.place rooms) ->
  exists a b, In a rooms /\ In b rooms /\ DoorPlacer.door_between a b = Some d.
Proof.
  induction rooms as [| a rest IH]; cbn [DoorPlacer.place]; [contradiction |].
  intros Hin. apply in_app_or in Hin as [Hin | Hin].
  - assert (Hrow : exists b, In b rest /\ DoorPlacer.door_between a b = Some d).
    { clear IH. induction rest as [| b rest IH]; [contradiction |].
      cbn [omap list_omap] in Hin.
      destruct (DoorPlacer.door_between a b) as [d' |] eqn:Ed.
      - destruct Hin as [<- | Hin].
        + exists b. split; [left; reflexivity | exact Ed].
        + destruct (IH Hin) as (b' & Hb' & E). exists b'. split; [right |]; assumption.
      - destruct (IH Hin) as (b' & Hb' & E). exists b'. split; [right |]; assumption. }
    destruct Hrow as (b & Hb & E). exists a, b.
    split; [left; reflexivity |]. split; [right; exact Hb | exact E].
  - destruct (IH Hin) as (a' & b & Ha' & Hb & E). exists a', b.
    split; [right; exact Ha' |]. split; [right; exact Hb | exact E].
Qed.

(** X26: every door the Door Placer returns joins two rooms of the list
    that are not both circulation rooms and not both private rooms without
    a bathroom among them; it is vertical or horizontal. *)
Theorem doors_respect_exclusions (rooms : list Room.t) (d : Door.t) :
  In d (DoorPlacer.place rooms) ->
  exists a b,
    In a rooms /\ In b rooms /\
    Door.from_room d = Room.room_id a /\ Door.to_room d = Room.room_id b /\
    door_excluded a b = false /\
    (Door.orientation d = "vertical"%string \/ Door.orientation d = "horizontal"%string).
Proof.
  intros Hin. destruct (place_doors_from rooms d Hin) as (a & b & Ha & Hb & E).
  destruct (door_between_allowed a b d E) as (Hex & Hf & Ht & Ho).
  exists a, b. repeat split; assumption.
Qed.

Lemma doors_respect_exclusions_witness :
  In (Door.mk "liv" "kit" 10 (8 # 2) "vertical") (DoorPlacer.place living_kitchen) /\
  exists a b,
    In a living_kitchen /\ In b living_kitchen /\
    Door.from_room (Door.mk "liv" "kit" 10 (8 # 2) "vertical") = Room.room_id a /\
    Door.to_room (Door.mk "liv" "kit" 10 (8 # 2) "vertical") = Room.room_id b /\
    door_excluded a b = false /\
    (Door.orientation (Door.mk "liv" "kit" 10 (8 # 2) "vertical") = "vertical"%string \/
     Door.orientation (Door.mk "liv" "kit" 10 (8 # 2) "vertical") = "horizontal"%string).
Proof.
  assert (Hin : In (Door.mk "liv" "kit" 10 (8 # 2) "vertical")
                  (DoorPlacer.place living_kitchen))
    by (left; vm_compute; reflexivity).
  split; [exact Hin |].
  exact (doors_respect_exclusions living_kitchen _ Hin).
Defined.

(** ** Corridors: where they are put *)

(** X27: the corridor between two rooms is centred, across its axis, on
    the midpoint of the two room centers; along its axis it starts at the
    lower of the two centers and, when the centers are no more than 12
    apart, ends at the higher one. *)
Theorem make_corridor_span (a b : Room.t) (width : Q) :
  let c := Room.make_corridor a b width in
  let '(ax, ay) := Room.center a in
  let '(bx, by_) := Room.center b in
  (Qabs (ay - by_) < Qabs (ax - bx) ->
   Room.x c == Qmin ax bx /\
   Room.y c + Room.height c / 2 == (ay + by_) / 2 /\
   (Qabs (ax - bx) <= 12 -> Room.x c + Room.width c == Qmax ax bx)) /\
  (Qabs (ax - bx) <= Qabs (ay - by_) ->
   Room.y c == Qmin ay by_ /\
   Room.x c + Room.width c / 2 == (ax + bx) / 2 /\
   (Qabs (ay - by_) <= 12 -> Room.y c + Room.height c == Qmax ay by_)).
Proof.
  cbv zeta. unfold Room.make_corridor, Room.MAX_CORRIDOR_LEN.
  destruct (Room.center a) as [ax ay], (Room.center b) as [bx by_].
  assert (Hspan : forall u v, Qabs (u - v) <= 12 ->
            Qmin u v + Qmin (Qabs (u - v)) 12 == Qmax u v).
  { intros u v H. rewrite (Q.min_l _ _ H).
    destruct (Qlt_le_dec u v) as [Huv | Hvu].
    - rewrite (Q.min_l u v) by lra. rewrite (Q.max_r u v) by lra.
      rewrite Qabs_neg by lra. ring.
    - rewrite (Q.min_r u v) by lra. rewrite (Q.max_l u v) by lra.
      rewrite Qabs_pos by lra. ring. }
  split.
  - intros Hlt. apply Qltb_lt in Hlt. rewrite Hlt.
    cbn [Room.x Room.y Room.width Room.height].
    split; [reflexivity |]. split; [field |]. apply Hspan.
  - intros Hle. apply Qltb_ge in Hle. rewrite Hle.
    cbn [Room.x Room.y Room.width Room.height].
    split; [reflexivity |]. split; [field |]. apply Hspan.
Qed.

(** ** Looking rooms up by identifier *)

Lemma room_map_get_from_spec (rs : list Room.t) (k : string) :
  forall (i : nat),
    match room_map_get_from i rs k with
    | Some j =>
        (i <= j)%nat /\
        (exists r, rs !! (j - i)%nat = Some r /\ Room.room_id r = k) /\
        (forall m r, (j - i < m)%nat -> rs !! m = Some r -> Room.room_id r <> k)
    | None => forall m r, rs !! m = Some r -> Room.room_id r <> k
    end.
Proof.
  induction rs as [| r0 rs IH]; intros i; cbn [room_map_get_from].
  - intros m r H. discriminate.
  - specialize (IH (S i)).
    destruct (room_map_get_from (S i) rs k) as [j |].
    + destruct IH as (Hij & (r & Hr & Hk) & Hlast).
      split; [lia |]. split.
      * exists r. replace (j - i)%nat with (S (j - S i)) by lia. split; assumption.
      * intros m r' Hm Hr'. destruct m as [| m]; [lia |].
        apply (Hlast m r'); [lia | exact Hr'].
    + destruct (String.eqb (Room.room_id r0) k) eqn:E.
      * apply String.eqb_eq in E. split; [lia |]. rewrite Nat.sub_diag. split.
        -- exists r0. split; [reflexivity | exact E].
        -- intros m r' Hm Hr'. destruct m as [| m]; [lia |]. apply (IH m r'). exact Hr'.
      * apply String.eqb_neq in E. intros m r' Hr'.
        destruct m as [| m]; [injection Hr' as <-; exact E | apply (IH m r'); exact Hr'].
Qed.

(** X28: a room identifier resolves to the last room of the list that
    carries it, as the dictionary built from the list does; it resolves to
    nothing exactly when no room carries it. *)
Theorem room_map_get_last (rs : list Room.t) (k : string) :
  match room_map_get rs k with
  | Some j =>
      (exists r, rs !! j = Some r /\ Room.room_id r = k) /\
      (forall m r, (j < m)%nat -> rs !! m = Some r -> Room.room_id r <> k)
  | None => forall m r, rs !! m = Some r -> Room.room_id r <> k
  end.
Proof.
  unfold room_map_get. pose proof (room_map_get_from_spec rs k 0) as H.
  destruct (room_map_get_from 0 rs k) as [j |]; [| exact H].
  rewrite Nat.sub_0_r in H. destruct H as (_ & H1 & H2). split; assumption.
Qed.

(** ** Pairwise tests do not depend on the order of the pair *)

Lemma shared_length_sym (c u v s t : Q) :
  (c <? Qmin u v - Qmax s t) = (c <? Qmin v u - Qmax t s).
Proof.
  assert (E : Qmin u v - Qmax s t == Qmin v u - Qmax t s)
    by (rewrite (Q.min_comm u v), (Q.max_comm s t); reflexivity).
  destruct (c <? Qmin v u - Qmax t s) eqn:H.
  - apply Qltb_lt. apply Qltb_lt in H. rewrite E. exact H.
  - apply Qltb_ge. apply Qltb_ge in H. rewrite E. exact H.
Qed.

(** X29: the tests the phases apply to a pair of rooms give the same
    answer for [(a, b)] and for [(b, a)]: overlap (resolver and refiner),
    wall adjacency (corridor inserter), wall sharing (scorer), corridor
    mergeability and the master bedroom/bathroom test. *)
Theorem pair_tests_symmetric (a b : Room.t) (tol : Q) :
  StrictOverlapResolver._overlaps a b = StrictOverlapResolver._overlaps b a /\
  StrictAdjacencyRefiner._overlap a b = StrictAdjacencyRefiner._overlap b a /\
  CorridorInserter._is_adjacent a b tol = CorridorInserter._is_adjacent b a tol /\
  LayoutQualityScorer._shares_wall a b tol = LayoutQualityScorer._shares_wall b a tol /\
  CorridorMerger._can_merge a b tol = CorridorMerger._can_merge b a tol /\
  StrictOverlapResolver._is_master_pair a b = StrictOverlapResolver._is_master_pair b a.
Proof.
  unfold StrictOverlapResolver._overlaps, StrictAdjacencyRefiner._overlap,
    CorridorInserter._is_adjacent, LayoutQualityScorer._shares_wall,
    CorridorMerger._can_merge, StrictOverlapResolver._is_master_pair.
  cbn [Room.bounds].
  set (ax2 := Room.x a + Room.width a). set (ay2 := Room.y a + Room.height a).
  set (bx2 := Room.x b + Room.width b). set (by2 := Room.y b + Room.height b).
  set (ax1 := Room.x a). set (ay1 := Room.y a).
  set (bx1 := Room.x b). set (by1 := Room.y b).
  rewrite (Qltb_abs_sym bx2 ax1), (Qltb_abs_sym bx1 ax2),
    (Qltb_abs_sym by2 ay1), (Qltb_abs_sym by1 ay2),
    (Qltb_abs_sym bx1 ax1), (Qltb_abs_sym bx2 ax2),
    (Qltb_abs_sym by1 ay1), (Qltb_abs_sym by2 ay2).
  rewrite (shared_length_sym 1 by2 ay2 by1 ay1), (shared_length_sym 1 bx2 ax2 bx1 ax1),
    (shared_length_sym 2 by2 ay2 by1 ay1), (shared_length_sym 2 bx2 ax2 bx1 ax1).
  repeat split.
  - destruct (ax2 <=? bx1), (bx2 <=? ax1), (ay2 <=? by1), (by2 <=? ay1); reflexivity.
  - destruct (ax2 <=? bx1), (bx2 <=? ax1), (ay2 <=? by1), (by2 <=? ay1); reflexivity.
  - destruct (Qabs (ax2 - bx1) <? tol), (Qabs (ax1 - bx2) <? tol),
      (Qabs (ay2 - by1) <? tol), (Qabs (ay1 - by2) <? tol); reflexivity.
  - destruct (Qabs (ax2 - bx1) <? tol), (Qabs (ax1 - bx2) <? tol),
      (Qabs (ay2 - by1) <? tol), (Qabs (ay1 - by2) <? tol); reflexivity.
  - destruct (has_purpose "circulation" a), (has_purpose "circulation" b);
      cbn [negb orb]; try reflexivity.
    destruct (Qabs (ax1 - bx1) <? tol), (Qabs (ax2 - bx2) <? tol),
      (Qabs (ay1 - by1) <? tol), (Qabs (ay2 - by2) <? tol);
      cbn [andb]; try reflexivity;
      match goal with
      | |- negb (?p || ?q) = negb (?q || ?p) => destruct p, q; reflexivity
      end.
  - destruct (contains "master" (lower (Room.name a))),
      (contains "master" (lower (Room.name b))),
      (String.eqb (Room.purpose a) "bedroom"), (String.eqb (Room.purpose b) "bathroom"),
      (String.eqb (Room.purpose a) "bathroom"), (String.eqb (Room.purpose b) "bedroom");
      reflexivity.
Qed.

(** ** From the plan to the partition walls *)

Lemma partition_walls_count (cells : list Cell.t) :
  length (compute_room_partition_walls cells)
    = (4 * length (List.filter (fun c => negb (is_circulation_cell c)) cells))%nat.
Proof.
  unfold compute_room_partition_walls.
  induction cells as [| c cells IH]; [reflexivity |].
  cbn [List.filter flat_map].
  destruct (is_circulation_cell c) eqn:Ec; cbn [negb].
  - cbn [app]. exact IH.
  - destruct c as [cid cp cx cy cw ch]. rewrite length_app, IH. cbn [length]. lia.
Qed.

Lemma filter_noise_keeps_rooms (cells : list Cell.t) :
  List.filter (fun c => negb (is_circulation_cell c)) (filter_noise_cells cells)
    = List.filter (fun c => negb (is_circulation_cell c)) cells.
Proof.
  unfold filter_noise_cells.
  induction cells as [| c cells IH]; [reflexivity |].
  cbn [List.filter].
  destruct (is_circulation_cell c) eqn:Ec; cbn [andb negb].
  - destruct (Cell.area c <? MIN_CORRIDOR_AREA); cbn [negb List.filter].
    + exact IH.
    + rewrite Ec. cbn [negb]. exact IH.
  - cbn [List.filter]. rewrite Ec. cbn [negb]. f_equal. exact IH.
Qed.

(** X30: for a layout that [generate_layout] returns, the Envelope Builder
    derives, after its noise filter, exactly four partition-wall
    candidates for each room of the plan that is not a circulation room. *)
Theorem partition_walls_of_layout (plan_json : PlanJson.t) (l : Layout.t) :
  generate_layout plan_json = Ok l ->
  exists js,
    PlanJson.rooms plan_json = Some js /\
    length (compute_room_partition_walls (filter_noise_cells (rooms_to_cells l)))
      = (4 * length (List.filter plan_room_proper js))%nat.
Proof.
  intros Hrun.
  destruct (layout_room_idents plan_json l Hrun) as (_ & js & rooms & Hjs & Hrel & Hid).
  exists js. split; [exact Hjs |].
  rewrite partition_walls_count, filter_noise_keeps_rooms. f_equal.
  assert (Hcells : length (List.filter (fun c => negb (is_circulation_cell c))
                             (rooms_to_cells l))
                   = length (List.filter not_circulation
                               (map layout_ident (Layout.rooms l)))).
  { unfold rooms_to_cells. generalize (Layout.rooms l) as rs. intros rs.
    induction rs as [| r rs IH]; [reflexivity |].
    cbn [map List.filter].
    change (is_circulation_cell
              (Cell.mk (Layout.room_id r) (Layout.purpose r) (Layout.x r) (Layout.y r)
                       (Layout.width r) (Layout.height r)))
      with (String.eqb (Layout.purpose r) "circulation").
    change (not_circulation (layout_ident r))
      with (negb (String.eqb (Layout.purpose r) "circulation")).
    destruct (String.eqb (Layout.purpose r) "circulation"); cbn [negb length];
      [exact IH | f_equal; exact IH]. }
  rewrite Hcells, Hid. clear Hcells Hid Hrun Hjs.
  induction Hrel as [| j r js rooms Hj _ IH]; [reflexivity |].
  cbn [map List.filter].
  assert (E : plan_room_proper j = not_circulation (ident r)).
  { unfold plan_ident in Hj. unfold plan_room_proper.
    destruct (PlanJson.room_id j), (PlanJson.name j), (PlanJson.purpose j),
      (PlanJson.placement_intent j) as [[z |] |]; try discriminate.
    injection Hj as -> -> -> ->. reflexivity. }
  rewrite E. destruct (not_circulation (ident r)); cbn [length]; [f_equal |]; exact IH.
Qed.

Lemma partition_walls_of_layout_witness :
  generate_layout plan_two_stores = Ok two_stores_layout /\
  length (compute_room_partition_walls
            (filter_noise_cells (rooms_to_cells two_stores_layout))) = 8%nat.
Proof.
  assert (Hrun : generate_layout plan_two_stores = Ok two_stores_layout)
    by (vm_compute; reflexivity).
  split; [exact Hrun |].
  destruct (partition_walls_of_layout plan_two_stores two_stores_layout Hrun)
    as (js & Hjs & Hlen).
  injection Hjs as <-. exact Hlen.
Defined.
